(** * gh-repo-cli: a shallow embedding of the GitHub client, the prompt
      helpers and the command layer, with the properties of its
      specification.

    Sources embedded here:
    - [src/github-client.js] (class [GitHubClient]),
    - [src/utils.js] (the prompt and display helpers),
    - [src/commands.js] (class [GitHubCommands]), together with the earlier
      revision of its [bulkChangeRepositoryVisibility],
    - [index.js] (class [GitHubManager] and the command line).

    Conventions.
    - A JavaScript string is a [string]; each character is read as one
      code unit in the range 0..255.  Colour styling and pictographs that
      the display helpers add are dropped from message literals.
    - [async] code is sequential state passing over a [World]: the remote
      provider, the client object, the answers the user will type and the
      console.  A thrown [Error] is the outcome [Throw message]; the
      effects that happened before the throw stay in the world.
    - Every request sent through Octokit is appended to [calls], so that
      "no network call" and "no remote mutation" are statements about
      that log. *)

From Stdlib Require Import List String Ascii Bool Arith Lia Permutation.
From Stdlib Require Import DecimalString.
Import ListNotations.
Local Open Scope string_scope.
Local Open Scope list_scope.

Set Implicit Arguments.

(* ================================================================== *)
(** * JavaScript strings                                                *)
(* ================================================================== *)

Module Js.

(** WhiteSpace and LineTerminator code units below 256: TAB, LF, VT,
    FF, CR, SP and NBSP. *)
Definition isWhiteSpace (c : ascii) : bool :=
  let n := nat_of_ascii c in
  ((n =? 9) || (n =? 10) || (n =? 11) || (n =? 12) || (n =? 13)
   || (n =? 32) || (n =? 160))%nat.

Fixpoint trimStart (s : string) : string :=
  match s with
  | EmptyString => EmptyString
  | String c s' => if isWhiteSpace c then trimStart s' else s
  end.

Fixpoint trimEnd (s : string) : string :=
  match s with
  | EmptyString => EmptyString
  | String c s' =>
      match trimEnd s' with
      | EmptyString => if isWhiteSpace c then EmptyString else String c EmptyString
      | t => String c t
      end
  end.

(** [String.prototype.trim]. *)
Definition trim (s : string) : string := trimEnd (trimStart s).

(** [String(n)] for a non-negative integer. *)
Definition toString (n : nat) : string :=
  NilEmpty.string_of_uint (Nat.to_uint n).

(** Truthiness of a string: every string but the empty one. *)
Definition truthy (s : string) : bool :=
  match s with EmptyString => false | _ => true end.

(** [x || d] for an optional boolean: [undefined] and [false] both
    fall through to [d]. *)
Definition or_bool (x : option bool) (d : bool) : bool :=
  match x with Some true => true | _ => d end.

(** [x || d] for an optional array: every array is truthy. *)
Definition or_array {A} (x : option (list A)) (d : list A) : list A :=
  match x with Some l => l | None => d end.

(** [s] between two double quotes (code unit 34). *)
Definition quoted (s : string) : string :=
  String (ascii_of_nat 34) (s ++ String (ascii_of_nat 34) EmptyString).

(** [Array.prototype.includes] on strings. *)
Definition includes (l : list string) (s : string) : bool :=
  existsb (String.eqb s) l.

End Js.

(* ================================================================== *)
(** * Data model                                                        *)
(* ================================================================== *)

(** A repository as the provider's JSON has it.  The fields the client
    reads with a default ([||]) or the display tests for presence may be
    absent. *)
Module Raw.
Record t := mk {
  id : nat;
  name : string;
  full_name : string;
  description : option string;
  private : bool;
  fork : bool;
  language : option string;
  stargazers_count : nat;
  forks_count : nat;
  updated_at : string;
  created_at : string;
  html_url : string;
  clone_url : string;
  archived : option bool;
  default_branch : option string;
  size : option nat;
  open_issues_count : option nat;
  topics : option (list string)
}.
End Raw.

(** The object the client hands to the command layer.  The four detail
    keys exist only on the object built by [getRepository]; on a listing
    entry they are [undefined]. *)
Module Repo.
Record t := mk {
  id : nat;
  name : string;
  full_name : string;
  description : option string;
  private : bool;
  fork : bool;
  language : option string;
  stargazers_count : nat;
  forks_count : nat;
  updated_at : string;
  created_at : string;
  html_url : string;
  clone_url : string;
  archived : bool;
  default_branch : option string;
  size : option nat;
  open_issues_count : option nat;
  topics : option (list string)
}.
End Repo.

Record User := { login : string }.

Record Contributor := { contributor_login : string; contributions : nat }.

Record Commit := { sha : string; commit_message : string; commit_author_date : string }.

(** The parameter object of [repos.listForAuthenticatedUser]. *)
Record ListParams := {
  per_page : nat;
  page : nat;
  sort : string;
  direction : string
}.

(** The [options] argument of [listRepositories]: the keys it sets
    override the defaults through the object spread. *)
Record ListOptions := {
  opt_per_page : option nat;
  opt_page : option nat;
  opt_sort : option string;
  opt_direction : option string
}.

Definition no_options : ListOptions :=
  {| opt_per_page := None; opt_page := None; opt_sort := None; opt_direction := None |}.

(** The parameter object of [search.repos]. *)
Record SearchParams := {
  q : string;
  search_per_page : nat;
  search_sort : string
}.

Record SearchOptions := {
  sopt_q : option string;
  sopt_per_page : option nat;
  sopt_sort : option string
}.

Definition no_search_options : SearchOptions :=
  {| sopt_q := None; sopt_per_page := None; sopt_sort := None |}.

(** The body of [repos.update]. *)
Inductive Patch :=
| SetPrivate (isPrivate : bool)
| SetArchived (isArchived : bool).

(** Requests sent through Octokit. *)
Inductive Request :=
| UsersGetAuthenticated
| ReposListForAuthenticatedUser (params : ListParams)
| SearchRepos (params : SearchParams)
| ReposGet (owner repo : string)
| ReposDelete (owner repo : string)
| ReposUpdate (owner repo : string) (patch : Patch)
| ReposListContributors (owner repo : string)
| ReposListLanguages (owner repo : string)
| ReposListCommits (owner repo : string) (per_page : nat).

(** The requests that change the remote. *)
Definition is_mutation (req : Request) : bool :=
  match req with
  | ReposDelete _ _ | ReposUpdate _ _ _ => true
  | _ => false
  end.

Definition is_delete (req : Request) : bool :=
  match req with ReposDelete _ _ => true | _ => false end.

Definition is_identity_query (req : Request) : bool :=
  match req with UsersGetAuthenticated => true | _ => false end.

(** A response is the [data] of a fulfilled request or the message of
    the error a rejected one carries. *)
Definition Response (A : Type) : Type := (string + A)%type.

(** The [data] of a fulfilled request that may come without a body: the
    provider answers 204 to the request for the contributors of a
    repository without content, and [data] is then [undefined]. *)
Definition Body (A : Type) : Type := option A.

(** The provider, over a state [R] of its own.  Nothing is assumed of it:
    any endpoint may fail at any time and answer anything of its type. *)
Class Octokit (R : Type) := {
  users_getAuthenticated : R -> Response User * R;
  repos_listForAuthenticatedUser : ListParams -> R -> Response (list Raw.t) * R;
  search_repos : SearchParams -> R -> Response (list Raw.t) * R;
  repos_get : string -> string -> R -> Response Raw.t * R;
  repos_delete : string -> string -> R -> Response unit * R;
  repos_update : string -> string -> Patch -> R -> Response Raw.t * R;
  repos_listContributors :
    string -> string -> R -> Response (Body (list Contributor)) * R;
  repos_listLanguages :
    string -> string -> R -> Response (Body (list (string * nat))) * R;
  repos_listCommits :
    string -> string -> nat -> R -> Response (Body (list Commit)) * R
}.

(* ================================================================== *)
(** * Results of the client                                             *)
(* ================================================================== *)

(** What [updateRepositoryVisibility] returns. *)
Record VisibilityResult := {
  vis_id : nat;
  vis_name : string;
  vis_full_name : string;
  vis_private : bool;
  vis_html_url : string
}.

(** What [archiveRepository] and [unarchiveRepository] return. *)
Record ArchiveResult := {
  arc_id : nat;
  arc_name : string;
  arc_full_name : string;
  arc_archived : option bool;
  arc_html_url : string
}.

(** [{ name: repo.name, success: true }], pushed by the bulk delete. *)
Record Deleted := { deleted_name : string; deleted_success : bool }.

(** [{ ...result, success: true }], pushed by the other bulk loops. *)
Record Succeeded (A : Type) := { result : A; success : bool }.

(** [{ name: repo.name, error: error.message }]. *)
Record Failed := { failed_name : string; error : string }.

(** [{ results, errors }]. *)
Record Bulk (A : Type) := { results : list A; errors : list Failed }.

(** What [getRepositoryStats] returns; [languages] is the [data] of the
    languages request as it came. *)
Record Stats := {
  contributors_count : nat;
  languages : Body (list (string * nat));
  last_commit : option Commit
}.

(** What [showUserInfo] prints. *)
Record UserSummary := {
  info_username : string;
  info_total : nat;
  info_public : nat;
  info_private : nat;
  info_archived : nat;
  info_forks : nat;
  info_total_stars : nat;
  info_total_forks : nat
}.

(** Console output, one constructor per display helper. *)
Inductive Out :=
| SpinnerStart (text : string)
| SpinnerSucceed (text : string)
| SpinnerFail (text : string)
| DisplayInfo (message : string)
| DisplayWarning (message : string)
| DisplaySuccess (message : string)
| DisplayError (message : string)
| DisplayRepositoryList (repos : list Repo.t) (showDetails : bool)
| DisplayBulkResults (succeeded : list string) (failed : list Failed)
    (action targetState : string)
| DisplaySelection (repos : list Repo.t)
| DisplayUserInfo (summary : UserSummary)
| ConsoleLog (line : string)
| DisplayBulkConfirmation (action targetState : string) (count : nat)
    (shown : list string) (more : option nat)
| DisplayPopular (repos : list Repo.t)
| ValidationMessage (text : string)
| PromptConfirm (message : string)
| PromptCheckbox (message : string)
| PromptInput (message : string)
| PromptList (message : string).

(* ================================================================== *)
(** * The world and the monad of the program                            *)
(* ================================================================== *)

Inductive Outcome (A : Type) :=
| Ok (value : A)          (* the promise is fulfilled *)
| Throw (message : string) (* it is rejected with [new Error(message)] *)
| Blocked.                 (* a prompt waits for an answer that never comes *)

Arguments Ok {A} value.
Arguments Throw {A} message.
Arguments Blocked {A}.

Section Program.

Context {R : Type} {octokit : Octokit R}.

Record World := {
  remote : R;                      (* the provider *)
  calls : list Request;            (* requests sent so far, oldest first *)
  username : option string;        (* [this.username] of the client *)
  confirms : list bool;            (* answers to the coming confirm prompts *)
  checkboxes : list (list string); (* answers to the coming checkbox prompts *)
  inputs : list string;            (* answers to the coming input prompts *)
  choices : list nat;              (* answers to the coming list prompts *)
  console : list Out               (* what was printed, oldest first *)
}.

Definition with_remote (r : R) (w : World) : World :=
  {| remote := r; calls := calls w; username := username w;
     confirms := confirms w; checkboxes := checkboxes w; inputs := inputs w;
     choices := choices w; console := console w |}.

Definition with_calls (c : list Request) (w : World) : World :=
  {| remote := remote w; calls := c; username := username w;
     confirms := confirms w; checkboxes := checkboxes w; inputs := inputs w;
     choices := choices w; console := console w |}.

Definition with_username (u : option string) (w : World) : World :=
  {| remote := remote w; calls := calls w; username := u;
     confirms := confirms w; checkboxes := checkboxes w; inputs := inputs w;
     choices := choices w; console := console w |}.

Definition with_confirms (a : list bool) (w : World) : World :=
  {| remote := remote w; calls := calls w; username := username w;
     confirms := a; checkboxes := checkboxes w; inputs := inputs w;
     choices := choices w; console := console w |}.

Definition with_checkboxes (a : list (list string)) (w : World) : World :=
  {| remote := remote w; calls := calls w; username := username w;
     confirms := confirms w; checkboxes := a; inputs := inputs w;
     choices := choices w; console := console w |}.

Definition with_inputs (a : list string) (w : World) : World :=
  {| remote := remote w; calls := calls w; username := username w;
     confirms := confirms w; checkboxes := checkboxes w; inputs := a;
     choices := choices w; console := console w |}.

Definition with_choices (a : list nat) (w : World) : World :=
  {| remote := remote w; calls := calls w; username := username w;
     confirms := confirms w; checkboxes := checkboxes w; inputs := inputs w;
     choices := a; console := console w |}.

Definition with_console (o : list Out) (w : World) : World :=
  {| remote := remote w; calls := calls w; username := username w;
     confirms := confirms w; checkboxes := checkboxes w; inputs := inputs w;
     choices := choices w; console := o |}.

Definition M (A : Type) : Type := World -> Outcome A * World.

Definition ret {A} (a : A) : M A := fun w => (Ok a, w).

Definition bind {A B} (m : M A) (k : A -> M B) : M B :=
  fun w =>
    match m w with
    | (Ok a, w') => k a w'
    | (Throw message, w') => (Throw message, w')
    | (Blocked, w') => (Blocked, w')
    end.

Definition throw {A} (message : string) : M A := fun w => (Throw message, w).

(** [try { body } catch (error) { handler(error.message) }]. *)
Definition try_catch {A} (body : M A) (handler : string -> M A) : M A :=
  fun w =>
    match body w with
    | (Throw message, w') => handler message w'
    | other => other
    end.

(** [console.log] and the display helpers. *)
Definition print (o : Out) : M unit :=
  fun w => (Ok tt, with_console (console w ++ [o]) w).

(** One request through Octokit: it is logged, the provider moves on,
    and a rejected request throws the provider's message. *)
Definition send {A} (req : Request) (endpoint : R -> Response A * R) : M A :=
  fun w =>
    let (response, r') := endpoint (remote w) in
    let w' := with_remote r' (with_calls (calls w ++ [req]) w) in
    match response with
    | inl message => (Throw message, w')
    | inr data => (Ok data, w')
    end.

(** [for (const x of xs) { ... }] over accumulators the body pushes to. *)
Fixpoint for_of {X S} (xs : list X) (body : S -> X -> M S) (acc : S) : M S :=
  match xs with
  | [] => ret acc
  | x :: xs' => bind (body acc x) (for_of xs' body)
  end.

End Program.

Arguments World R : clear implicits.
Arguments M R A : clear implicits.

Declare Scope js_scope.
Delimit Scope js_scope with js.
Notation "x <- c1 ;; c2" := (bind c1 (fun x => c2))
  (at level 61, c1 at next level, right associativity) : js_scope.
Notation "c1 ;; c2" := (bind c1 (fun _ => c2))
  (at level 61, right associativity) : js_scope.
Notation "'try' body 'catch' handler" := (try_catch body handler)
  (at level 60, body at level 10, handler at level 10) : js_scope.
Local Open Scope js_scope.

(* ================================================================== *)
(** * github-client.js                                                  *)
(* ================================================================== *)

(** The entry built by the [map] of [listRepositories] and of
    [searchRepositories]. *)
Definition listing_entry (repo : Raw.t) : Repo.t :=
  {| Repo.id := Raw.id repo;
     Repo.name := Raw.name repo;
     Repo.full_name := Raw.full_name repo;
     Repo.description := Raw.description repo;
     Repo.private := Raw.private repo;
     Repo.fork := Raw.fork repo;
     Repo.language := Raw.language repo;
     Repo.stargazers_count := Raw.stargazers_count repo;
     Repo.forks_count := Raw.forks_count repo;
     Repo.updated_at := Raw.updated_at repo;
     Repo.created_at := Raw.created_at repo;
     Repo.html_url := Raw.html_url repo;
     Repo.clone_url := Raw.clone_url repo;
     Repo.archived := Js.or_bool (Raw.archived repo) false;
     Repo.default_branch := None;
     Repo.size := None;
     Repo.open_issues_count := None;
     Repo.topics := None |}.

(** The object built by [getRepository]. *)
Definition detail_entry (data : Raw.t) : Repo.t :=
  {| Repo.id := Raw.id data;
     Repo.name := Raw.name data;
     Repo.full_name := Raw.full_name data;
     Repo.description := Raw.description data;
     Repo.private := Raw.private data;
     Repo.fork := Raw.fork data;
     Repo.language := Raw.language data;
     Repo.stargazers_count := Raw.stargazers_count data;
     Repo.forks_count := Raw.forks_count data;
     Repo.updated_at := Raw.updated_at data;
     Repo.created_at := Raw.created_at data;
     Repo.html_url := Raw.html_url data;
     Repo.clone_url := Raw.clone_url data;
     Repo.archived := Js.or_bool (Raw.archived data) false;
     Repo.default_branch := Raw.default_branch data;
     Repo.size := Raw.size data;
     Repo.open_issues_count := Raw.open_issues_count data;
     Repo.topics := Some (Js.or_array (Raw.topics data) []) |}.

(** [{ per_page: 100, page: 2, sort: 'updated', direction: 'asc', ...options }]. *)
Definition list_params (options : ListOptions) : ListParams :=
  {| per_page := match opt_per_page options with Some n => n | None => 100 end;
     page := match opt_page options with Some n => n | None => 2 end;
     sort := match opt_sort options with Some s => s | None => "updated" end;
     direction := match opt_direction options with Some s => s | None => "asc" end |}.

(** [{ q: `${query} user:${username}`, per_page: 100, sort: 'updated', ...options }]. *)
Definition search_params (query user : string) (options : SearchOptions) : SearchParams :=
  {| q := match sopt_q options with
          | Some s => s
          | None => query ++ " user:" ++ user
          end;
     search_per_page := match sopt_per_page options with Some n => n | None => 100 end;
     search_sort := match sopt_sort options with Some s => s | None => "updated" end |}.

Definition push_result {A} (acc : Bulk A) (r : A) : Bulk A :=
  {| results := results acc ++ [r]; errors := errors acc |}.

Definition push_error {A} (acc : Bulk A) (e : Failed) : Bulk A :=
  {| results := results acc; errors := errors acc ++ [e] |}.

Definition no_outcomes {A} : Bulk A := {| results := []; errors := [] |}.

Module GitHubClient.
Section Client.

Context {R : Type} {octokit : Octokit R}.

Definition getUsername : M R string :=
  let query :=
    try (data <- send UsersGetAuthenticated users_getAuthenticated ;;
         (fun w => (Ok (login data), with_username (Some (login data)) w)))
    catch (fun error => throw ("Failed to get username: " ++ error)) in
  fun w =>
    match username w with
    | Some u => if Js.truthy u then ret u w else query w
    | None => query w
    end.

Definition listRepositories (options : ListOptions) : M R (list Repo.t) :=
  try (repos <- send (ReposListForAuthenticatedUser (list_params options))
                  (repos_listForAuthenticatedUser (list_params options)) ;;
       ret (map listing_entry repos))
  catch (fun error => throw ("Failed to list repositories: " ++ error)).

Definition listArchivedRepositories : M R (list Repo.t) :=
  try (repos <- listRepositories no_options ;;
       ret (filter (fun repo => Repo.archived repo) repos))
  catch (fun error => throw ("Failed to list archived repositories: " ++ error)).

Definition listActiveRepositories : M R (list Repo.t) :=
  try (repos <- listRepositories no_options ;;
       ret (filter (fun repo => negb (Repo.archived repo)) repos))
  catch (fun error => throw ("Failed to list active repositories: " ++ error)).

Definition listPublicRepositories : M R (list Repo.t) :=
  try (repos <- listRepositories no_options ;;
       ret (filter (fun repo => negb (Repo.private repo)) repos))
  catch (fun error => throw ("Failed to list active repositories: " ++ error)).

Definition listPrivateRepositories : M R (list Repo.t) :=
  try (repos <- listRepositories no_options ;;
       ret (filter (fun repo => Repo.private repo) repos))
  catch (fun error => throw ("Failed to list active repositories: " ++ error)).

Definition searchRepositories (query : string) (options : SearchOptions)
  : M R (list Repo.t) :=
  try (user <- getUsername ;;
       items <- send (SearchRepos (search_params query user options))
                  (search_repos (search_params query user options)) ;;
       ret (map listing_entry items))
  catch (fun error => throw ("Failed to search repositories: " ++ error)).

Definition getRepository (owner repo : string) : M R Repo.t :=
  try (data <- send (ReposGet owner repo) (repos_get owner repo) ;;
       ret (detail_entry data))
  catch (fun error => throw ("Failed to get repository: " ++ error)).

Definition deleteRepository (owner repo : string) : M R bool :=
  try (send (ReposDelete owner repo) (repos_delete owner repo) ;;
       ret true)
  catch (fun error => throw ("Failed to delete repository: " ++ error)).

(** [Promise.all] over three requests, each with its own [.catch]; they
    are started in the order written.  A rejected request gives the
    default of its [.catch]; a fulfilled one gives its [data], and
    [contributors.data.length] and [commits.data[0]] throw a TypeError
    when that [data] is [undefined]. *)
Definition getRepositoryStats (owner repo : string) : M R Stats :=
  try (contributors <-
         (try send (ReposListContributors owner repo) (repos_listContributors owner repo)
          catch (fun _ => ret (Some []))) ;;
       langs <-
         (try send (ReposListLanguages owner repo) (repos_listLanguages owner repo)
          catch (fun _ => ret (Some []))) ;;
       commits <-
         (try send (ReposListCommits owner repo 1) (repos_listCommits owner repo 1)
          catch (fun _ => ret (Some []))) ;;
       match contributors with
       | None => throw "Cannot read properties of undefined (reading 'length')"
       | Some contributors_data =>
           match commits with
           | None => throw "Cannot read properties of undefined (reading '0')"
           | Some commits_data =>
               ret {| contributors_count := List.length contributors_data;
                      languages := langs;
                      last_commit := hd_error commits_data |}
           end
       end)
  catch (fun error => throw ("Failed to get repository stats: " ++ error)).

Definition updateRepositoryVisibility (owner repo : string) (isPrivate : bool)
  : M R VisibilityResult :=
  try (data <- send (ReposUpdate owner repo (SetPrivate isPrivate))
                 (repos_update owner repo (SetPrivate isPrivate)) ;;
       ret {| vis_id := Raw.id data;
              vis_name := Raw.name data;
              vis_full_name := Raw.full_name data;
              vis_private := Raw.private data;
              vis_html_url := Raw.html_url data |})
  catch (fun error => throw ("Failed to update repository visibility: " ++ error)).

Definition archiveRepository (owner repo : string) : M R ArchiveResult :=
  try (data <- send (ReposUpdate owner repo (SetArchived true))
                 (repos_update owner repo (SetArchived true)) ;;
       ret {| arc_id := Raw.id data;
              arc_name := Raw.name data;
              arc_full_name := Raw.full_name data;
              arc_archived := Raw.archived data;
              arc_html_url := Raw.html_url data |})
  catch (fun error => throw ("Failed to archive repository: " ++ error)).

Definition unarchiveRepository (owner repo : string) : M R ArchiveResult :=
  try (data <- send (ReposUpdate owner repo (SetArchived false))
                 (repos_update owner repo (SetArchived false)) ;;
       ret {| arc_id := Raw.id data;
              arc_name := Raw.name data;
              arc_full_name := Raw.full_name data;
              arc_archived := Raw.archived data;
              arc_html_url := Raw.html_url data |})
  catch (fun error => throw ("Failed to unarchive repository: " ++ error)).

Definition bulkUpdateVisibility (owner : string) (repos : list Repo.t)
    (isPrivate : bool) : M R (Bulk (Succeeded VisibilityResult)) :=
  for_of repos
    (fun acc repo =>
       try (r <- updateRepositoryVisibility owner (Repo.name repo) isPrivate ;;
            ret (push_result acc {| result := r; success := true |}))
       catch (fun error =>
                ret (push_error acc {| failed_name := Repo.name repo; error := error |})))
    no_outcomes.

Definition bulkArchiveRepositories (owner : string) (repos : list Repo.t)
  : M R (Bulk (Succeeded ArchiveResult)) :=
  for_of repos
    (fun acc repo =>
       try (r <- archiveRepository owner (Repo.name repo) ;;
            ret (push_result acc {| result := r; success := true |}))
       catch (fun error =>
                ret (push_error acc {| failed_name := Repo.name repo; error := error |})))
    no_outcomes.

Definition bulkUnarchiveRepositories (owner : string) (repos : list Repo.t)
  : M R (Bulk (Succeeded ArchiveResult)) :=
  for_of repos
    (fun acc repo =>
       try (r <- unarchiveRepository owner (Repo.name repo) ;;
            ret (push_result acc {| result := r; success := true |}))
       catch (fun error =>
                ret (push_error acc {| failed_name := Repo.name repo; error := error |})))
    no_outcomes.

Definition bulkDeleteRepositories (owner : string) (repos : list Repo.t)
  : M R (Bulk Deleted) :=
  for_of repos
    (fun acc repo =>
       try (deleteRepository owner (Repo.name repo) ;;
            ret (push_result acc {| deleted_name := Repo.name repo;
                                    deleted_success := true |}))
       catch (fun error =>
                ret (push_error acc {| failed_name := Repo.name repo; error := error |})))
    no_outcomes.

End Client.
End GitHubClient.

(* ================================================================== *)
(** * utils.js                                                          *)
(* ================================================================== *)

Module Utils.
Section Utils.

Context {R : Type}.

(** A prompt with a [validate] function keeps the user in the prompt:
    each rejected answer shows the message [validate] returned, and the
    first accepted answer is the value of the prompt.  [None] stands
    for [validate] returning [true]. *)
Fixpoint read_valid {A} (validate : A -> option string) (answers : list A)
  : list Out * option (A * list A) :=
  match answers with
  | [] => ([], None)
  | a :: rest =>
      match validate a with
      | None => ([], Some (a, rest))
      | Some message =>
          let (shown, r) := read_valid validate rest in
          (ValidationMessage message :: shown, r)
      end
  end.

Definition displayInfo (message : string) : M R unit := print (DisplayInfo message).
Definition displayWarning (message : string) : M R unit := print (DisplayWarning message).
Definition displaySuccess (message : string) : M R unit := print (DisplaySuccess message).
Definition displayError (message : string) : M R unit := print (DisplayError message).

Definition displayRepositoryList (repos : list Repo.t) (showDetails : bool) : M R unit :=
  print (DisplayRepositoryList repos showDetails).

(** The names and failures [displayBulkResults] prints.  The success
    rate it also prints is a rounded floating-point quotient and is
    left out. *)
Definition displayBulkResults (names : list string) (errors : list Failed)
    (action targetState : string) : M R unit :=
  print (DisplayBulkResults names errors action targetState).

(** [`repository${n === 1 ? '' : 'ies'}`]. *)
Definition repository_ies (n : nat) : string :=
  "repository" ++ (if (n =? 1)%nat then EmptyString else "ies").

Definition confirmAction (message : string) : M R bool :=
  fun w =>
    let w1 := with_console (console w ++ [PromptConfirm message]) w in
    match confirms w with
    | [] => (Blocked, w1)
    | answer :: rest => (Ok answer, with_confirms rest w1)
    end.

Definition confirmBulkAction (repos : list Repo.t) (action targetState : string)
  : M R bool :=
  print (DisplayBulkConfirmation action targetState (List.length repos)
           (if (List.length repos <=? 5)%nat
            then map Repo.name repos
            else map Repo.name (firstn 3 repos))
           (if (List.length repos <=? 5)%nat
            then None
            else Some (List.length repos - 3))) ;;
  (fun w =>
     let w1 := with_console
                 (console w ++
                  [PromptConfirm ("Are you sure you want to " ++ action ++ " "
                                  ++ Js.toString (List.length repos) ++ " "
                                  ++ repository_ies (List.length repos) ++ "?")]) w in
     match confirms w with
     | [] => (Blocked, w1)
     | answer :: rest => (Ok answer, with_confirms rest w1)
     end).

(** The checkbox prompt; the value of an entry is the repository's
    name, and two more entries have the values ['select-all'] and
    ['select-none']. *)
Definition selectMultipleRepositories (repos : list Repo.t) (message : string)
  : M R (list Repo.t) :=
  if (List.length repos =? 0)%nat then
    throw "No repositories available for selection."
  else
    fun w =>
      let w1 := with_console (console w ++ [PromptCheckbox message]) w in
      match read_valid
              (fun input : list string =>
                 if (List.length input =? 0)%nat
                 then Some "Please select at least one repository"
                 else None)
              (checkboxes w) with
      | (shown, None) =>
          (Blocked, with_checkboxes [] (with_console (console w1 ++ shown) w1))
      | (shown, Some (selectedRepos, rest)) =>
          let w2 := with_checkboxes rest (with_console (console w1 ++ shown) w1) in
          if Js.includes selectedRepos "select-all" then (Ok repos, w2)
          else if Js.includes selectedRepos "select-none" then (Ok [], w2)
          else (Ok (filter (fun repo => Js.includes selectedRepos (Repo.name repo)) repos),
                w2)
      end.

Definition getSearchQuery : M R string :=
  fun w =>
    let w1 := with_console (console w ++ [PromptInput "Enter search query:"]) w in
    match read_valid
            (fun input : string =>
               if (String.length (Js.trim input) =? 0)%nat
               then Some "Search query cannot be empty"
               else None)
            (inputs w) with
    | (shown, None) =>
        (Blocked, with_inputs [] (with_console (console w1 ++ shown) w1))
    | (shown, Some (query, rest)) =>
        (Ok (Js.trim query),
         with_inputs rest (with_console (console w1 ++ shown) w1))
    end.

(** [truncateText(text, maxLength = 50)]; [text] may be [undefined] or
    [null], and an absent [maxLength] takes the default. *)
Definition truncateText (text : option string) (maxLength : option nat) : string :=
  match text with
  | None => EmptyString
  | Some text =>
      if Js.truthy text then
        if (match maxLength with Some n => n | None => 50 end <? String.length text)%nat
        then substring 0 (match maxLength with Some n => n | None => 50 end) text ++ "..."
        else text
      else EmptyString
  end.

(** The first lines of the card [displayRepository] prints: the name,
    the full name and, when there is one, the description cut to 80
    code units.  The lines after them (flags, counters, formatted dates
    and sizes, topics) are left out. *)
Definition displayRepository (repo : Repo.t) (showDetails : bool) : M R unit :=
  print (ConsoleLog (Repo.name repo)) ;;
  print (ConsoleLog (Repo.full_name repo)) ;;
  match Repo.description repo with
  | Some d => if Js.truthy d
              then print (ConsoleLog (truncateText (Some d) (Some 80)))
              else ret tt
  | None => ret tt
  end.

(** The list prompt over the repositories: the value of an entry is the
    repository itself, and the answer is the position the user picks. *)
Definition selectRepository (repos : list Repo.t) (message : string) : M R Repo.t :=
  if (List.length repos =? 0)%nat then
    throw "No repositories available for selection."
  else
    fun w =>
      let w1 := with_console (console w ++ [PromptList message]) w in
      match choices w with
      | [] => (Blocked, w1)
      | i :: rest =>
          match nth_error repos i with
          | Some selectedRepo => (Ok selectedRepo, with_choices rest w1)
          | None => (Blocked, with_choices rest w1)
          end
      end.


End Utils.
End Utils.

(* ================================================================== *)
(** * commands.js                                                       *)
(* ================================================================== *)

(** Stable sort by descending star count, as
    [repos.sort((a, b) => b.stargazers_count - a.stargazers_count)]. *)
Fixpoint insert_by_stars (x : Repo.t) (l : list Repo.t) : list Repo.t :=
  match l with
  | [] => [x]
  | y :: l' =>
      if (Repo.stargazers_count x <? Repo.stargazers_count y)%nat
      then y :: insert_by_stars x l'
      else x :: l
  end.

Definition sort_by_stars (l : list Repo.t) : list Repo.t :=
  fold_right insert_by_stars [] l.

(** The statistics [showUserInfo] computes from the listing. *)
Definition userStatistics (user : string) (repos : list Repo.t) : UserSummary :=
  {| info_username := user;
     info_total := List.length repos;
     info_public := List.length (filter (fun repo => negb (Repo.private repo)) repos);
     info_private := List.length (filter (fun repo => Repo.private repo) repos);
     info_archived := List.length (filter (fun repo => Repo.archived repo) repos);
     info_forks := List.length (filter (fun repo => Repo.fork repo) repos);
     info_total_stars :=
       fold_left (fun sum repo => sum + Repo.stargazers_count repo) repos 0;
     info_total_forks :=
       fold_left (fun sum repo => sum + Repo.forks_count repo) repos 0 |}.

(** [s.split('\n')[0]]: the code units before the first line feed. *)
Fixpoint first_line (s : string) : string :=
  match s with
  | EmptyString => EmptyString
  | String c s' => if (nat_of_ascii c =? 10)%nat then EmptyString else String c (first_line s')
  end.

(** [`   ${index + 1}. ${text(x)}`] for each element, as the [forEach]
    loops of the displays print them; [index] counts from [from]. *)
Fixpoint numbered {A} (text : A -> string) (from : nat) (l : list A) : list string :=
  match l with
  | [] => []
  | x :: l' => ("   " ++ Js.toString (from + 1) ++ ". " ++ text x)%string
               :: numbered text (S from) l'
  end.

Module GitHubCommands.
Section Commands.

Context {R : Type} {octokit : Octokit R}.

Definition listRepositories (showDetails : bool) : M R (list Repo.t) :=
  print (SpinnerStart "Fetching repositories...") ;;
  try (repos <- GitHubClient.listRepositories no_options ;;
       print (SpinnerSucceed "Repositories fetched successfully") ;;
       Utils.displayRepositoryList repos showDetails ;;
       ret repos)
  catch (fun error =>
           print (SpinnerFail "Failed to fetch repositories") ;;
           Utils.displayError error ;;
           throw error).

Definition searchRepositories : M R (list Repo.t) :=
  query <- Utils.getSearchQuery ;;
  print (SpinnerStart ("Searching for repositories matching " ++ Js.quoted query
                      ++ "...")) ;;
  try (repos <- GitHubClient.searchRepositories query no_search_options ;;
       print (SpinnerSucceed ("Found " ++ Js.toString (List.length repos)
                              ++ " repositories matching " ++ Js.quoted query)) ;;
       Utils.displayRepositoryList repos false ;;
       ret repos)
  catch (fun error =>
           print (SpinnerFail "Failed to search repositories") ;;
           Utils.displayError error ;;
           throw error).

(** The comparison [selectedRepos === 'back'] is between the array
    that [selectMultipleRepositories] returns and a string, hence
    false; the third argument of the call is not a parameter of the
    helper. *)
Definition bulkDeleteRepositories : M R unit :=
  try (repos <- GitHubClient.listRepositories no_options ;;
       if (List.length repos =? 0)%nat then
         Utils.displayWarning "No repositories found."
       else
         print (ConsoleLog "WARNING: Bulk Repository Deletion") ;;
         print (ConsoleLog "This action will permanently delete multiple repositories.") ;;
         print (ConsoleLog "This action cannot be undone!") ;;
         print (ConsoleLog "Make sure you have backups if needed.") ;;
         selectedRepos <- Utils.selectMultipleRepositories repos
                            "Select repositories to delete (PERMANENT):" ;;
         if (List.length selectedRepos =? 0)%nat then
           Utils.displayInfo "No repositories selected."
         else
           print (ConsoleLog "Repositories to be deleted:") ;;
           print (DisplaySelection selectedRepos) ;;
           confirm <- Utils.confirmBulkAction selectedRepos
                        "PERMANENTLY DELETE" "DELETED (PERMANENT)" ;;
           if negb confirm then
             Utils.displayInfo "Bulk deletion cancelled."
           else
             finalConfirm <-
               Utils.confirmAction
                 ("FINAL WARNING: Are you absolutely sure you want to permanently delete "
                  ++ Js.toString (List.length selectedRepos) ++ " "
                  ++ Utils.repository_ies (List.length selectedRepos)
                  ++ "? This action cannot be undone!") ;;
             if negb finalConfirm then
               Utils.displayInfo "Bulk deletion cancelled at final confirmation."
             else
               print (SpinnerStart ("Deleting " ++ Js.toString (List.length selectedRepos)
                                    ++ " repositories...")) ;;
               try (user <- GitHubClient.getUsername ;;
                    bulk <- GitHubClient.bulkDeleteRepositories user selectedRepos ;;
                    print (SpinnerSucceed "Bulk deletion completed") ;;
                    Utils.displayBulkResults (map deleted_name (results bulk))
                      (errors bulk) "deletion" "DELETED" ;;
                    if (0 <? List.length (results bulk))%nat then
                      Utils.displayWarning
                        (Js.toString (List.length (results bulk)) ++ " "
                         ++ Utils.repository_ies (List.length (results bulk))
                         ++ " have been permanently deleted!")
                    else ret tt)
               catch (fun error =>
                        print (SpinnerFail "Failed to perform bulk deletion") ;;
                        Utils.displayError error))
  catch (fun error => Utils.displayError error).

Definition showUserInfo : M R unit :=
  print (SpinnerStart "Fetching user information...") ;;
  try (user <- GitHubClient.getUsername ;;
       repos <- GitHubClient.listRepositories no_options ;;
       print (SpinnerSucceed "User information fetched successfully") ;;
       print (DisplayUserInfo (userStatistics user repos)) ;;
       if (0 <? List.length (firstn 5 (sort_by_stars repos)))%nat then
         print (DisplayPopular (firstn 5 (sort_by_stars repos)))
       else ret tt)
  catch (fun error =>
           print (SpinnerFail "Failed to fetch user information") ;;
           Utils.displayError error ;;
           throw error).

(** The list prompt for the target visibility: its two entries have
    the values [false] (Public) and [true] (Private). *)
Definition promptTargetVisibility : M R bool :=
  fun w =>
    let w1 := with_console
                (console w ++
                 [PromptList
                    "What visibility do you want to set for the selected repositories?"]) w in
    match choices w with
    | [] => (Blocked, w1)
    | i :: rest =>
        match nth_error [false; true] i with
        | Some targetVisibility => (Ok targetVisibility, with_choices rest w1)
        | None => (Blocked, with_choices rest w1)
        end
    end.

(** The eligible repositories of the current
    [bulkChangeRepositoryVisibility]: a listing through the dedicated
    client method. *)
Definition eligibleRepos (targetVisibility : bool) : M R (list Repo.t) :=
  if targetVisibility then GitHubClient.listPublicRepositories
  else GitHubClient.listPrivateRepositories.

(** The eligible repositories of the earlier revision: a filter over
    the full listing with [repo.private !== targetVisibility]. *)
Definition eligibleRepos_filtered (repos : list Repo.t) (targetVisibility : bool)
  : list Repo.t :=
  filter (fun repo => negb (Bool.eqb (Repo.private repo) targetVisibility)) repos.

(** What both revisions do once the eligible repositories are known. *)
Definition changeVisibilityOf (eligible : list Repo.t) (targetVisibility : bool)
  : M R unit :=
  let targetVisibilityText := if targetVisibility then "Private" else "Public" in
  if (List.length eligible =? 0)%nat then
    Utils.displayInfo ("All repositories are already "
                       ++ (if targetVisibility then "private" else "public") ++ ".")
  else
    selectedRepos <- Utils.selectMultipleRepositories eligible
                       ("Select repositories to change to " ++ targetVisibilityText ++ ":") ;;
    if (List.length selectedRepos =? 0)%nat then
      Utils.displayInfo "No repositories selected."
    else
      confirm <- Utils.confirmBulkAction selectedRepos
                   ("change visibility to " ++ targetVisibilityText)
                   targetVisibilityText ;;
      if negb confirm then
        Utils.displayInfo "Bulk visibility change cancelled."
      else
        print (SpinnerStart ("Changing visibility for "
                             ++ Js.toString (List.length selectedRepos)
                             ++ " repositories...")) ;;
        try (user <- GitHubClient.getUsername ;;
             bulk <- GitHubClient.bulkUpdateVisibility user selectedRepos targetVisibility ;;
             print (SpinnerSucceed "Bulk visibility change completed") ;;
             Utils.displayBulkResults
               (map (fun r => vis_name (result r)) (results bulk))
               (errors bulk) "visibility change" targetVisibilityText)
        catch (fun error =>
                 print (SpinnerFail "Failed to perform bulk visibility change") ;;
                 Utils.displayError error).

(** [bulkChangeRepositoryVisibility] of src/commands.js. *)
Definition bulkChangeRepositoryVisibility : M R unit :=
  try (targetVisibility <- promptTargetVisibility ;;
       eligible <- eligibleRepos targetVisibility ;;
       changeVisibilityOf eligible targetVisibility)
  catch (fun error => Utils.displayError error).

(** [bulkChangeRepositoryVisibility] of the earlier revision. *)
Definition bulkChangeRepositoryVisibility_filtered : M R unit :=
  try (repos <- GitHubClient.listRepositories no_options ;;
       if (List.length repos =? 0)%nat then
         Utils.displayWarning "No repositories found."
       else
         targetVisibility <- promptTargetVisibility ;;
         changeVisibilityOf (eligibleRepos_filtered repos targetVisibility)
           targetVisibility)
  catch (fun error => Utils.displayError error).

(** [console.log] of each line in turn. *)
Fixpoint print_lines (lines : list string) : M R unit :=
  match lines with
  | [] => ret tt
  | line :: rest => print (ConsoleLog line) ;; print_lines rest
  end.

(** Of the statistics block, the languages line and the commit date are
    formatted sizes and dates and are left out; [Object.keys] of the
    languages throws a TypeError when they are [undefined].  The
    comparison [selectedRepo === 'back'] in this and the next commands
    is between an object and a string, hence false. *)
Definition viewRepositoryDetails : M R unit :=
  try (repos <- GitHubClient.listRepositories no_options ;;
       if (List.length repos =? 0)%nat then
         Utils.displayWarning "No repositories found."
       else
         selectedRepo <- Utils.selectRepository repos
                           "Select a repository to view details:" ;;
         print (SpinnerStart "Fetching repository details...") ;;
         try (user <- GitHubClient.getUsername ;;
              repoDetails <- GitHubClient.getRepository user (Repo.name selectedRepo) ;;
              stats <- GitHubClient.getRepositoryStats user (Repo.name selectedRepo) ;;
              print (SpinnerSucceed "Repository details fetched successfully") ;;
              Utils.displayRepository repoDetails true ;;
              print (ConsoleLog "Repository Statistics:") ;;
              print (ConsoleLog ("   Contributors: "
                                 ++ Js.toString (contributors_count stats))) ;;
              match languages stats with
              | Some _ => ret tt
              | None => throw "Cannot convert undefined or null to object"
              end ;;
              match last_commit stats with
              | Some c => print (ConsoleLog ("   Last commit: "
                                             ++ first_line (commit_message c)))
              | None => ret tt
              end)
         catch (fun error =>
                  print (SpinnerFail "Failed to fetch repository details") ;;
                  Utils.displayError error))
  catch (fun error => Utils.displayError error).

Definition deleteRepository : M R unit :=
  try (repos <- GitHubClient.listRepositories no_options ;;
       if (List.length repos =? 0)%nat then
         Utils.displayWarning "No repositories found."
       else
         selectedRepo <- Utils.selectRepository repos "Select a repository to delete:" ;;
         Utils.displayRepository selectedRepo true ;;
         confirm <- Utils.confirmAction
                      ("Are you sure you want to delete the repository "
                       ++ Js.quoted (Repo.name selectedRepo)
                       ++ "? This action cannot be undone.") ;;
         if negb confirm then
           Utils.displayInfo "Repository deletion cancelled."
         else
           print (SpinnerStart ("Deleting repository "
                                ++ Js.quoted (Repo.name selectedRepo) ++ "...")) ;;
           try (user <- GitHubClient.getUsername ;;
                GitHubClient.deleteRepository user (Repo.name selectedRepo) ;;
                print (SpinnerSucceed ("Repository " ++ Js.quoted (Repo.name selectedRepo)
                                       ++ " deleted successfully")) ;;
                Utils.displaySuccess ("Repository " ++ Js.quoted (Repo.name selectedRepo)
                                      ++ " has been permanently deleted."))
           catch (fun error =>
                    print (SpinnerFail ("Failed to delete repository "
                                        ++ Js.quoted (Repo.name selectedRepo))) ;;
                    Utils.displayError error))
  catch (fun error => Utils.displayError error).

Definition deleteRepositoryByName (repoName : string) : M R unit :=
  try (user <- GitHubClient.getUsername ;;
       print (SpinnerStart ("Verifying repository " ++ Js.quoted repoName ++ "...")) ;;
       try (repo <- GitHubClient.getRepository user repoName ;;
            print (SpinnerSucceed ("Repository " ++ Js.quoted repoName ++ " found")) ;;
            Utils.displayRepository repo true ;;
            confirm <- Utils.confirmAction
                         ("Are you sure you want to delete the repository "
                          ++ Js.quoted repoName ++ "? This action cannot be undone.") ;;
            if negb confirm then
              Utils.displayInfo "Repository deletion cancelled."
            else
              print (SpinnerStart ("Deleting repository " ++ Js.quoted repoName ++ "...")) ;;
              try (GitHubClient.deleteRepository user repoName ;;
                   print (SpinnerSucceed ("Repository " ++ Js.quoted repoName
                                          ++ " deleted successfully")) ;;
                   Utils.displaySuccess ("Repository " ++ Js.quoted repoName
                                         ++ " has been permanently deleted."))
              catch (fun error =>
                       print (SpinnerFail ("Failed to delete repository "
                                           ++ Js.quoted repoName)) ;;
                       Utils.displayError error))
       catch (fun error =>
                print (SpinnerFail ("Repository " ++ Js.quoted repoName ++ " not found")) ;;
                Utils.displayError error))
  catch (fun error => Utils.displayError error).

Definition debugArchivedRepositories : M R unit :=
  print (SpinnerStart "Fetching all repositories...") ;;
  try (repos <- GitHubClient.listRepositories no_options ;;
       print (SpinnerSucceed "Repositories fetched successfully") ;;
       print (ConsoleLog "Debug: Repository Archive Status") ;;
       print (ConsoleLog ("Total repositories found: "
                          ++ Js.toString (List.length repos))) ;;
       print (ConsoleLog
                ("Active repositories: "
                 ++ Js.toString
                      (List.length (filter (fun repo => negb (Repo.archived repo)) repos)))) ;;
       print_lines
         (numbered (fun repo => (Repo.name repo ++ " "
                                 ++ (if Repo.private repo then "(Private)" else "(Public)"))%string)
            0 (filter (fun repo => negb (Repo.archived repo)) repos)) ;;
       print (ConsoleLog
                ("Archived repositories: "
                 ++ Js.toString
                      (List.length (filter (fun repo => Repo.archived repo) repos)))) ;;
       (if (0 <? List.length (filter (fun repo => Repo.archived repo) repos))%nat then
          print_lines
            (numbered (fun repo => (Repo.name repo ++ " "
                                    ++ (if Repo.private repo then "(Private)" else "(Public)")
                                    ++ " - Archived")%string)
               0 (filter (fun repo => Repo.archived repo) repos))
        else
          print_lines
            ["   No archived repositories found.";
             "   This could mean:";
             "   - You haven't archived any repositories yet";
             "   - The repositories were archived through GitHub web interface";
             "   - There might be an API permission issue"]) ;;
       print_lines
         ["Troubleshooting Tips:";
          "1. Make sure you archived the repository using this tool";
          "2. Check if the repository appears in your GitHub profile";
          "3. Verify your GitHub token has the correct permissions";
          "4. Try refreshing the repository list"])
  catch (fun error =>
           print (SpinnerFail "Failed to fetch repositories") ;;
           Utils.displayError error).

Definition changeRepositoryVisibility : M R unit :=
  try (repos <- GitHubClient.listRepositories no_options ;;
       if (List.length repos =? 0)%nat then
         Utils.displayWarning "No repositories found."
       else
         selectedRepo <- Utils.selectRepository repos
                           "Select a repository to change visibility:" ;;
         Utils.displayRepository selectedRepo true ;;
         let currentVisibility := if Repo.private selectedRepo then "Private" else "Public" in
         let newVisibility := if Repo.private selectedRepo then "Public" else "Private" in
         confirm <- Utils.confirmAction
                      ("Are you sure you want to change "
                       ++ Js.quoted (Repo.name selectedRepo) ++ " from "
                       ++ currentVisibility ++ " to " ++ newVisibility ++ "?") ;;
         if negb confirm then
           Utils.displayInfo "Visibility change cancelled."
         else
           print (SpinnerStart ("Changing " ++ Js.quoted (Repo.name selectedRepo)
                                ++ " to " ++ newVisibility ++ "...")) ;;
           try (user <- GitHubClient.getUsername ;;
                updatedRepo <- GitHubClient.updateRepositoryVisibility user
                                 (Repo.name selectedRepo)
                                 (negb (Repo.private selectedRepo)) ;;
                print (SpinnerSucceed ("Repository " ++ Js.quoted (Repo.name selectedRepo)
                                       ++ " is now " ++ newVisibility)) ;;
                Utils.displaySuccess ("Repository " ++ Js.quoted (Repo.name selectedRepo)
                                      ++ " visibility changed to " ++ newVisibility ++ ".") ;;
                print_lines
                  ["Updated Repository:";
                   ("   Name: " ++ vis_name updatedRepo)%string;
                   ("   Full name: " ++ vis_full_name updatedRepo)%string;
                   ("   Visibility: " ++ (if vis_private updatedRepo
                                          then "Private" else "Public"))%string;
                   ("   URL: " ++ vis_html_url updatedRepo)%string])
           catch (fun error =>
                    print (SpinnerFail ("Failed to change visibility of "
                                        ++ Js.quoted (Repo.name selectedRepo))) ;;
                    Utils.displayError error))
  catch (fun error => Utils.displayError error).

Definition archiveRepository : M R unit :=
  try (repos <- GitHubClient.listActiveRepositories ;;
       if (List.length repos =? 0)%nat then
         Utils.displayWarning "No active repositories found to archive."
       else
         selectedRepo <- Utils.selectRepository repos "Select a repository to archive:" ;;
         Utils.displayRepository selectedRepo true ;;
         confirm <- Utils.confirmAction
                      ("Are you sure you want to archive the repository "
                       ++ Js.quoted (Repo.name selectedRepo)
                       ++ "? This will make it read-only.") ;;
         if negb confirm then
           Utils.displayInfo "Repository archiving cancelled."
         else
           print (SpinnerStart ("Archiving repository "
                                ++ Js.quoted (Repo.name selectedRepo) ++ "...")) ;;
           try (user <- GitHubClient.getUsername ;;
                archivedRepo <- GitHubClient.archiveRepository user
                                  (Repo.name selectedRepo) ;;
                print (SpinnerSucceed ("Repository " ++ Js.quoted (Repo.name selectedRepo)
                                       ++ " archived successfully")) ;;
                Utils.displaySuccess ("Repository " ++ Js.quoted (Repo.name selectedRepo)
                                      ++ " has been archived and is now read-only.") ;;
                print_lines
                  ["Archived Repository:";
                   ("   Name: " ++ arc_name archivedRepo)%string;
                   ("   Full name: " ++ arc_full_name archivedRepo)%string;
                   "   Status: Archived (read-only)";
                   ("   URL: " ++ arc_html_url archivedRepo)%string])
           catch (fun error =>
                    print (SpinnerFail ("Failed to archive repository "
                                        ++ Js.quoted (Repo.name selectedRepo))) ;;
                    Utils.displayError error))
  catch (fun error => Utils.displayError error).

Definition bulkArchiveRepositories : M R unit :=
  try (repos <- GitHubClient.listActiveRepositories ;;
       if (List.length repos =? 0)%nat then
         Utils.displayWarning "No active repositories found to archive."
       else
         selectedRepos <- Utils.selectMultipleRepositories repos
                            "Select repositories to archive:" ;;
         if (List.length selectedRepos =? 0)%nat then
           Utils.displayInfo "No repositories selected."
         else
           confirm <- Utils.confirmBulkAction selectedRepos "archive"
                        "Archived (read-only)" ;;
           if negb confirm then
             Utils.displayInfo "Bulk archiving cancelled."
           else
             print (SpinnerStart ("Archiving " ++ Js.toString (List.length selectedRepos)
                                  ++ " repositories...")) ;;
             try (user <- GitHubClient.getUsername ;;
                  bulk <- GitHubClient.bulkArchiveRepositories user selectedRepos ;;
                  print (SpinnerSucceed "Bulk archiving completed") ;;
                  Utils.displayBulkResults
                    (map (fun r => arc_name (result r)) (results bulk))
                    (errors bulk) "archiving" "Archived")
             catch (fun error =>
                      print (SpinnerFail "Failed to perform bulk archiving") ;;
                      Utils.displayError error))
  catch (fun error => Utils.displayError error).

Definition unarchiveRepository : M R unit :=
  try (repos <- GitHubClient.listArchivedRepositories ;;
       if (List.length repos =? 0)%nat then
         Utils.displayWarning "No archived repositories found."
       else
         selectedRepo <- Utils.selectRepository repos "Select a repository to unarchive:" ;;
         Utils.displayRepository selectedRepo true ;;
         confirm <- Utils.confirmAction
                      ("Are you sure you want to unarchive the repository "
                       ++ Js.quoted (Repo.name selectedRepo)
                       ++ "? This will make it editable again.") ;;
         if negb confirm then
           Utils.displayInfo "Repository unarchiving cancelled."
         else
           print (SpinnerStart ("Unarchiving repository "
                                ++ Js.quoted (Repo.name selectedRepo) ++ "...")) ;;
           try (user <- GitHubClient.getUsername ;;
                unarchivedRepo <- GitHubClient.unarchiveRepository user
                                    (Repo.name selectedRepo) ;;
                print (SpinnerSucceed ("Repository " ++ Js.quoted (Repo.name selectedRepo)
                                       ++ " unarchived successfully")) ;;
                Utils.displaySuccess ("Repository " ++ Js.quoted (Repo.name selectedRepo)
                                      ++ " has been unarchived and is now editable.") ;;
                print_lines
                  ["Unarchived Repository:";
                   ("   Name: " ++ arc_name unarchivedRepo)%string;
                   ("   Full name: " ++ arc_full_name unarchivedRepo)%string;
                   "   Status: Active (editable)";
                   ("   URL: " ++ arc_html_url unarchivedRepo)%string])
           catch (fun error =>
                    print (SpinnerFail ("Failed to unarchive repository "
                                        ++ Js.quoted (Repo.name selectedRepo))) ;;
                    Utils.displayError error))
  catch (fun error => Utils.displayError error).

Definition bulkUnarchiveRepositories : M R unit :=
  try (repos <- GitHubClient.listArchivedRepositories ;;
       if (List.length repos =? 0)%nat then
         Utils.displayWarning "No archived repositories found."
       else
         selectedRepos <- Utils.selectMultipleRepositories repos
                            "Select repositories to unarchive:" ;;
         if (List.length selectedRepos =? 0)%nat then
           Utils.displayInfo "No repositories selected."
         else
           confirm <- Utils.confirmBulkAction selectedRepos "unarchive"
                        "Active (editable)" ;;
           if negb confirm then
             Utils.displayInfo "Bulk unarchiving cancelled."
           else
             print (SpinnerStart ("Unarchiving " ++ Js.toString (List.length selectedRepos)
                                  ++ " repositories...")) ;;
             try (user <- GitHubClient.getUsername ;;
                  bulk <- GitHubClient.bulkUnarchiveRepositories user selectedRepos ;;
                  print (SpinnerSucceed "Bulk unarchiving completed") ;;
                  Utils.displayBulkResults
                    (map (fun r => arc_name (result r)) (results bulk))
                    (errors bulk) "unarchiving" "Active")
             catch (fun error =>
                      print (SpinnerFail "Failed to perform bulk unarchiving") ;;
                      Utils.displayError error))
  catch (fun error => Utils.displayError error).


End Commands.
End GitHubCommands.

(* ================================================================== *)
(** * index.js                                                          *)
(* ================================================================== *)

(** The two variables the client reads from the environment. *)
Record Env := {
  GITHUB_TOKEN : option string;
  GITHUB_USERNAME : option string
}.

(** How the process ends. *)
Inductive Ending :=
| Exit (code : nat)            (* [process.exit(code)] *)
| Done                         (* the script ran to its end *)
| Uncaught (message : string)  (* an error nothing caught *)
| Pending                      (* a prompt waits for an answer that never comes *)
| OutOfFuel.                   (* the menu loop was cut *)

Module GitHubManager.
Section Manager.

Context {R : Type} {octokit : Octokit R}.

(** The constructor of [GitHubClient], run by [new GitHubManager()]
    through [new GitHubCommands()]. *)
Definition newGitHubManager (env : Env) : M R unit :=
  fun w =>
    match GITHUB_TOKEN env with
    | Some token =>
        if Js.truthy token
        then (Ok tt, with_username (GITHUB_USERNAME env) w)
        else (Throw "GitHub token not found. Please set GITHUB_TOKEN in your .env file", w)
    | None =>
        (Throw "GitHub token not found. Please set GITHUB_TOKEN in your .env file", w)
    end.

(** The values of the entries of the main menu, in the order shown. *)
Definition menu : list string :=
  ["list"; "search"; "details"; "visibility"; "bulkVisibility"; "archive";
   "bulkArchive"; "unarchive"; "bulkUnarchive"; "delete"; "bulkDelete";
   "deleteByName"; "userInfo"; "debugArchived"; "exit"].

(** [console.clear()] wipes the screen, not what was printed; it has no
    counterpart here. *)
Definition showMainMenu : M R string :=
  print (ConsoleLog "GitHub Repository Manager") ;;
  print (ConsoleLog "Manage your GitHub repositories with ease") ;;
  (fun w =>
     let w1 := with_console (console w ++ [PromptList "What would you like to do?"]) w in
     match choices w with
     | [] => (Blocked, w1)
     | i :: rest =>
         match nth_error menu i with
         | Some action => (Ok action, with_choices rest w1)
         | None => (Blocked, with_choices rest w1)
         end
     end).

Definition handleDeleteByName : M R unit :=
  repoName <-
    (fun w =>
       let w1 := with_console
                   (console w ++ [PromptInput "Enter the repository name to delete:"]) w in
       match Utils.read_valid
               (fun input : string =>
                  if (String.length (Js.trim input) =? 0)%nat
                  then Some "Repository name cannot be empty"
                  else None)
               (inputs w) with
       | (shown, None) =>
           (Blocked, with_inputs [] (with_console (console w1 ++ shown) w1))
       | (shown, Some (repoName, rest)) =>
           (Ok repoName, with_inputs rest (with_console (console w1 ++ shown) w1))
       end) ;;
  GitHubCommands.deleteRepositoryByName (Js.trim repoName).

Definition handleVisibilityChangeByName (repoName : string) : M R unit :=
  try (user <- GitHubClient.getUsername ;;
       print (SpinnerStart ("Verifying repository " ++ Js.quoted repoName ++ "...")) ;;
       try (repo <- GitHubClient.getRepository user repoName ;;
            print (SpinnerSucceed ("Repository " ++ Js.quoted repoName ++ " found")) ;;
            Utils.displayRepository repo true ;;
            let currentVisibility := if Repo.private repo then "Private" else "Public" in
            let newVisibility := if Repo.private repo then "Public" else "Private" in
            confirm <- Utils.confirmAction
                         ("Are you sure you want to change " ++ Js.quoted repoName
                          ++ " from " ++ currentVisibility ++ " to " ++ newVisibility
                          ++ "?") ;;
            if negb confirm then
              Utils.displayInfo "Visibility change cancelled."
            else
              print (SpinnerStart ("Changing " ++ Js.quoted repoName ++ " to "
                                   ++ newVisibility ++ "...")) ;;
              try (updatedRepo <- GitHubClient.updateRepositoryVisibility user repoName
                                    (negb (Repo.private repo)) ;;
                   print (SpinnerSucceed ("Repository " ++ Js.quoted repoName
                                          ++ " is now " ++ newVisibility)) ;;
                   Utils.displaySuccess ("Repository " ++ Js.quoted repoName
                                         ++ " visibility changed to " ++ newVisibility
                                         ++ ".") ;;
                   GitHubCommands.print_lines
                     ["Updated Repository:";
                      ("   Name: " ++ vis_name updatedRepo)%string;
                      ("   Full name: " ++ vis_full_name updatedRepo)%string;
                      ("   Visibility: " ++ (if vis_private updatedRepo
                                             then "Private" else "Public"))%string;
                      ("   URL: " ++ vis_html_url updatedRepo)%string])
              catch (fun error =>
                       print (SpinnerFail ("Failed to change visibility of "
                                           ++ Js.quoted repoName)) ;;
                       Utils.displayError error))
       catch (fun error =>
                print (SpinnerFail ("Repository " ++ Js.quoted repoName ++ " not found")) ;;
                Utils.displayError error))
  catch (fun error => Utils.displayError error).

Definition handleArchiveByName (repoName : string) : M R unit :=
  try (user <- GitHubClient.getUsername ;;
       print (SpinnerStart ("Verifying repository " ++ Js.quoted repoName ++ "...")) ;;
       try (repo <- GitHubClient.getRepository user repoName ;;
            print (SpinnerSucceed ("Repository " ++ Js.quoted repoName ++ " found")) ;;
            if Repo.archived repo then
              Utils.displayWarning ("Repository " ++ Js.quoted repoName
                                    ++ " is already archived.")
            else
              Utils.displayRepository repo true ;;
              confirm <- Utils.confirmAction
                           ("Are you sure you want to archive the repository "
                            ++ Js.quoted repoName ++ "? This will make it read-only.") ;;
              if negb confirm then
                Utils.displayInfo "Repository archiving cancelled."
              else
                print (SpinnerStart ("Archiving repository " ++ Js.quoted repoName
                                     ++ "...")) ;;
                try (archivedRepo <- GitHubClient.archiveRepository user repoName ;;
                     print (SpinnerSucceed ("Repository " ++ Js.quoted repoName
                                            ++ " archived successfully")) ;;
                     Utils.displaySuccess ("Repository " ++ Js.quoted repoName
                                           ++ " has been archived and is now read-only.") ;;
                     GitHubCommands.print_lines
                       ["Archived Repository:";
                        ("   Name: " ++ arc_name archivedRepo)%string;
                        ("   Full name: " ++ arc_full_name archivedRepo)%string;
                        "   Status: Archived (read-only)";
                        ("   URL: " ++ arc_html_url archivedRepo)%string])
                catch (fun error =>
                         print (SpinnerFail ("Failed to archive repository "
                                             ++ Js.quoted repoName)) ;;
                         Utils.displayError error))
       catch (fun error =>
                print (SpinnerFail ("Repository " ++ Js.quoted repoName ++ " not found")) ;;
                Utils.displayError error))
  catch (fun error => Utils.displayError error).

Definition handleUnarchiveByName (repoName : string) : M R unit :=
  try (user <- GitHubClient.getUsername ;;
       print (SpinnerStart ("Verifying repository " ++ Js.quoted repoName ++ "...")) ;;
       try (repo <- GitHubClient.getRepository user repoName ;;
            print (SpinnerSucceed ("Repository " ++ Js.quoted repoName ++ " found")) ;;
            if negb (Repo.archived repo) then
              Utils.displayWarning ("Repository " ++ Js.quoted repoName
                                    ++ " is not archived.")
            else
              Utils.displayRepository repo true ;;
              confirm <- Utils.confirmAction
                           ("Are you sure you want to unarchive the repository "
                            ++ Js.quoted repoName
                            ++ "? This will make it editable again.") ;;
              if negb confirm then
                Utils.displayInfo "Repository unarchiving cancelled."
              else
                print (SpinnerStart ("Unarchiving repository " ++ Js.quoted repoName
                                     ++ "...")) ;;
                try (unarchivedRepo <- GitHubClient.unarchiveRepository user repoName ;;
                     print (SpinnerSucceed ("Repository " ++ Js.quoted repoName
                                            ++ " unarchived successfully")) ;;
                     Utils.displaySuccess ("Repository " ++ Js.quoted repoName
                                           ++ " has been unarchived and is now editable.") ;;
                     GitHubCommands.print_lines
                       ["Unarchived Repository:";
                        ("   Name: " ++ arc_name unarchivedRepo)%string;
                        ("   Full name: " ++ arc_full_name unarchivedRepo)%string;
                        "   Status: Active (editable)";
                        ("   URL: " ++ arc_html_url unarchivedRepo)%string])
                catch (fun error =>
                         print (SpinnerFail ("Failed to unarchive repository "
                                             ++ Js.quoted repoName)) ;;
                         Utils.displayError error))
       catch (fun error =>
                print (SpinnerFail ("Repository " ++ Js.quoted repoName ++ " not found")) ;;
                Utils.displayError error))
  catch (fun error => Utils.displayError error).

(** [handleAction(action)]; the value is the exit code when the action
    ends the process.  [displayError] prints the [message] of its
    argument, which is [undefined] for the string of the default case. *)
Definition handleAction (action : string) : M R (option nat) :=
  try (if String.eqb action "list" then
         GitHubCommands.listRepositories false ;; ret None
       else if String.eqb action "search" then
         GitHubCommands.searchRepositories ;; ret None
       else if String.eqb action "details" then
         GitHubCommands.viewRepositoryDetails ;; ret None
       else if String.eqb action "visibility" then
         GitHubCommands.changeRepositoryVisibility ;; ret None
       else if String.eqb action "bulkVisibility" then
         GitHubCommands.bulkChangeRepositoryVisibility ;; ret None
       else if String.eqb action "archive" then
         GitHubCommands.archiveRepository ;; ret None
       else if String.eqb action "bulkArchive" then
         GitHubCommands.bulkArchiveRepositories ;; ret None
       else if String.eqb action "unarchive" then
         GitHubCommands.unarchiveRepository ;; ret None
       else if String.eqb action "bulkUnarchive" then
         GitHubCommands.bulkUnarchiveRepositories ;; ret None
       else if String.eqb action "delete" then
         GitHubCommands.deleteRepository ;; ret None
       else if String.eqb action "bulkDelete" then
         GitHubCommands.bulkDeleteRepositories ;; ret None
       else if String.eqb action "deleteByName" then
         handleDeleteByName ;; ret None
       else if String.eqb action "userInfo" then
         GitHubCommands.showUserInfo ;; ret None
       else if String.eqb action "debugArchived" then
         GitHubCommands.debugArchivedRepositories ;; ret None
       else if String.eqb action "exit" then
         Utils.displaySuccess "Goodbye!" ;; ret (Some 0)
       else
         Utils.displayError "undefined" ;; ret None)
  catch (fun error => Utils.displayError error ;; ret None).

(** The prompt [Press Enter to continue...]: an input prompt without
    [validate]. *)
Definition pressEnter : M R string :=
  fun w =>
    let w1 := with_console (console w ++ [PromptInput "Press Enter to continue..."]) w in
    match inputs w with
    | [] => (Blocked, w1)
    | answer :: rest => (Ok answer, with_inputs rest w1)
    end.

(** The [while (true)] loop of [run], cut after [fuel] iterations: the
    value is the exit code when an action ended the process, and [None]
    when the iterations ran out. *)
Fixpoint menuLoop (fuel : nat) : M R (option nat) :=
  match fuel with
  | 0 => ret None
  | S fuel' =>
      action <- showMainMenu ;;
      exited <- handleAction action ;;
      match exited with
      | Some code => ret (Some code)
      | None => pressEnter ;; menuLoop fuel'
      end
  end.

(** [run()], the interactive mode. *)
Definition run (fuel : nat) : World R -> Ending * World R :=
  fun w =>
    match (try (Utils.displayInfo "Testing GitHub connection..." ;;
                GitHubCommands.showUserInfo ;;
                menuLoop fuel)
           catch (fun error => Utils.displayError error ;; ret (Some 1))) w with
    | (Ok (Some code), w') => (Exit code, w')
    | (Ok None, w') => (OutOfFuel, w')
    | (Throw message, w') => (Uncaught message, w')
    | (Blocked, w') => (Pending, w')
    end.

(** The usage text of [help]; the line feeds that start some of its
    lines are dropped. *)
Definition usage : list string :=
  ["GitHub Repository Manager - Command Line Usage";
   "Available commands:";
   "  list [--details]     List all repositories";
   "  search [query]       Search repositories";
   "  visibility [repo]    Change repository visibility";
   "  archive [repo]       Archive repository";
   "  unarchive [repo]     Unarchive repository";
   "  delete [repo-name]   Delete repository";
   "  bulk-delete          Bulk delete repositories";
   "  info                 Show user information";
   "  help                 Show this help message";
   "Examples:";
   "  node index.js list";
   "  node index.js list --details";
   ("  node index.js search " ++ Js.quoted "react")%string;
   "  node index.js visibility my-repo";
   "  node index.js archive old-project";
   "  node index.js unarchive old-project";
   "  node index.js delete my-repo";
   "  node index.js bulk-delete";
   "  node index.js info";
   "Setup:";
   "  1. Copy env.example to .env";
   "  2. Add your GitHub token to .env file";
   "  3. Run: npm install"].

(** [args[1]] when it is truthy. *)
Definition argument (args : list string) : option string :=
  match nth_error args 1 with
  | Some a => if Js.truthy a then Some a else None
  | None => None
  end.

(** The [switch] of the command line mode; the value is the exit code
    when a case ends the process. *)
Definition dispatch (args : list string) : M R (option nat) :=
  let command := match args with c :: _ => c | [] => EmptyString end in
  try (if String.eqb command "list" then
         GitHubCommands.listRepositories (Js.includes args "--details") ;; ret None
       else if String.eqb command "search" then
         match argument args with
         | Some query =>
             print (SpinnerStart ("Searching for repositories matching "
                                  ++ Js.quoted query ++ "...")) ;;
             (try (repos <- GitHubClient.searchRepositories query no_search_options ;;
                   print (SpinnerSucceed ("Found " ++ Js.toString (List.length repos)
                                          ++ " repositories matching "
                                          ++ Js.quoted query)) ;;
                   Utils.displayRepositoryList repos false)
              catch (fun error =>
                       print (SpinnerFail "Failed to search repositories") ;;
                       Utils.displayError error)) ;;
             ret None
         | None => GitHubCommands.searchRepositories ;; ret None
         end
       else if String.eqb command "visibility" then
         match argument args with
         | Some name => handleVisibilityChangeByName name ;; ret None
         | None => GitHubCommands.changeRepositoryVisibility ;; ret None
         end
       else if String.eqb command "archive" then
         match argument args with
         | Some name => handleArchiveByName name ;; ret None
         | None => GitHubCommands.archiveRepository ;; ret None
         end
       else if String.eqb command "unarchive" then
         match argument args with
         | Some name => handleUnarchiveByName name ;; ret None
         | None => GitHubCommands.unarchiveRepository ;; ret None
         end
       else if String.eqb command "delete" then
         match argument args with
         | Some name => GitHubCommands.deleteRepositoryByName name ;; ret None
         | None => GitHubCommands.deleteRepository ;; ret None
         end
       else if String.eqb command "bulk-delete" then
         GitHubCommands.bulkDeleteRepositories ;; ret None
       else if String.eqb command "info" then
         GitHubCommands.showUserInfo ;; ret None
       else
         print (ConsoleLog ("Unknown command: " ++ command)) ;;
         print (ConsoleLog ("Run " ++ Js.quoted "node index.js help"
                            ++ " for usage information")) ;;
         ret (Some 1))
  catch (fun error => Utils.displayError error ;; ret (Some 1)).

(** The script: [args] is [process.argv.slice(2)]. *)
Definition main (fuel : nat) (env : Env) (args : list string)
  : World R -> Ending * World R :=
  fun w =>
    match args with
    | [] =>
        match newGitHubManager env w with
        | (Ok _, w1) => run fuel w1
        | (Throw message, w1) => (Uncaught message, w1)
        | (Blocked, w1) => (Pending, w1)
        end
    | command :: _ =>
        if String.eqb command "help" then
          match GitHubCommands.print_lines usage w with
          | (_, w1) => (Exit 0, w1)
          end
        else
          match newGitHubManager env w with
          | (Ok _, w1) =>
              match dispatch args w1 with
              | (Ok (Some code), w2) => (Exit code, w2)
              | (Ok None, w2) => (Done, w2)
              | (Throw message, w2) => (Uncaught message, w2)
              | (Blocked, w2) => (Pending, w2)
              end
          | (Throw message, w1) => (Uncaught message, w1)
          | (Blocked, w1) => (Pending, w1)
          end
    end.

End Manager.
End GitHubManager.

(* ================================================================== *)
(** * A provider to run the program against                             *)
(* ================================================================== *)

(** The provider is outside the repository.  This model of it serves the
    concrete runs below: a listing is cut into pages of [per_page]
    entries, numbered from 1; [fault] makes chosen requests fail.  For
    a repository without content, named in [without_content], it
    answers as the provider does: 204 without a body to the request for
    the contributors, no languages, and the error 409 to the request
    for the commits. *)
Module Model.

Record Remote := {
  identity : string;
  repositories : list Raw.t;  (* every repository visible to the identity *)
  contributors : list Contributor;
  language_bytes : list (string * nat);
  commits : list Commit;
  without_content : list string;  (* the names of the repositories without content *)
  fault : Request -> option string
}.

Definition with_repositories (l : list Raw.t) (r : Remote) : Remote :=
  {| identity := identity r; repositories := l; contributors := contributors r;
     language_bytes := language_bytes r; commits := commits r;
     without_content := without_content r; fault := fault r |}.

(** For a repository without content the provider fulfils the request
    for the contributors with status 204 and no body, answers the
    languages with the empty map and rejects the request for the commits
    with status 409. *)
Definition has_content (repo : string) (r : Remote) : bool :=
  negb (existsb (String.eqb repo) (without_content r)).

Definition answer {A} (req : Request) (r : Remote) (ok : Response A * Remote)
  : Response A * Remote :=
  match fault r req with
  | Some message => (inl message, r)
  | None => ok
  end.

Definition page_of (params : ListParams) (l : list Raw.t) : list Raw.t :=
  firstn (per_page params) (skipn ((page params - 1) * per_page params) l).

Definition named (repo : string) (x : Raw.t) : bool := String.eqb (Raw.name x) repo.

Definition patched (patch : Patch) (x : Raw.t) : Raw.t :=
  match patch with
  | SetPrivate b =>
      Raw.mk (Raw.id x) (Raw.name x) (Raw.full_name x) (Raw.description x) b
        (Raw.fork x) (Raw.language x) (Raw.stargazers_count x) (Raw.forks_count x)
        (Raw.updated_at x) (Raw.created_at x) (Raw.html_url x) (Raw.clone_url x)
        (Raw.archived x) (Raw.default_branch x) (Raw.size x)
        (Raw.open_issues_count x) (Raw.topics x)
  | SetArchived b =>
      Raw.mk (Raw.id x) (Raw.name x) (Raw.full_name x) (Raw.description x)
        (Raw.private x) (Raw.fork x) (Raw.language x) (Raw.stargazers_count x)
        (Raw.forks_count x) (Raw.updated_at x) (Raw.created_at x) (Raw.html_url x)
        (Raw.clone_url x) (Some b) (Raw.default_branch x) (Raw.size x)
        (Raw.open_issues_count x) (Raw.topics x)
  end.

#[global] Instance provider : Octokit Remote := {
  users_getAuthenticated r :=
    answer UsersGetAuthenticated r (inr {| login := identity r |}, r);
  repos_listForAuthenticatedUser params r :=
    answer (ReposListForAuthenticatedUser params) r
      (inr (page_of params (repositories r)), r);
  search_repos params r :=
    answer (SearchRepos params) r
      (inr (firstn (search_per_page params) (repositories r)), r);
  repos_get owner repo r :=
    answer (ReposGet owner repo) r
      (match find (named repo) (repositories r) with
       | Some x => (inr x, r)
       | None => (inl "Not Found", r)
       end);
  repos_delete owner repo r :=
    answer (ReposDelete owner repo) r
      (match find (named repo) (repositories r) with
       | Some _ =>
           (inr tt,
            with_repositories (filter (fun x => negb (named repo x)) (repositories r)) r)
       | None => (inl "Not Found", r)
       end);
  repos_update owner repo patch r :=
    answer (ReposUpdate owner repo patch) r
      (match find (named repo) (repositories r) with
       | Some x =>
           (inr (patched patch x),
            with_repositories
              (map (fun y => if named repo y then patched patch y else y)
                 (repositories r)) r)
       | None => (inl "Not Found", r)
       end);
  repos_listContributors owner repo r :=
    answer (ReposListContributors owner repo) r
      (if has_content repo r then (inr (Some (contributors r)), r) else (inr None, r));
  repos_listLanguages owner repo r :=
    answer (ReposListLanguages owner repo) r
      (if has_content repo r then (inr (Some (language_bytes r)), r)
       else (inr (Some []), r));
  repos_listCommits owner repo n r :=
    answer (ReposListCommits owner repo n) r
      (if has_content repo r then (inr (Some (firstn n (commits r))), r)
       else (inl "Git Repository is empty.", r))
}.

Definition no_fault : Request -> option string := fun _ => None.

(** A repository with the given name and flags; [archived] as the
    provider sends it. *)
Definition repo (n : nat) (name : string) (private : bool) (archived : option bool)
  : Raw.t :=
  Raw.mk n name ("alice/" ++ name) None private false None 0 0
    "2024-01-01T00:00:00Z" "2023-01-01T00:00:00Z"
    ("https://github.com/alice/" ++ name)
    ("https://github.com/alice/" ++ name ++ ".git")
    archived (Some "main") (Some 0) (Some 0) None.

Definition account (repos : list Raw.t) (faults : Request -> option string) : Remote :=
  {| identity := "alice"; repositories := repos; contributors := [];
     language_bytes := []; commits := []; without_content := []; fault := faults |}.

(** The world when the process starts: [this.username] is the
    GITHUB_USERNAME of the environment, nothing was sent or printed. *)
Definition boot (r : Remote) (env_username : option string) : World Remote :=
  {| remote := r; calls := []; username := env_username; confirms := [];
     checkboxes := []; inputs := []; choices := []; console := [] |}.

(** An account of 102 repositories: a first page of 100 and
    [second_page]. *)
Definition second_page : list Raw.t :=
  [repo 101 "old-site" false (Some true); repo 102 "notes" true None].

Definition first_page : list Raw.t := repeat (repo 1 "fork" false (Some false)) 100.

(** Fifteen repositories, three of them archived and five private. *)
Definition fifteen : list Raw.t :=
  repeat (repo 201 "site" false None) 8
  ++ repeat (repo 202 "journal" true (Some false)) 4
  ++ [repo 203 "thesis" true (Some true)]
  ++ repeat (repo 204 "legacy" false (Some true)) 2.

Definition fifteen_world : World Remote :=
  boot (account (first_page ++ fifteen) no_fault) (Some "alice").

(** Seven repositories with 3, 10, 0, 7, 1, 5 and 2 stars. *)
Definition starred (name : string) (stars : nat) : Raw.t :=
  Raw.mk 300 name ("alice/" ++ name) None false false None stars 0
    "2024-01-01T00:00:00Z" "2023-01-01T00:00:00Z"
    ("https://github.com/alice/" ++ name)
    ("https://github.com/alice/" ++ name ++ ".git")
    None (Some "main") (Some 0) (Some 0) None.

Definition seven_starred : list Raw.t :=
  [starred "a" 3; starred "b" 10; starred "c" 0; starred "d" 7; starred "e" 1;
   starred "f" 5; starred "g" 2].

Definition starred_world : World Remote :=
  boot (account (first_page ++ seven_starred) no_fault) (Some "alice").


(** A repository with content whose commits the provider does not
    give: the request for them is rejected. *)
Definition commits_rejected_world : World Remote :=
  boot (account [repo 1 "notes" false None]
          (fun req => match req with
                      | ReposListCommits _ _ _ => Some "Server Error"
                      | _ => None
                      end))
    (Some "alice").

(** A process started without GITHUB_USERNAME and with a token the
    provider rejects. *)
Definition bad_credentials_world : World Remote :=
  boot (account []
          (fun req => match req with
                      | UsersGetAuthenticated => Some "Bad credentials"
                      | _ => None
                      end))
    None.

(** A process started without GITHUB_USERNAME and with a valid token. *)
Definition anonymous_world : World Remote := boot (account [] no_fault) None.

(** A user who first presses Enter, then types blanks, then a query
    with blanks around it. *)
Definition typing_world : World Remote :=
  with_inputs [EmptyString; "   "; " notes "] (boot (account [] no_fault) (Some "alice")).

(** A process whose listing request the provider rejects. *)
Definition rate_limited_world : World Remote :=
  boot (account second_page
          (fun req => match req with
                      | ReposListForAuthenticatedUser _ => Some "API rate limit exceeded"
                      | _ => None
                      end))
    (Some "alice").

Definition second_page_world : World Remote :=
  boot (account (first_page ++ second_page) no_fault) (Some "alice").

(** The user ticks both repositories of the listing and then answers
    the confirmations with [answers]. *)
Definition deleting_world (answers : list bool) : World Remote :=
  with_confirms answers
    (with_checkboxes [["old-site"; "notes"]] second_page_world).

Definition second_page_listed : World Remote :=
  with_calls [ReposListForAuthenticatedUser (list_params no_options)] second_page_world.

(** The user picks entry [i] of the next list prompt and answers the
    confirmations with [answers]. *)
Definition picking_world (i : nat) (answers : list bool) : World Remote :=
  with_choices [i] (with_confirms answers second_page_world).

(** The user asks for private repositories in the bulk visibility
    change, ticks every entry offered and confirms. *)
Definition hiding_world : World Remote :=
  with_checkboxes [["select-all"]] (picking_world 1 [true]).

(** The user types a name with blanks around it and confirms. *)
Definition naming_world : World Remote :=
  with_inputs ["  notes "] (with_confirms [true] second_page_world).

(** The user picks the last entry of the main menu. *)
Definition leaving_world : World Remote := with_choices [14] second_page_world.

(** An environment with a token and a username. *)
Definition env : Env :=
  {| GITHUB_TOKEN := Some "ghp_token"; GITHUB_USERNAME := Some "alice" |}.

(** A repository of an organisation that the user is a member of. *)
Definition shared : Raw.t :=
  Raw.mk 103 "tool" "org/tool" None false false None 0 0
    "2024-01-01T00:00:00Z" "2023-01-01T00:00:00Z"
    "https://github.com/org/tool" "https://github.com/org/tool.git"
    None (Some "main") (Some 0) (Some 0) None.

(** The user picks that repository, the only one of the listing, and
    confirms. *)
Definition shared_world : World Remote :=
  with_choices [0]
    (with_confirms [true] (boot (account (first_page ++ [shared]) no_fault) (Some "alice"))).

(** An environment with a token and no username. *)
Definition anonymous_env : Env :=
  {| GITHUB_TOKEN := Some "ghp_token"; GITHUB_USERNAME := None |}.

(** In the menu the user picks the account summary, presses Enter and
    picks the last entry. *)
Definition returning_world : World Remote :=
  with_inputs [EmptyString] (with_choices [12; 14] anonymous_world).

End Model.

(* ================================================================== *)
(** * Vocabulary of the properties                                      *)
(* ================================================================== *)

(** The world after one request: the request is in the log and the
    provider is in the state the endpoint left it in. *)
Definition sent {R} (req : Request) (r' : R) (w : World R) : World R :=
  with_remote r' (with_calls (calls w ++ [req]) w).

(** The client's outcome for a response, with the prefix its [catch]
    puts before the provider's message. *)
Definition outcome_of {A B} (prefix : string) (f : A -> B) (response : Response A)
  : Outcome B :=
  match response with
  | inl message => Throw (prefix ++ message)
  | inr data => Ok (f data)
  end.

(** [archived] of an entry, as the provider's field determines it. *)
Definition archived_defaulted (raw : Raw.t) (repo : Repo.t) : Prop :=
  Repo.archived repo = match Raw.archived raw with Some b => b | None => false end.

(** [topics] of a detail object: a list, whatever the provider sent. *)
Definition topics_defaulted (raw : Raw.t) (repo : Repo.t) : Prop :=
  Repo.topics repo = Some match Raw.topics raw with Some l => l | None => [] end.

(** How many entries of a listing satisfy [p]. *)
Fixpoint number_with (p : Repo.t -> bool) (l : list Repo.t) : nat :=
  match l with
  | [] => 0
  | repo :: l' => (if p repo then 1 else 0) + number_with p l'
  end.

(** Two lists with no common element. *)
Definition disjoint {A} (l1 l2 : list A) : Prop :=
  forall x, In x l1 -> In x l2 -> False.

(** The reference bulk runner: every target is attempted once, in input
    order, in the world the previous attempt left, whatever that attempt
    gave. *)
Fixpoint attempts {R A} (op : Repo.t -> M R A) (repos : list Repo.t) (w : World R)
  : list (Outcome A) * World R :=
  match repos with
  | [] => ([], w)
  | repo :: rest =>
      let (o, w1) := op repo w in
      let (os, w2) := attempts op rest w1 in
      (o :: os, w2)
  end.

(** The partition of per-target outcomes into [results] and [errors]:
    position [k] of [outs] is the outcome for position [k] of [repos]. *)
Fixpoint partition_outcomes {A B} (mk : Repo.t -> A -> B)
    (repos : list Repo.t) (outs : list (Outcome A)) : Bulk B :=
  match repos, outs with
  | repo :: repos', Ok a :: outs' =>
      let b := partition_outcomes mk repos' outs' in
      {| results := mk repo a :: results b; errors := errors b |}
  | repo :: repos', Throw message :: outs' =>
      let b := partition_outcomes mk repos' outs' in
      {| results := results b;
         errors := {| failed_name := Repo.name repo; error := message |} :: errors b |}
  | _, _ => no_outcomes
  end.

Definition is_settled {A} (o : Outcome A) : bool :=
  match o with Blocked => false | _ => true end.

Definition append_bulk {A} (acc b : Bulk A) : Bulk A :=
  {| results := results acc ++ results b; errors := errors acc ++ errors b |}.

(** The contract of a bulk runner [run] that applies [op] to each
    target: its result is the partition of the outcomes of the reference
    runner, one outcome per target; the sizes of [results] and [errors]
    add up to the number of targets; the requests were sent for the
    targets in input order, one each; and every entry of [errors] has the
    name of a target and a message that starts with [prefix]. *)
Definition bulk_contract {R A B} (run : list Repo.t -> M R (Bulk B))
    (op : Repo.t -> M R A) (mk : Repo.t -> A -> B) (req : Repo.t -> Request)
    (prefix : string) : Prop :=
  forall (repos : list Repo.t) (w : World R),
  exists outs w',
    attempts op repos w = (outs, w') /\
    run repos w = (Ok (partition_outcomes mk repos outs), w') /\
    List.length outs = List.length repos /\
    forallb is_settled outs = true /\
    List.length (results (partition_outcomes mk repos outs))
      + List.length (errors (partition_outcomes mk repos outs)) = List.length repos /\
    calls w' = calls w ++ map req repos /\
    Forall (fun e => exists repo message,
                In repo repos /\ failed_name e = Repo.name repo /\
                error e = (prefix ++ message)%string)
      (errors (partition_outcomes mk repos outs)).

(** The number of identity queries in a log. *)
Definition identity_queries (l : list Request) : nat :=
  List.length (filter is_identity_query l).

(** [n] calls of [m] in a row, with the outcome of each. *)
Fixpoint in_a_row {R A} (n : nat) (m : M R A) (w : World R)
  : list (Outcome A) * World R :=
  match n with
  | 0 => ([], w)
  | S n' =>
      let (o, w1) := m w in
      let (os, w2) := in_a_row n' m w1 in
      (o :: os, w2)
  end.

(** The requests a run added to the log. *)
Definition new_calls {R} (w w' : World R) : list Request :=
  skipn (List.length (calls w)) (calls w').

(** The default request of [listRepositories]. *)
Definition listing_request : Request :=
  ReposListForAuthenticatedUser (list_params no_options).

(** What the client never touches: its own username apart, the answers
    of the user and the console. *)
Definition ui {R} (w : World R)
  : list bool * list (list string) * list string * list nat * list Out :=
  (confirms w, checkboxes w, inputs w, choices w, console w).

(** A listing in which no entry has more stars than an entry before it. *)
Fixpoint descending (l : list Repo.t) : Prop :=
  match l with
  | [] => True
  | x :: l' =>
      Forall (fun y => Repo.stargazers_count y <= Repo.stargazers_count x) l'
      /\ descending l'
  end.

(** The requests that read. *)
Definition reads_only (l : list Request) : Prop :=
  Forall (fun req => is_mutation req = false) l.

(** The outcome is not a thrown error. *)
Definition not_thrown {A} (o : Outcome A) : Prop :=
  match o with Throw _ => False | _ => True end.

(** What the command layer may rely on, whatever the bulk method: the
    method returns, sends the request of each target in order, and
    leaves the username and the user's side of the world alone. *)
Definition bulk_effects {R B} (run : list Repo.t -> M R (Bulk B))
    (req : Repo.t -> Request) : Prop :=
  forall repos w,
    (exists b, fst (run repos w) = Ok b) /\
    calls (snd (run repos w)) = calls w ++ map req repos /\
    ui (snd (run repos w)) = ui w /\
    username (snd (run repos w)) = username w.

(** [wp m Q w]: the run of [m] from [w] ends in an outcome and a world
    that satisfy [Q]. *)
Definition wp {R A} (m : M R A) (Q : Outcome A -> World R -> Prop) (w : World R) : Prop :=
  Q (fst (m w)) (snd (m w)).

(** What a method of the client does to the world: it appends the
    requests [new] to the log and leaves the cached username and the
    answers of the user where they are. *)
Definition sends {R} (new : list Request) (w w1 : World R) : Prop :=
  calls w1 = calls w ++ new /\ username w1 = username w /\
  confirms w1 = confirms w /\ checkboxes w1 = checkboxes w /\
  inputs w1 = inputs w /\ choices w1 = choices w.

(** The same for the methods that may resolve the username on the way:
    the cache is theirs to write. *)
Definition asks {R} (new : list Request) (w w1 : World R) : Prop :=
  calls w1 = calls w ++ new /\
  confirms w1 = confirms w /\ checkboxes w1 = checkboxes w /\
  inputs w1 = inputs w /\ choices w1 = choices w.

(** What a prompt with a [validate] function does to the world: it
    sends nothing, and takes answers of its own kind only. *)
Definition prompted {R} (w w1 : World R) : Prop :=
  calls w1 = calls w /\ remote w1 = remote w /\ username w1 = username w /\
  confirms w1 = confirms w /\ choices w1 = choices w /\
  List.length (checkboxes w1) <= List.length (checkboxes w) /\
  List.length (inputs w1) <= List.length (inputs w).

(** The cache holds a username: [this.username] is truthy. *)
Definition has_username (cache : option string) : Prop :=
  exists u, cache = Some u /\ u <> EmptyString.

(** The owner the tool addresses its requests to from [w]: what
    [getUsername] returns there, and nothing when it fails. *)
Definition resolved {R} {octokit : Octokit R} (w : World R) : option string :=
  match fst (GitHubClient.getUsername w) with
  | Ok user => Some user
  | _ => None
  end.

(** The requests [new] of a command run from [w] to [w1] hold at most
    one identity query, and none when the username was cached, which
    then stays as it is. *)
Definition queries_once {R} (new : list Request) (w w1 : World R) : Prop :=
  identity_queries new <= 1 /\
  (has_username (username w) ->
   identity_queries new = 0 /\ username w1 = username w).

(** The repositories the tool sees from [w]: what [listRepositories]
    returns there, and nothing when it fails. *)
Definition listing {R} {octokit : Octokit R} (w : World R) : list Repo.t :=
  match fst (GitHubClient.listRepositories no_options w) with
  | Ok repos => repos
  | _ => []
  end.

(** The repository the tool sees under a name from [w]: what
    [getRepository] returns there. *)
Definition fetched {R} {octokit : Octokit R} (w : World R) (owner repo : string)
  : option Repo.t :=
  match fst (GitHubClient.getRepository owner repo w) with
  | Ok data => Some data
  | _ => None
  end.

(** [m] never throws: it returns, or a prompt of it waits. *)
Definition never_throws {R A} (m : M R A) : Prop :=
  forall w, not_thrown (fst (m w)).

(** [m] takes answers to list prompts and puts none back. *)
Definition takes_choices {R A} (m : M R A) : Prop :=
  forall w, List.length (choices (snd (m w))) <= List.length (choices w).

(** The endings of a process that stopped by itself with code 0 or 1, or
    that waits for the user. *)
Definition ended (e : Ending) : Prop :=
  match e with
  | Exit 0 | Exit 1 | Pending => True
  | _ => False
  end.

(** A run from [w] to [w1] that only adds requests to the log, with at
    most one identity query among them, and none when the username was
    cached. *)
Definition once {R} (w w1 : World R) : Prop :=
  exists new, calls w1 = calls w ++ new /\ queries_once new w w1.

(** [m] resolves the username at most once. *)
Definition resolves_once {R A} (m : M R A) : Prop :=
  forall w, once w (snd (m w)).

(** A run from [w] to [w1] that only adds requests to the log, no
    identity query among them, and leaves the cached username as it
    is. *)
Definition quiet {R} (w w1 : World R) : Prop :=
  exists new,
    calls w1 = calls w ++ new /\ identity_queries new = 0 /\ username w1 = username w.


(* ================================================================== *)
(** * The client, request by request                                    *)
(* ================================================================== *)

Ltac run_monad :=
  unfold bind, try_catch, ret, throw, send, sent, outcome_of in *.

Section ClientFacts.

Context {R : Type} {octokit : Octokit R}.

Lemma send_eq {A} (req : Request) (endpoint : R -> Response A * R) (w : World R) :
  send req endpoint w =
    (outcome_of EmptyString (fun d => d) (fst (endpoint (remote w))),
     sent req (snd (endpoint (remote w))) w).
Proof.
  run_monad. destruct (endpoint (remote w)) as [[message | data] r']; reflexivity.
Qed.

Lemma listRepositories_eq (options : ListOptions) (w : World R) :
  GitHubClient.listRepositories options w =
    (outcome_of "Failed to list repositories: " (map listing_entry)
       (fst (repos_listForAuthenticatedUser (list_params options) (remote w))),
     sent (ReposListForAuthenticatedUser (list_params options))
       (snd (repos_listForAuthenticatedUser (list_params options) (remote w))) w).
Proof.
  unfold GitHubClient.listRepositories. run_monad.
  destruct (repos_listForAuthenticatedUser (list_params options) (remote w))
    as [[message | data] r']; reflexivity.
Qed.

Lemma listRepositories_ok (options : ListOptions) (w w' : World R) (repos : list Repo.t) :
  GitHubClient.listRepositories options w = (Ok repos, w') ->
  exists raws,
    fst (repos_listForAuthenticatedUser (list_params options) (remote w)) = inr raws /\
    repos = map listing_entry raws.
Proof.
  rewrite listRepositories_eq. intros H.
  destruct (fst (repos_listForAuthenticatedUser (list_params options) (remote w)))
    as [message | raws]; simpl in H; [discriminate |].
  exists raws. split; [reflexivity | congruence].
Qed.

(** The four derived listings are filters of the full listing fetched
    from the same world. *)
Lemma filtered_listing_eq (keep : Repo.t -> bool) (prefix : string) (w : World R) :
  (try (repos <- GitHubClient.listRepositories no_options ;; ret (filter keep repos))
   catch (fun error => throw (prefix ++ error))) w =
    match GitHubClient.listRepositories no_options w with
    | (Ok repos, w') => (Ok (filter keep repos), w')
    | (Throw message, w') => (Throw (prefix ++ message), w')
    | (Blocked, w') => (Blocked, w')
    end.
Proof.
  unfold bind, try_catch, ret, throw.
  destruct (GitHubClient.listRepositories no_options w) as [[repos | message |] w'];
    reflexivity.
Qed.

End ClientFacts.

(* ================================================================== *)
(** * Normalisation at the client boundary                              *)
(* ================================================================== *)

Lemma listing_entry_archived (raw : Raw.t) : archived_defaulted raw (listing_entry raw).
Proof.
  unfold archived_defaulted, listing_entry; simpl.
  destruct (Raw.archived raw) as [[|] |]; reflexivity.
Qed.

Lemma listing_entries_archived (raws : list Raw.t) :
  Forall2 archived_defaulted raws (map listing_entry raws).
Proof.
  induction raws as [| raw raws IH]; simpl; constructor; auto using listing_entry_archived.
Qed.

Lemma detail_entry_defaults (raw : Raw.t) :
  archived_defaulted raw (detail_entry raw) /\ topics_defaulted raw (detail_entry raw).
Proof.
  unfold archived_defaulted, topics_defaulted, detail_entry; simpl. split.
  - destruct (Raw.archived raw) as [[|] |]; reflexivity.
  - destruct (Raw.topics raw); reflexivity.
Qed.

(** C10.  Whatever the provider answers, every entry that
    [listRepositories] and [searchRepositories] return, and the object
    [getRepository] returns, has [archived] set to the provider's boolean,
    or to [false] when the provider left the field out; the object of
    [getRepository] has [topics] set to the provider's list, or to the
    empty list when the provider left it out. *)
Theorem boundary_entries_are_normalised
    {R : Type} {octokit : Octokit R} (w : World R) :
  (forall options repos w',
      GitHubClient.listRepositories options w = (Ok repos, w') ->
      exists raws,
        fst (repos_listForAuthenticatedUser (list_params options) (remote w)) = inr raws /\
        Forall2 archived_defaulted raws repos) /\
  (forall query options repos w',
      GitHubClient.searchRepositories query options w = (Ok repos, w') ->
      exists user w1 raws,
        GitHubClient.getUsername w = (Ok user, w1) /\
        fst (search_repos (search_params query user options) (remote w1)) = inr raws /\
        Forall2 archived_defaulted raws repos) /\
  (forall owner repo r w',
      GitHubClient.getRepository owner repo w = (Ok r, w') ->
      exists raw,
        fst (repos_get owner repo (remote w)) = inr raw /\
        archived_defaulted raw r /\ topics_defaulted raw r).
Proof.
  split; [| split].
  - intros options repos w' H.
    destruct (listRepositories_ok _ _ H) as [raws [Hraws ->]].
    exists raws. split; [assumption | apply listing_entries_archived].
  - intros query options repos w' H.
    unfold GitHubClient.searchRepositories, bind, try_catch in H.
    destruct (GitHubClient.getUsername w) as [[user | message |] w1] eqn:Hu;
      try discriminate.
    rewrite send_eq in H.
    destruct (fst (search_repos (search_params query user options) (remote w1)))
      as [message | raws] eqn:Hs; simpl in H; try discriminate.
    exists user, w1, raws. repeat split; try assumption.
    unfold ret in H. injection H as <- _. apply listing_entries_archived.
  - intros owner repo r w' H.
    unfold GitHubClient.getRepository, bind, try_catch in H.
    rewrite send_eq in H.
    destruct (fst (repos_get owner repo (remote w))) as [message | raw] eqn:Hg;
      simpl in H; try discriminate.
    exists raw. unfold ret in H. injection H as <- _.
    split; [reflexivity | apply detail_entry_defaults].
Qed.

(** A run: the provider omits [archived] and [topics] of the
    repository it is asked for. *)
Lemma boundary_entries_are_normalised_witness :
  exists raw,
    fst (repos_get "alice" "notes"
           (remote (Model.boot (Model.account [Model.repo 7 "notes" false None]
                                  Model.no_fault) None))) = inr raw /\
    archived_defaulted raw (detail_entry (Model.repo 7 "notes" false None)) /\
    topics_defaulted raw (detail_entry (Model.repo 7 "notes" false None)).
Proof.
  apply (proj2 (proj2 (boundary_entries_are_normalised
                         (Model.boot (Model.account [Model.repo 7 "notes" false None]
                                        Model.no_fault) None)))
           "alice" "notes" (detail_entry (Model.repo 7 "notes" false None))
           (sent (ReposGet "alice" "notes")
              (Model.account [Model.repo 7 "notes" false None] Model.no_fault)
              (Model.boot (Model.account [Model.repo 7 "notes" false None]
                             Model.no_fault) None))).
  reflexivity.
Defined.

(* ================================================================== *)
(** * Derived listings                                                  *)
(* ================================================================== *)

Lemma filter_split_permutation {A} (p : A -> bool) (l : list A) :
  Permutation (filter (fun x => negb (p x)) l ++ filter p l) l.
Proof.
  induction l as [| a l IH]; simpl; [constructor |].
  destruct (p a); simpl.
  - apply Permutation_sym, Permutation_cons_app, Permutation_sym, IH.
  - constructor; exact IH.
Qed.

Lemma filter_split_disjoint {A} (p : A -> bool) (l : list A) :
  disjoint (filter (fun x => negb (p x)) l) (filter p l).
Proof.
  intros x Hn Hp.
  apply filter_In in Hn. apply filter_In in Hp.
  destruct Hn as [_ Hn], Hp as [_ Hp]. rewrite Hp in Hn. discriminate.
Qed.

(** C4.  From a world in which the listing is [repos], the active and
    the archived listing split [repos] in two: together they hold every
    entry of [repos] exactly as often as [repos] does, and no entry is in
    both.  The same holds of the public and the private listing. *)
Theorem derived_listings_partition
    {R : Type} {octokit : Octokit R} (w w' : World R) (repos : list Repo.t) :
  GitHubClient.listRepositories no_options w = (Ok repos, w') ->
  exists active archived public private,
    GitHubClient.listActiveRepositories w = (Ok active, w') /\
    GitHubClient.listArchivedRepositories w = (Ok archived, w') /\
    GitHubClient.listPublicRepositories w = (Ok public, w') /\
    GitHubClient.listPrivateRepositories w = (Ok private, w') /\
    Permutation (active ++ archived) repos /\ disjoint active archived /\
    Permutation (public ++ private) repos /\ disjoint public private.
Proof.
  intros H.
  exists (filter (fun repo => negb (Repo.archived repo)) repos),
         (filter (fun repo => Repo.archived repo) repos),
         (filter (fun repo => negb (Repo.private repo)) repos),
         (filter (fun repo => Repo.private repo) repos).
  unfold GitHubClient.listActiveRepositories, GitHubClient.listArchivedRepositories,
    GitHubClient.listPublicRepositories, GitHubClient.listPrivateRepositories.
  rewrite !filtered_listing_eq, H.
  repeat split.
  - apply (filter_split_permutation Repo.archived).
  - apply (filter_split_disjoint Repo.archived).
  - apply (filter_split_permutation Repo.private).
  - apply (filter_split_disjoint Repo.private).
Qed.

(** A run on an account whose second page holds one archived and
    one active repository. *)
Lemma derived_listings_partition_witness :
  exists active archived public private,
    GitHubClient.listActiveRepositories Model.second_page_world = (Ok active, Model.second_page_listed) /\
    GitHubClient.listArchivedRepositories Model.second_page_world = (Ok archived, Model.second_page_listed) /\
    GitHubClient.listPublicRepositories Model.second_page_world = (Ok public, Model.second_page_listed) /\
    GitHubClient.listPrivateRepositories Model.second_page_world = (Ok private, Model.second_page_listed) /\
    Permutation (active ++ archived) (map listing_entry Model.second_page) /\
    disjoint active archived /\
    Permutation (public ++ private) (map listing_entry Model.second_page) /\
    disjoint public private.
Proof.
  apply (derived_listings_partition Model.second_page_world). reflexivity.
Defined.

(* ================================================================== *)
(** * The two revisions of the bulk visibility command                  *)
(* ================================================================== *)

Lemma eligibleRepos_filtered_cases (repos : list Repo.t) (targetVisibility : bool) :
  GitHubCommands.eligibleRepos_filtered repos targetVisibility =
    if targetVisibility
    then filter (fun repo => negb (Repo.private repo)) repos
    else filter (fun repo => Repo.private repo) repos.
Proof.
  unfold GitHubCommands.eligibleRepos_filtered.
  destruct targetVisibility; apply filter_ext; intros repo;
    destruct (Repo.private repo); reflexivity.
Qed.

(** C8.  From the same world and for the same target visibility, the
    listing through [listPublicRepositories] or [listPrivateRepositories]
    is the filter [repo.private !== targetVisibility] of the full
    listing, and leaves the same world behind; when the full listing
    fails, so does the dedicated one. *)
Theorem eligible_sets_agree
    {R : Type} {octokit : Octokit R} (w : World R) (targetVisibility : bool) :
  (forall repos w',
      GitHubClient.listRepositories no_options w = (Ok repos, w') ->
      GitHubCommands.eligibleRepos targetVisibility w =
        (Ok (GitHubCommands.eligibleRepos_filtered repos targetVisibility), w')) /\
  (forall message w',
      GitHubClient.listRepositories no_options w = (Throw message, w') ->
      GitHubCommands.eligibleRepos targetVisibility w =
        (Throw ("Failed to list active repositories: " ++ message), w')).
Proof.
  split; intros x w' H; unfold GitHubCommands.eligibleRepos;
    try rewrite eligibleRepos_filtered_cases;
    destruct targetVisibility;
    unfold GitHubClient.listPublicRepositories, GitHubClient.listPrivateRepositories;
    rewrite filtered_listing_eq, H; reflexivity.
Qed.

(** A run: the public repositories of the second page are the
    ones eligible for becoming private. *)
Lemma eligible_sets_agree_witness :
  GitHubCommands.eligibleRepos true Model.second_page_world =
    (Ok (GitHubCommands.eligibleRepos_filtered (map listing_entry Model.second_page) true),
     Model.second_page_listed).
Proof.
  apply (proj1 (eligible_sets_agree Model.second_page_world true)). reflexivity.
Defined.

Lemma eligibleRepos_ok
    {R : Type} {octokit : Octokit R} (w w' : World R) (t : bool) (repos : list Repo.t) :
  GitHubClient.listRepositories no_options w = (Ok repos, w') ->
  GitHubCommands.eligibleRepos t w = (Ok (GitHubCommands.eligibleRepos_filtered repos t), w').
Proof.
  intros H. unfold GitHubCommands.eligibleRepos. rewrite eligibleRepos_filtered_cases.
  destruct t;
    unfold GitHubClient.listPublicRepositories, GitHubClient.listPrivateRepositories;
    rewrite filtered_listing_eq, H; reflexivity.
Qed.

(** The two revisions of the command, run from the same world, end in
    the same world with the same outcome whenever the listing succeeds
    with at least one repository and the user picks a target
    visibility. *)
Lemma visibility_commands_agree
    {R : Type} {octokit : Octokit R} (w w1 : World R) (repos : list Repo.t)
    (i : nat) (rest : list nat) :
  GitHubClient.listRepositories no_options w = (Ok repos, w1) ->
  repos <> [] ->
  choices w = i :: rest ->
  i < 2 ->
  GitHubCommands.bulkChangeRepositoryVisibility w =
    GitHubCommands.bulkChangeRepositoryVisibility_filtered w.
Proof.
  intros Hl Hne Hch Hi.
  assert (Ht : exists t, nth_error [false; true] i = Some t).
  { destruct i as [| [| i]]; simpl; eauto; lia. }
  destruct Ht as [t Ht].
  assert (Hcur : forall k : bool -> list Repo.t -> M R unit,
             (targetVisibility <- GitHubCommands.promptTargetVisibility ;;
              eligible <- GitHubCommands.eligibleRepos targetVisibility ;;
              k targetVisibility eligible) w =
             k t (GitHubCommands.eligibleRepos_filtered repos t)
               (with_choices rest
                  (with_console
                     (console w ++
                      [PromptList
                         "What visibility do you want to set for the selected repositories?"])
                     w1))).
  { intros k. unfold bind at 1. unfold GitHubCommands.promptTargetVisibility.
    rewrite Hch, Ht. unfold bind.
    match goal with
    | |- context [GitHubCommands.eligibleRepos t ?wp] =>
        rewrite (@eligibleRepos_ok _ _ wp
                   (sent listing_request
                      (snd (repos_listForAuthenticatedUser (list_params no_options)
                              (remote w))) wp) t repos)
    end.
    - rewrite listRepositories_eq in Hl. injection Hl as _ <-. reflexivity.
    - rewrite listRepositories_eq in *. cbn [remote with_choices with_console].
      injection Hl as -> _. reflexivity. }
  assert (Hold : forall k : bool -> list Repo.t -> M R unit,
             (rs <- GitHubClient.listRepositories no_options ;;
              if (List.length rs =? 0)%nat
              then Utils.displayWarning "No repositories found."
              else targetVisibility <- GitHubCommands.promptTargetVisibility ;;
                   k targetVisibility
                     (GitHubCommands.eligibleRepos_filtered rs targetVisibility)) w =
             k t (GitHubCommands.eligibleRepos_filtered repos t)
               (with_choices rest
                  (with_console
                     (console w ++
                      [PromptList
                         "What visibility do you want to set for the selected repositories?"])
                     w1))).
  { intros k. unfold bind at 1. rewrite Hl.
    destruct repos as [| repo repos]; [contradiction |]. cbn [List.length Nat.eqb].
    unfold bind, GitHubCommands.promptTargetVisibility.
    rewrite listRepositories_eq in Hl. injection Hl as _ <-.
    cbn [choices console sent with_remote with_calls]. rewrite Hch, Ht. reflexivity. }
  unfold GitHubCommands.bulkChangeRepositoryVisibility,
    GitHubCommands.bulkChangeRepositoryVisibility_filtered, try_catch.
  specialize (Hcur (fun targetVisibility eligible =>
                      GitHubCommands.changeVisibilityOf eligible targetVisibility)).
  specialize (Hold (fun targetVisibility eligible =>
                      GitHubCommands.changeVisibilityOf eligible targetVisibility)).
  cbv beta in Hcur, Hold. rewrite Hcur, Hold. reflexivity.
Qed.

(* ================================================================== *)
(** * The account summary                                               *)
(* ================================================================== *)

Lemma length_filter_number_with (p : Repo.t -> bool) (l : list Repo.t) :
  List.length (filter p l) = number_with p l.
Proof.
  induction l as [| repo l IH]; simpl; [reflexivity |].
  destruct (p repo); simpl; rewrite IH; reflexivity.
Qed.

Lemma number_with_complement (p : Repo.t -> bool) (l : list Repo.t) :
  number_with (fun repo => negb (p repo)) l + number_with p l = List.length l.
Proof.
  induction l as [| repo l IH]; simpl; [reflexivity |].
  destruct (p repo); simpl; lia.
Qed.

Lemma userStatistics_counts (user : string) (repos : list Repo.t) :
  info_total (userStatistics user repos) = List.length repos /\
  info_archived (userStatistics user repos) = number_with Repo.archived repos /\
  info_private (userStatistics user repos) = number_with Repo.private repos /\
  info_public (userStatistics user repos) =
    info_total (userStatistics user repos) - info_private (userStatistics user repos).
Proof.
  unfold userStatistics; simpl.
  rewrite !length_filter_number_with.
  repeat split.
  pose proof (number_with_complement Repo.private repos) as H.
  change (number_with (fun repo => Repo.private repo) repos)
    with (number_with Repo.private repos).
  lia.
Qed.

(** C9.  When the username resolves to [user] and the listing is [repos],
    [showUserInfo] succeeds and prints a summary whose total is the
    length of [repos], whose archived and private counts are the numbers
    of entries with [archived] and with [private] set, and whose public
    count is the total minus the private count. *)
Theorem info_summary_counts
    {R : Type} {octokit : Octokit R} (w w1 w2 : World R)
    (user : string) (repos : list Repo.t) :
  GitHubClient.getUsername
    (with_console (console w ++ [SpinnerStart "Fetching user information..."]) w)
    = (Ok user, w1) ->
  GitHubClient.listRepositories no_options w1 = (Ok repos, w2) ->
  exists w3 summary,
    GitHubCommands.showUserInfo w = (Ok tt, w3) /\
    In (DisplayUserInfo summary) (console w3) /\
    info_username summary = user /\
    info_total summary = List.length repos /\
    info_archived summary = number_with Repo.archived repos /\
    info_private summary = number_with Repo.private repos /\
    info_public summary = info_total summary - info_private summary.
Proof.
  intros Hu Hl.
  destruct (userStatistics_counts user repos) as (Ht & Ha & Hp & Hpub).
  unfold GitHubCommands.showUserInfo, bind, try_catch, print.
  rewrite Hu, Hl. cbv beta iota.
  destruct (0 <? List.length (firstn 5 (sort_by_stars repos)))%nat;
    eexists; exists (userStatistics user repos);
    (split; [reflexivity |]); (split; [| auto]);
    unfold ret; simpl; rewrite ?in_app_iff; simpl; tauto.
Qed.

(** The scenario of the specification: a listing of 15
    repositories, 3 archived and 5 private, is summarised as total 15,
    archived 3, private 5 and public 10. *)
Lemma info_summary_counts_witness :
  exists w3 summary,
    GitHubCommands.showUserInfo Model.fifteen_world = (Ok tt, w3) /\
    In (DisplayUserInfo summary) (console w3) /\
    info_total summary = 15 /\ info_archived summary = 3 /\
    info_private summary = 5 /\ info_public summary = 10.
Proof.
  destruct (info_summary_counts Model.fifteen_world
              (w1 := with_console [SpinnerStart "Fetching user information..."]
                       Model.fifteen_world)
              (w2 := with_calls [listing_request]
                       (with_console [SpinnerStart "Fetching user information..."]
                          Model.fifteen_world))
              (user := "alice") (repos := map listing_entry Model.fifteen))
    as (w3 & summary & Hrun & Hin & _ & Ht & Ha & Hp & Hpub);
    [reflexivity | reflexivity |].
  exists w3, summary.
  rewrite Hpub, Ht, Hp.
  repeat split; assumption.
Defined.

(* ================================================================== *)
(** * The bulk runner                                                   *)
(* ================================================================== *)

Section BulkRunner.

Context {R : Type} {A B : Type}.
Variable op : Repo.t -> M R A.
Variable mk : Repo.t -> A -> B.
Variable req : Repo.t -> Request.
Variable prefix : string.

(** What the loop needs of the single-target operation: it sends one
    request, it never waits for the user, and the message of its error
    starts with [prefix]. *)
Hypothesis op_sends : forall repo w, calls (snd (op repo w)) = calls w ++ [req repo].
Hypothesis op_settles : forall repo w, is_settled (fst (op repo w)) = true.
Hypothesis op_prefix :
  forall repo w message,
    fst (op repo w) = Throw message -> exists m, message = (prefix ++ m)%string.

Lemma attempts_length (repos : list Repo.t) (w : World R) :
  List.length (fst (attempts op repos w)) = List.length repos.
Proof.
  revert w. induction repos as [| repo rest IH]; intros w; simpl; [reflexivity |].
  destruct (op repo w) as [o w1]. specialize (IH w1).
  destruct (attempts op rest w1) as [os w2]. simpl in *. congruence.
Qed.

Lemma attempts_settled (repos : list Repo.t) (w : World R) :
  forallb is_settled (fst (attempts op repos w)) = true.
Proof.
  revert w. induction repos as [| repo rest IH]; intros w; simpl; [reflexivity |].
  pose proof (op_settles repo w) as Hs.
  destruct (op repo w) as [o w1]. specialize (IH w1).
  destruct (attempts op rest w1) as [os w2]. simpl in *.
  rewrite Hs, IH. reflexivity.
Qed.

Lemma attempts_calls (repos : list Repo.t) (w : World R) :
  calls (snd (attempts op repos w)) = calls w ++ map req repos.
Proof.
  revert w. induction repos as [| repo rest IH]; intros w; simpl.
  - rewrite app_nil_r. reflexivity.
  - pose proof (op_sends repo w) as Hc.
    destruct (op repo w) as [o w1]. specialize (IH w1).
    destruct (attempts op rest w1) as [os w2]. simpl in *.
    rewrite IH, Hc, <- app_assoc. reflexivity.
Qed.

Lemma partition_sizes (repos : list Repo.t) (outs : list (Outcome A)) :
  List.length outs = List.length repos ->
  forallb is_settled outs = true ->
  List.length (results (partition_outcomes mk repos outs))
    + List.length (errors (partition_outcomes mk repos outs)) = List.length repos.
Proof.
  revert outs. induction repos as [| repo rest IH]; intros [| o outs] Hl Hs;
    simpl in *; try discriminate; [reflexivity |].
  apply andb_true_iff in Hs. destruct Hs as [Ho Hs].
  injection Hl as Hl. specialize (IH outs Hl Hs).
  destruct o; simpl in *; try discriminate; lia.
Qed.

Lemma attempts_errors (repos : list Repo.t) (w : World R) :
  Forall (fun e => exists repo message,
              In repo repos /\ failed_name e = Repo.name repo /\
              error e = (prefix ++ message)%string)
    (errors (partition_outcomes mk repos (fst (attempts op repos w)))).
Proof.
  revert w. induction repos as [| repo rest IH]; intros w; simpl; [constructor |].
  pose proof (op_prefix repo w) as Hp.
  destruct (op repo w) as [o w1]. specialize (IH w1).
  destruct (attempts op rest w1) as [os w2]. simpl in *.
  assert (Hrest : Forall (fun e => exists repo0 message,
              (repo = repo0 \/ In repo0 rest) /\ failed_name e = Repo.name repo0 /\
              error e = (prefix ++ message)%string)
            (errors (partition_outcomes mk rest os))).
  { eapply Forall_impl; [| exact IH].
    intros e (repo0 & message & Hin & Hn & He). exists repo0, message. auto. }
  destruct o as [a | message |]; simpl; try assumption; [| constructor].
  constructor; [| assumption].
  destruct (Hp message eq_refl) as [m ->]. exists repo, m. auto.
Qed.

(** The loop of the four bulk methods, started with any accumulators. *)
Lemma bulk_loop_eq (repos : list Repo.t) (acc : Bulk B) (w : World R) :
  for_of repos
    (fun acc repo =>
       try (r <- op repo ;; ret (push_result acc (mk repo r)))
       catch (fun error =>
                ret (push_error acc {| failed_name := Repo.name repo; error := error |})))
    acc w =
  (Ok (append_bulk acc (partition_outcomes mk repos (fst (attempts op repos w)))),
   snd (attempts op repos w)).
Proof.
  revert acc w. induction repos as [| repo rest IH]; intros acc w; simpl.
  - unfold ret, append_bulk; simpl. rewrite !app_nil_r. destruct acc; reflexivity.
  - unfold bind at 1. unfold try_catch at 1. unfold bind at 1.
    pose proof (op_settles repo w) as Hs.
    destruct (op repo w) as [[a | message |] w1]; simpl in Hs; try discriminate;
      unfold ret at 1; rewrite IH;
      destruct (attempts op rest w1) as [os w2]; simpl;
      unfold append_bulk, push_result, push_error; simpl;
      rewrite <- app_assoc; reflexivity.
Qed.

Lemma bulk_loop_contract (run : list Repo.t -> M R (Bulk B)) :
  (forall repos w,
      run repos w =
        for_of repos
          (fun acc repo =>
             try (r <- op repo ;; ret (push_result acc (mk repo r)))
             catch (fun error =>
                      ret (push_error acc
                             {| failed_name := Repo.name repo; error := error |})))
          no_outcomes w) ->
  bulk_contract run op mk req prefix.
Proof.
  intros Hrun repos w.
  exists (fst (attempts op repos w)), (snd (attempts op repos w)).
  split; [destruct (attempts op repos w); reflexivity |].
  split.
  { rewrite Hrun, bulk_loop_eq. unfold append_bulk, no_outcomes; simpl.
    destruct (partition_outcomes mk repos (fst (attempts op repos w))); reflexivity. }
  split; [apply attempts_length |].
  split; [apply attempts_settled |].
  split; [apply partition_sizes; [apply attempts_length | apply attempts_settled] |].
  split; [apply attempts_calls | apply attempts_errors].
Qed.

End BulkRunner.

Section SingleTarget.

Context {R : Type} {octokit : Octokit R}.

(** A client method that wraps one request in [try]/[catch]. *)
Lemma wrapped_send_eq {A B} (req : Request) (endpoint : R -> Response A * R)
    (f : A -> B) (prefix : string) (w : World R) :
  (try (data <- send req endpoint ;; ret (f data))
   catch (fun error => throw (prefix ++ error))) w =
    (outcome_of prefix f (fst (endpoint (remote w))),
     sent req (snd (endpoint (remote w))) w).
Proof.
  run_monad. destruct (endpoint (remote w)) as [[message | data] r']; reflexivity.
Qed.

Lemma outcome_of_settled {A B} (prefix : string) (f : A -> B) (response : Response A) :
  is_settled (outcome_of prefix f response) = true.
Proof. destruct response; reflexivity. Qed.

Lemma outcome_of_prefix {A B} (prefix : string) (f : A -> B) (response : Response A)
    (message : string) :
  outcome_of prefix f response = Throw message ->
  exists m, message = (prefix ++ m)%string.
Proof.
  destruct response as [m | data]; simpl; intros H; [| discriminate].
  exists m. congruence.
Qed.

End SingleTarget.

Ltac single_target :=
  intros ? ?;
  first [ rewrite wrapped_send_eq
        | match goal with
          | |- context [try_catch (bind (send ?rq ?ep) _) _ ?w] =>
              let E := fresh "E" in
              pose proof (wrapped_send_eq rq ep (fun _ : unit => true)
                            "Failed to delete repository: " w) as E;
              cbv beta in E; rewrite E; clear E
          end ];
  unfold sent; cbn [fst snd calls with_remote with_calls];
  eauto using outcome_of_settled, outcome_of_prefix.

(** C2.  Each of the four bulk methods of the client meets the contract
    of the bulk runner for its single-target method: for every list of
    targets and from every world it returns one outcome per target,
    split into [results] and [errors] with nothing lost and nothing
    twice; it sends the request of each target once and in input order,
    also after a failure; and each entry of [errors] has the name of its
    target and the message of the single-target method. *)
Theorem bulk_runner_contract
    {R : Type} {octokit : Octokit R} (owner : string) (isPrivate : bool) :
  bulk_contract (GitHubClient.bulkDeleteRepositories owner)
    (fun repo => GitHubClient.deleteRepository owner (Repo.name repo))
    (fun repo _ => {| deleted_name := Repo.name repo; deleted_success := true |})
    (fun repo => ReposDelete owner (Repo.name repo))
    "Failed to delete repository: " /\
  bulk_contract (GitHubClient.bulkArchiveRepositories owner)
    (fun repo => GitHubClient.archiveRepository owner (Repo.name repo))
    (fun _ r => {| result := r; success := true |})
    (fun repo => ReposUpdate owner (Repo.name repo) (SetArchived true))
    "Failed to archive repository: " /\
  bulk_contract (GitHubClient.bulkUnarchiveRepositories owner)
    (fun repo => GitHubClient.unarchiveRepository owner (Repo.name repo))
    (fun _ r => {| result := r; success := true |})
    (fun repo => ReposUpdate owner (Repo.name repo) (SetArchived false))
    "Failed to unarchive repository: " /\
  bulk_contract
    (fun repos => GitHubClient.bulkUpdateVisibility owner repos isPrivate)
    (fun repo => GitHubClient.updateRepositoryVisibility owner (Repo.name repo) isPrivate)
    (fun _ r => {| result := r; success := true |})
    (fun repo => ReposUpdate owner (Repo.name repo) (SetPrivate isPrivate))
    "Failed to update repository visibility: ".
Proof.
  repeat split; apply bulk_loop_contract; try reflexivity.
  - unfold GitHubClient.deleteRepository. single_target.
  - unfold GitHubClient.deleteRepository. single_target.
  - unfold GitHubClient.deleteRepository. single_target.
  - unfold GitHubClient.archiveRepository. single_target.
  - unfold GitHubClient.archiveRepository. single_target.
  - unfold GitHubClient.archiveRepository. single_target.
  - unfold GitHubClient.unarchiveRepository. single_target.
  - unfold GitHubClient.unarchiveRepository. single_target.
  - unfold GitHubClient.unarchiveRepository. single_target.
  - unfold GitHubClient.updateRepositoryVisibility. single_target.
  - unfold GitHubClient.updateRepositoryVisibility. single_target.
  - unfold GitHubClient.updateRepositoryVisibility. single_target.
Qed.

(** The scenario of the specification: a bulk delete of three named
    targets of which the second does not exist. *)
Example bulk_delete_second_missing :
  let targets := map listing_entry
                   [Model.repo 1 "one" false None; Model.repo 2 "two" false None;
                    Model.repo 3 "three" false None] in
  let w := Model.boot
             (Model.account [Model.repo 1 "one" false None; Model.repo 3 "three" false None]
                Model.no_fault) (Some "alice") in
  let (o, w') := GitHubClient.bulkDeleteRepositories "alice" targets w in
  o = Ok {| results := [ {| deleted_name := "one"; deleted_success := true |};
                         {| deleted_name := "three"; deleted_success := true |} ];
            errors := [ {| failed_name := "two";
                           error := "Failed to delete repository: Not Found" |} ] |}
  /\ calls w' = [ReposDelete "alice" "one"; ReposDelete "alice" "two";
                 ReposDelete "alice" "three"]
  /\ Model.repositories (remote w') = [].
Proof. repeat split. Qed.

(* ================================================================== *)
(** * Repository statistics                                             *)
(* ================================================================== *)

(** X24.  What [getRepositoryStats] tolerates is a rejected request.
    When every fulfilled request for the contributors and the commits
    comes with its [data], the call succeeds: a rejected contributors
    request gives a count of 0 (the length of the empty list), a
    rejected languages request gives the empty language map, and a
    commits request that is rejected or returns no commit gives a null
    [last_commit].  The three requests are sent in the order
    contributors, languages, commits, each to the provider as the
    previous one left it. *)
Theorem stats_tolerate_rejections
    {R : Type} {octokit : Octokit R} (owner repo : string) (w : World R) :
  let c := repos_listContributors owner repo (remote w) in
  let l := repos_listLanguages owner repo (snd c) in
  let k := repos_listCommits owner repo 1 (snd l) in
  fst c <> inr None -> fst k <> inr None ->
  exists stats w',
    GitHubClient.getRepositoryStats owner repo w = (Ok stats, w') /\
    calls w' = calls w ++ [ReposListContributors owner repo;
                           ReposListLanguages owner repo;
                           ReposListCommits owner repo 1] /\
    (forall message, fst c = inl message -> contributors_count stats = 0) /\
    (forall message, fst l = inl message -> languages stats = Some []) /\
    (forall message, fst k = inl message -> last_commit stats = None) /\
    (fst k = inr (Some []) -> last_commit stats = None) /\
    (forall data, fst c = inr (Some data) ->
                  contributors_count stats = List.length data) /\
    (forall data, fst l = inr data -> languages stats = data) /\
    (forall data, fst k = inr (Some data) -> last_commit stats = hd_error data).
Proof.
  intros c l k. subst c l k.
  unfold GitHubClient.getRepositoryStats.
  unfold bind, try_catch, send, ret, throw.
  destruct (repos_listContributors owner repo (remote w)) as [[mc | [dc |]] r1]; simpl;
    destruct (repos_listLanguages owner repo r1) as [[ml | dl] r2]; simpl;
    destruct (repos_listCommits owner repo 1 r2) as [[mk | [dk |]] r3]; simpl;
    intros Hc Hk; try (exfalso; apply Hc; reflexivity);
    try (exfalso; apply Hk; reflexivity);
    eexists; eexists; (split; [reflexivity |]); simpl;
    rewrite <- !app_assoc; simpl;
    repeat split; intros; try discriminate; try congruence; try reflexivity;
    match goal with H : inr _ = inr (Some []) |- _ => injection H as -> end; reflexivity.
Qed.

(** A run on a repository with content whose commits request the
    provider rejects: the statistics come back with a null
    [last_commit]. *)
Lemma stats_tolerate_rejections_witness :
  fst (GitHubClient.getRepositoryStats "alice" "notes" Model.commits_rejected_world) =
    Ok {| contributors_count := 0; languages := Some []; last_commit := None |}.
Proof.
  destruct (stats_tolerate_rejections "alice" "notes" Model.commits_rejected_world)
    as (stats & w' & Hrun & _ & _ & _ & Hcommit & _ & Hc & Hl & _);
    [discriminate | discriminate |].
  rewrite Hrun. simpl.
  specialize (Hcommit "Server Error" eq_refl).
  specialize (Hc [] eq_refl). specialize (Hl (Some []) eq_refl).
  destruct stats as [n langs commit]. simpl in *. subst. reflexivity.
Defined.

(** What it does not tolerate is a fulfilled request without [data]:
    whatever the two other requests give, the call throws when the
    contributors come without a body, after all three requests were
    sent. *)
Lemma stats_need_the_contributors
    {R : Type} {octokit : Octokit R} (owner repo : string) (w : World R) (r' : R) :
  repos_listContributors owner repo (remote w) = (inr None, r') ->
  fst (GitHubClient.getRepositoryStats owner repo w) =
    Throw "Failed to get repository stats: Cannot read properties of undefined (reading 'length')"
  /\ calls (snd (GitHubClient.getRepositoryStats owner repo w)) =
       calls w ++ [ReposListContributors owner repo;
                   ReposListLanguages owner repo;
                   ReposListCommits owner repo 1].
Proof.
  intros Hc. unfold GitHubClient.getRepositoryStats.
  unfold bind, try_catch, send, ret, throw. rewrite Hc. simpl.
  destruct (repos_listLanguages owner repo r') as [[ml | dl] r2]; simpl;
    destruct (repos_listCommits owner repo 1 r2) as [[mk | dk] r3]; simpl;
    rewrite <- !app_assoc; split; reflexivity.
Qed.


(* ================================================================== *)
(** * The cached username                                               *)
(* ================================================================== *)

Section Username.

Context {R : Type} {octokit : Octokit R}.

Lemma getUsername_cached (w : World R) (u : string) :
  username w = Some u -> u <> EmptyString -> GitHubClient.getUsername w = (Ok u, w).
Proof.
  intros Hu Hne. unfold GitHubClient.getUsername. rewrite Hu.
  destruct u; [contradiction | reflexivity].
Qed.

Lemma getUsername_query (w : World R) :
  username w = None \/ username w = Some EmptyString ->
  GitHubClient.getUsername w =
    match users_getAuthenticated (remote w) with
    | (inr data, r') =>
        (Ok (login data),
         with_username (Some (login data)) (sent UsersGetAuthenticated r' w))
    | (inl message, r') =>
        (Throw ("Failed to get username: " ++ message),
         sent UsersGetAuthenticated r' w)
    end.
Proof.
  intros Hu. unfold GitHubClient.getUsername.
  assert (Hq : forall q : M R string,
             match username w with
             | Some u => if Js.truthy u then ret u w else q w
             | None => q w
             end = q w)
    by (intros q; destruct Hu as [-> | ->]; reflexivity).
  rewrite Hq. run_monad.
  destruct (users_getAuthenticated (remote w)) as [[message | data] r']; reflexivity.
Qed.

Lemma in_a_row_cached (w : World R) (u : string) (n : nat) :
  username w = Some u -> u <> EmptyString ->
  in_a_row n GitHubClient.getUsername w = (repeat (Ok u) n, w).
Proof.
  intros Hu Hne. induction n as [| n IH]; simpl; [reflexivity |].
  rewrite (getUsername_cached w Hu Hne), IH. reflexivity.
Qed.

End Username.

(** The cache is written by a fulfilled identity query only: after a
    rejected one, a second call of [getUsername] would query again.  No
    command makes such a second call. *)
Lemma username_queried_again_after_failure :
  fst (in_a_row 2 GitHubClient.getUsername Model.bad_credentials_world) =
    [Throw "Failed to get username: Bad credentials";
     Throw "Failed to get username: Bad credentials"]
  /\ calls (snd (in_a_row 2 GitHubClient.getUsername Model.bad_credentials_world)) =
       [UsersGetAuthenticated; UsersGetAuthenticated]
  /\ ~ identity_queries
         (calls (snd (in_a_row 2 GitHubClient.getUsername Model.bad_credentials_world)))
       <= 1.
Proof.
  repeat split. vm_compute. lia.
Qed.

(* ================================================================== *)
(** * The search query                                                  *)
(* ================================================================== *)

Lemma read_valid_accepts {A} (validate : A -> option string) (answers : list A)
    (shown : list Out) (a : A) (rest : list A) :
  Utils.read_valid validate answers = (shown, Some (a, rest)) ->
  validate a = None /\
  exists rejected,
    answers = rejected ++ a :: rest /\
    Forall (fun x => validate x <> None) rejected.
Proof.
  revert shown. induction answers as [| x answers IH]; intros shown H; simpl in H.
  - discriminate.
  - destruct (validate x) as [message |] eqn:Hx.
    + destruct (Utils.read_valid validate answers) as [shown' r] eqn:Hr.
      injection H as _ ->.
      destruct (IH shown' eq_refl) as [Ha [rejected [-> Hrej]]].
      split; [assumption |].
      exists (x :: rejected). split; [reflexivity |].
      constructor; [congruence | assumption].
    + injection H as _ <- <-.
      split; [assumption |]. exists []. split; [reflexivity | constructor].
Qed.

Lemma skipn_length_app {A} (l l' : list A) : skipn (List.length l) (l ++ l') = l'.
Proof. induction l as [| x l IH]; simpl; auto. Qed.

Lemma length_zero_empty (s : string) : (String.length s =? 0)%nat = true <-> s = EmptyString.
Proof.
  destruct s; simpl; split; intros H; try reflexivity; discriminate.
Qed.

Section SearchQuery.

Context {R : Type} {octokit : Octokit R}.

Lemma getSearchQuery_ok (w w' : World R) (query : string) :
  Utils.getSearchQuery w = (Ok query, w') ->
  query <> EmptyString /\ calls w' = calls w /\ remote w' = remote w /\
  username w' = username w /\
  exists rejected raw,
    inputs w = rejected ++ raw :: inputs w' /\
    Forall (fun input => Js.trim input = EmptyString) rejected /\
    query = Js.trim raw.
Proof.
  unfold Utils.getSearchQuery.
  destruct (Utils.read_valid _ (inputs w)) as [shown [[raw rest] |]] eqn:Hr;
    intros H; [| discriminate].
  injection H as <- <-.
  apply read_valid_accepts in Hr. destruct Hr as [Hv [rejected [Hin Hrej]]].
  split.
  { intros He. rewrite He in Hv. discriminate. }
  repeat split.
  exists rejected, raw. split; [exact Hin |]. split; [| reflexivity].
  eapply Forall_impl; [| exact Hrej].
  intros input Hi. cbv beta in Hi.
  destruct (String.length (Js.trim input) =? 0)%nat eqn:Hl; [| congruence].
  apply length_zero_empty. exact Hl.
Qed.

Lemma getSearchQuery_no_call (w : World R) :
  calls (snd (Utils.getSearchQuery w)) = calls w /\
  remote (snd (Utils.getSearchQuery w)) = remote w.
Proof.
  unfold Utils.getSearchQuery.
  destruct (Utils.read_valid _ (inputs w)) as [shown [[raw rest] |]]; split; reflexivity.
Qed.

(** The requests of the client's [searchRepositories]: the identity
    query when no username is cached, then the search itself with the
    query it was given. *)
Lemma searchRepositories_calls (query : string) (w : World R) (req : Request) :
  In req (new_calls w (snd (GitHubClient.searchRepositories query no_search_options w))) ->
  req = UsersGetAuthenticated \/
  exists user, req = SearchRepos (search_params query user no_search_options).
Proof.
  unfold GitHubClient.searchRepositories, new_calls.
  unfold bind at 1. unfold try_catch at 1. unfold bind at 1.
  assert (Hu : exists o w1,
             GitHubClient.getUsername w = (o, w1) /\
             (calls w1 = calls w \/ calls w1 = calls w ++ [UsersGetAuthenticated])).
  { unfold GitHubClient.getUsername. run_monad.
    destruct (username w) as [[| c u] |];
      try (eexists; eexists; split; [reflexivity | left; reflexivity]);
      destruct (users_getAuthenticated (remote w)) as [[message | data] r'];
      eexists; eexists; (split; [reflexivity | right; reflexivity]). }
  destruct Hu as (o & w1 & -> & Hc).
  destruct o as [user | message |]; unfold throw; cbn [snd].
  - rewrite send_eq.
    destruct (fst (search_repos _ (remote w1))); cbn [outcome_of snd sent calls
      with_remote with_calls ret];
      destruct Hc as [-> | ->]; rewrite <- ?app_assoc, skipn_length_app;
      simpl; intros H; intuition eauto.
  - destruct Hc as [-> | ->].
    + rewrite skipn_all. intros [].
    + rewrite skipn_length_app. simpl. intuition.
  - destruct Hc as [-> | ->].
    + rewrite skipn_all. intros [].
    + rewrite skipn_length_app. simpl. intuition.
Qed.

End SearchQuery.

(** X23.  The query is validated by the prompt, not by the client.
    [getSearchQuery] sends no request; the query it
    returns is the trimmed form of the first typed input that is not
    empty after trimming, so it is not empty, and every input typed
    before it was empty after trimming.  Every search request that the
    search command sends carries such a query, followed by the user
    qualifier. *)
Theorem search_query_validated_at_prompt
    {R : Type} {octokit : Octokit R} (w : World R) :
  calls (snd (Utils.getSearchQuery w)) = calls w /\
  (forall query w',
      Utils.getSearchQuery w = (Ok query, w') ->
      query <> EmptyString /\
      exists rejected raw,
        inputs w = rejected ++ raw :: inputs w' /\
        Forall (fun input => Js.trim input = EmptyString) rejected /\
        query = Js.trim raw) /\
  (forall params,
      In (SearchRepos params)
        (new_calls w (snd (GitHubCommands.searchRepositories w))) ->
      exists raw user,
        In raw (inputs w) /\ Js.trim raw <> EmptyString /\
        q params = (Js.trim raw ++ " user:" ++ user)%string).
Proof.
  split; [apply getSearchQuery_no_call |].
  split.
  { intros query w' H. apply getSearchQuery_ok in H.
    destruct H as (Hne & _ & _ & _ & Hex). split; assumption. }
  intros params.
  unfold GitHubCommands.searchRepositories. unfold bind at 1.
  destruct (Utils.getSearchQuery w) as [[query | message |] w1] eqn:Hq.
  - apply getSearchQuery_ok in Hq.
    destruct Hq as (Hne & Hc & _ & _ & rejected & raw & Hin & _ & ->).
    unfold bind at 1. unfold print at 1.
    set (w2 := with_console _ w1).
    assert (Hc2 : calls w2 = calls w) by exact Hc.
    intros H.
    assert (Hs : In (SearchRepos params)
                   (new_calls w2
                      (snd (GitHubClient.searchRepositories (Js.trim raw)
                              no_search_options w2)))).
    { unfold new_calls in *. rewrite Hc2.
      unfold try_catch, bind in H.
      destruct (GitHubClient.searchRepositories (Js.trim raw) no_search_options w2)
        as [[repos | message |] w3]; exact H. }
    apply searchRepositories_calls in Hs.
    destruct Hs as [Hs | [user Hs]]; [discriminate |].
    injection Hs as ->.
    exists raw, user. split; [| split; [assumption | reflexivity]].
    rewrite Hin. apply in_or_app. right. left. reflexivity.
  - pose proof (getSearchQuery_no_call w) as [Hc _]. rewrite Hq in Hc.
    cbn [snd] in *. unfold new_calls. rewrite Hc, skipn_all. intros [].
  - pose proof (getSearchQuery_no_call w) as [Hc _]. rewrite Hq in Hc.
    cbn [snd] in *. unfold new_calls. rewrite Hc, skipn_all. intros [].
Qed.

(** A run: the prompt rejects the empty input and the
    blank input, and returns the third input trimmed. *)
Lemma search_query_validated_at_prompt_witness :
  "notes" <> EmptyString /\
  exists rejected raw,
    inputs Model.typing_world = rejected ++ raw :: [] /\
    Forall (fun input => Js.trim input = EmptyString) rejected /\
    "notes" = Js.trim raw.
Proof.
  apply (proj1 (proj2 (search_query_validated_at_prompt Model.typing_world))
           "notes"
           (with_inputs []
              (with_console
                 [PromptInput "Enter search query:";
                  ValidationMessage "Search query cannot be empty";
                  ValidationMessage "Search query cannot be empty"]
                 Model.typing_world))).
  reflexivity.
Defined.

(** The client itself does not validate: its [searchRepositories] takes
    a query that is empty after trimming to the provider and returns
    its answer. *)
Lemma blank_query_reaches_the_provider :
  Js.trim "   " = EmptyString /\
  GitHubClient.searchRepositories "   " no_search_options
    (Model.boot (Model.account [] Model.no_fault) (Some "alice")) =
    (Ok [],
     with_calls [SearchRepos {| q := "    user:alice"; search_per_page := 100;
                                search_sort := "updated" |}]
       (Model.boot (Model.account [] Model.no_fault) (Some "alice"))).
Proof. split; reflexivity. Qed.

(** C5.  The search of the command line does not validate its query.
    [node index.js search] with a blank argument hands the argument to
    the client as it is: the search request is sent with a query that
    is empty after trimming, and the process ends as after any search.
    The same blanks typed at the prompt of the interactive search are
    rejected by [getSearchQuery], and nothing is sent. *)
Theorem command_line_search_skips_the_validation :
  Js.trim "   " = EmptyString /\
  fst (GitHubManager.main 0 Model.env ["search"; "   "] Model.second_page_world) = Done /\
  calls (snd (GitHubManager.main 0 Model.env ["search"; "   "] Model.second_page_world)) =
    [SearchRepos {| q := "    user:alice"; search_per_page := 100;
                    search_sort := "updated" |}] /\
  fst (GitHubManager.main 0 Model.env ["search"]
         (with_inputs ["   "] Model.second_page_world)) = Pending /\
  calls (snd (GitHubManager.main 0 Model.env ["search"]
                (with_inputs ["   "] Model.second_page_world))) = [] /\
  In (ValidationMessage "Search query cannot be empty")
    (console (snd (GitHubManager.main 0 Model.env ["search"]
                     (with_inputs ["   "] Model.second_page_world)))).
Proof.
  repeat split; vm_compute; auto.
Qed.

(* ================================================================== *)
(** * The bulk delete command                                           *)
(* ================================================================== *)

Section BulkDelete.

Context {R : Type} {octokit : Octokit R}.

(** The checkbox prompt sends nothing and leaves the coming
    confirmations alone. *)
Lemma selectMultipleRepositories_quiet (repos : list Repo.t) (message : string)
    (w : World R) :
  calls (snd (Utils.selectMultipleRepositories repos message w)) = calls w /\
  confirms (snd (Utils.selectMultipleRepositories repos message w)) = confirms w.
Proof.
  unfold Utils.selectMultipleRepositories, throw.
  destruct (List.length repos =? 0)%nat; [split; reflexivity |].
  destruct (Utils.read_valid _ (checkboxes w)) as [shown [[selected rest] |]];
    [| split; reflexivity].
  destruct (Js.includes selected "select-all"); [split; reflexivity |].
  destruct (Js.includes selected "select-none"); split; reflexivity.
Qed.

(** A confirmation prompt sends nothing; it takes the next answer of
    the user, and waits for ever when there is none. *)
Lemma confirmAction_cases (message : string) (w : World R) :
  calls (snd (Utils.confirmAction message w)) = calls w /\
  match confirms w with
  | [] => fst (Utils.confirmAction message w) = Blocked
  | answer :: rest =>
      fst (Utils.confirmAction message w) = Ok answer /\
      confirms (snd (Utils.confirmAction message w)) = rest
  end.
Proof.
  unfold Utils.confirmAction. destruct (confirms w); simpl; auto.
Qed.

Lemma confirmBulkAction_cases (repos : list Repo.t) (action targetState : string)
    (w : World R) :
  calls (snd (Utils.confirmBulkAction repos action targetState w)) = calls w /\
  match confirms w with
  | [] => fst (Utils.confirmBulkAction repos action targetState w) = Blocked
  | answer :: rest =>
      fst (Utils.confirmBulkAction repos action targetState w) = Ok answer /\
      confirms (snd (Utils.confirmBulkAction repos action targetState w)) = rest
  end.
Proof.
  unfold Utils.confirmBulkAction, bind, print. cbn [confirms with_console].
  destruct (confirms w); simpl; auto.
Qed.

(** Unless the next two confirmations are both affirmative, the one
    request of the command is the listing it starts with. *)
Lemma bulkDeleteRepositories_calls (w : World R) :
  (exists rest, confirms w = true :: true :: rest) \/
  calls (snd (GitHubCommands.bulkDeleteRepositories w)) = calls w ++ [listing_request].
Proof.
  unfold GitHubCommands.bulkDeleteRepositories.
  unfold try_catch at 1. unfold bind at 1.
  rewrite listRepositories_eq.
  destruct (fst (repos_listForAuthenticatedUser (list_params no_options) (remote w)))
    as [message | raws]; cbn [outcome_of]; [right; reflexivity |].
  set (w1 := sent _ _ w).
  assert (Hc1 : calls w1 = calls w ++ [listing_request]) by reflexivity.
  assert (Hf1 : confirms w1 = confirms w) by reflexivity.
  clearbody w1.
  destruct (List.length (map listing_entry raws) =? 0)%nat;
    [right; exact Hc1 |].
  unfold bind at 1. unfold print at 1.
  unfold bind at 1. unfold print at 1.
  unfold bind at 1. unfold print at 1.
  unfold bind at 1. unfold print at 1.
  set (w2 := with_console _ (with_console _ (with_console _ (with_console _ w1)))).
  assert (Hc2 : calls w2 = calls w ++ [listing_request]) by exact Hc1.
  assert (Hf2 : confirms w2 = confirms w) by exact Hf1.
  clearbody w2. clear w1 Hc1 Hf1.
  unfold bind at 1.
  pose proof (selectMultipleRepositories_quiet (map listing_entry raws)
                "Select repositories to delete (PERMANENT):" w2) as [Hc3 Hf3].
  destruct (Utils.selectMultipleRepositories (map listing_entry raws)
              "Select repositories to delete (PERMANENT):" w2)
    as [[selected | message |] w3]; cbn [snd] in Hc3, Hf3;
    rewrite Hc2 in Hc3; rewrite Hf2 in Hf3; clear w2 Hc2 Hf2;
    [| right; exact Hc3 | right; exact Hc3].
  destruct (List.length selected =? 0)%nat; [right; exact Hc3 |].
  unfold bind at 1. unfold print at 1.
  unfold bind at 1. unfold print at 1.
  set (w4 := with_console _ (with_console _ w3)).
  assert (Hc4 : calls w4 = calls w ++ [listing_request]) by exact Hc3.
  assert (Hf4 : confirms w4 = confirms w) by exact Hf3.
  clearbody w4. clear w3 Hc3 Hf3.
  unfold bind at 1.
  pose proof (confirmBulkAction_cases selected "PERMANENTLY DELETE"
                "DELETED (PERMANENT)" w4) as [Hc5 Hk5].
  rewrite Hf4 in Hk5.
  destruct (Utils.confirmBulkAction selected "PERMANENTLY DELETE"
              "DELETED (PERMANENT)" w4) as [o5 w5]; cbn [fst snd] in Hc5, Hk5.
  rewrite Hc4 in Hc5. clear w4 Hc4 Hf4.
  destruct (confirms w) as [| first rest1]; [subst o5; right; exact Hc5 |].
  destruct Hk5 as [-> Hf5].
  destruct first; cbn [negb]; [| right; exact Hc5].
  unfold bind at 1.
  match goal with
  | |- context [Utils.confirmAction ?m w5] =>
      pose proof (confirmAction_cases m w5) as [Hc6 Hk6];
      destruct (Utils.confirmAction m w5) as [o6 w6]
  end.
  cbn [fst snd] in Hc6, Hk6. rewrite Hc5 in Hc6. rewrite Hf5 in Hk6.
  destruct rest1 as [| second rest2]; [subst o6; right; exact Hc6 |].
  destruct Hk6 as [-> Hf6].
  destruct second; cbn [negb]; [| right; exact Hc6].
  left. exists rest2. reflexivity.
Qed.

End BulkDelete.

(** C3.  When the user declines the first confirmation, or accepts it
    and declines the final one, the only request of the bulk delete
    command is the listing it started with.  In every run, a request
    that changes the remote, a delete in particular, is among the
    requests of the command only if the user answered both
    confirmations affirmatively. *)
Theorem bulk_delete_decline_is_terminal
    {R : Type} {octokit : Octokit R} (w : World R) :
  ((exists rest, confirms w = false :: rest) \/
   (exists rest, confirms w = true :: false :: rest) ->
   calls (snd (GitHubCommands.bulkDeleteRepositories w)) = calls w ++ [listing_request]) /\
  (forall req,
      In req (new_calls w (snd (GitHubCommands.bulkDeleteRepositories w))) ->
      is_mutation req = true ->
      exists rest, confirms w = true :: true :: rest).
Proof.
  destruct (bulkDeleteRepositories_calls w) as [[rest Hboth] | Hlisting]; split.
  - intros [[r H] | [r H]]; rewrite H in Hboth; discriminate.
  - intros req _ _. exists rest. exact Hboth.
  - intros _. exact Hlisting.
  - intros req Hin Hmut. unfold new_calls in Hin.
    rewrite Hlisting, skipn_length_app in Hin.
    destruct Hin as [<- | []]. discriminate.
Qed.

(** A run: the user selects two repositories, accepts the first
    confirmation and declines the final one; nothing but the listing is
    requested and both repositories are still there. *)
Lemma bulk_delete_decline_is_terminal_witness :
  calls (snd (GitHubCommands.bulkDeleteRepositories (Model.deleting_world [true; false])))
    = [] ++ [listing_request].
Proof.
  apply (proj1 (bulk_delete_decline_is_terminal (Model.deleting_world [true; false]))).
  right. exists []. reflexivity.
Defined.

(** The same selection with both confirmations accepted: the two deletes
    are sent, in the order of the listing. *)
Example bulk_delete_confirmed_twice :
  new_calls (Model.deleting_world [true; true])
    (snd (GitHubCommands.bulkDeleteRepositories (Model.deleting_world [true; true]))) =
    [listing_request; ReposDelete "alice" "old-site"; ReposDelete "alice" "notes"]
  /\ fst (GitHubCommands.bulkDeleteRepositories (Model.deleting_world [true; false])) = Ok tt
  /\ fst (GitHubCommands.bulkDeleteRepositories (Model.deleting_world [false])) = Ok tt.
Proof. repeat split. Qed.

(* ================================================================== *)
(** * The listing and the provider's pages                              *)
(* ================================================================== *)

Lemma page_two_of_a_short_listing (repos : list Raw.t) :
  List.length repos <= 100 -> Model.page_of (list_params no_options) repos = [].
Proof.
  intros H. unfold Model.page_of. cbn [list_params no_options opt_per_page opt_page
    per_page page]. rewrite skipn_all2; [reflexivity | simpl; lia].
Qed.

(** Against a provider that serves the listing in pages,
    [listRepositories] sends one request, for page 2 with 100 entries a
    page, and returns the entries of that page: the repositories 101 to
    200 of the account. *)
Lemma listRepositories_returns_the_second_page
    (repos : list Raw.t) (env_username : option string) :
  GitHubClient.listRepositories no_options
    (Model.boot (Model.account repos Model.no_fault) env_username) =
    (Ok (map listing_entry (firstn 100 (skipn 100 repos))),
     with_calls [ReposListForAuthenticatedUser
                   {| per_page := 100; page := 2; sort := "updated"; direction := "asc" |}]
       (Model.boot (Model.account repos Model.no_fault) env_username)).
Proof.
  rewrite listRepositories_eq. reflexivity.
Qed.

Lemma listRepositories_empty_below_101
    (repos : list Raw.t) (env_username : option string) :
  List.length repos <= 100 ->
  fst (GitHubClient.listRepositories no_options
         (Model.boot (Model.account repos Model.no_fault) env_username)) = Ok [].
Proof.
  intros H. rewrite listRepositories_eq. cbn [fst outcome_of].
  change (fst (repos_listForAuthenticatedUser (list_params no_options)
                 (remote (Model.boot (Model.account repos Model.no_fault) env_username))))
    with (@inr string _ (Model.page_of (list_params no_options) repos)).
  rewrite page_two_of_a_short_listing by exact H. reflexivity.
Qed.

(** C1.  The listing is not complete.  On an account whose only visible
    repository is [notes], [listRepositories] sends its one request, for
    page 2, and returns the empty list: the repository is visible to the
    identity and missing from the result. *)
Theorem listRepositories_misses_the_first_page :
  In (Model.repo 1 "notes" false None)
     (Model.repositories (Model.account [Model.repo 1 "notes" false None] Model.no_fault))
  /\ GitHubClient.listRepositories no_options
       (Model.boot (Model.account [Model.repo 1 "notes" false None] Model.no_fault) None)
     = (Ok [],
        with_calls [ReposListForAuthenticatedUser
                      {| per_page := 100; page := 2; sort := "updated";
                         direction := "asc" |}]
          (Model.boot (Model.account [Model.repo 1 "notes" false None] Model.no_fault)
             None)).
Proof. split; [left; reflexivity | reflexivity]. Qed.

(* ================================================================== *)
(** * Further properties: the helpers of utils.js                       *)
(* ================================================================== *)

Lemma substring_0_length (n : nat) (s : string) :
  String.length (substring 0 n s) = Nat.min n (String.length s).
Proof.
  revert n. induction s as [| c s IH]; intros [| n]; simpl; auto.
Qed.

Lemma substring_0_prefix (n : nat) (s : string) : prefix (substring 0 n s) s = true.
Proof.
  revert n. induction s as [| c s IH]; intros [| n]; simpl; auto.
  destruct (ascii_dec c c) as [_ | Hne]; [apply IH | contradiction].
Qed.

Lemma length_append (s1 s2 : string) :
  String.length (s1 ++ s2) = String.length s1 + String.length s2.
Proof. induction s1 as [| c s1 IH]; simpl; auto. Qed.

(** X1.  [truncateText] never returns more than [maxLength + 3] code
    units.  A text that fits is returned as it is; a longer one is cut
    to its first [maxLength] code units, followed by three dots; an
    absent or empty text gives the empty string. *)
Theorem truncateText_bounded (text : option string) (maxLength : option nat) :
  let n := match maxLength with Some n => n | None => 50 end in
  String.length (Utils.truncateText text maxLength) <= n + 3 /\
  (forall t, text = Some t -> String.length t <= n ->
             Utils.truncateText text maxLength = t) /\
  (forall t, text = Some t -> n < String.length t ->
             exists p, prefix p t = true /\ String.length p = n /\
                       Utils.truncateText text maxLength = (p ++ "...")%string) /\
  (text = None \/ text = Some EmptyString ->
   Utils.truncateText text maxLength = EmptyString).
Proof.
  intros n. unfold Utils.truncateText. fold n.
  split; [| split; [| split]].
  - destruct text as [[| c t] |]; simpl Js.truthy; cbv iota; try (simpl; lia).
    destruct (Nat.ltb_spec n (String.length (String c t))).
    + rewrite length_append, substring_0_length. simpl String.length in *. lia.
    + lia.
  - intros t -> Hfit. destruct t as [| c t]; [reflexivity |]. simpl Js.truthy. cbv iota.
    destruct (Nat.ltb_spec n (String.length (String c t))); [lia | reflexivity].
  - intros t -> Hlong. destruct t as [| c t]; [simpl in Hlong; lia |].
    simpl Js.truthy. cbv iota.
    destruct (Nat.ltb_spec n (String.length (String c t))); [| lia].
    exists (substring 0 n (String c t)).
    split; [apply substring_0_prefix |].
    split; [rewrite substring_0_length; lia | reflexivity].
  - intros [-> | ->]; reflexivity.
Qed.

(** A run: a description of 11 code units cut to 5. *)
Lemma truncateText_bounded_witness :
  exists p, prefix p "hello world" = true /\ String.length p = 5 /\
            Utils.truncateText (Some "hello world") (Some 5) = (p ++ "...")%string.
Proof.
  apply (proj1 (proj2 (proj2 (truncateText_bounded (Some "hello world") (Some 5))))
           "hello world" eq_refl).
  simpl. lia.
Defined.

Section Prompts.

Context {R : Type}.

(** X2.  [selectMultipleRepositories] on an empty list throws without
    prompting.  Otherwise the user stays in the prompt until a
    non-empty set of entries is ticked, and what comes back is taken
    from the offered list, in its order: all of it for [select-all],
    nothing for [select-none], and else the offered repositories whose
    name was ticked.  Nothing is sent and no confirmation is used up. *)
Theorem selectMultipleRepositories_selects_offered
    (repos : list Repo.t) (message : string) (w : World R) :
  (repos = [] ->
   Utils.selectMultipleRepositories repos message w =
     (Throw "No repositories available for selection.", w)) /\
  (forall selected w',
      Utils.selectMultipleRepositories repos message w = (Ok selected, w') ->
      (exists rejected ticked,
          checkboxes w = rejected ++ ticked :: checkboxes w' /\
          ticked <> [] /\ Forall (fun a => a = []) rejected /\
          selected =
            if Js.includes ticked "select-all" then repos
            else if Js.includes ticked "select-none" then []
            else filter (fun repo => Js.includes ticked (Repo.name repo)) repos) /\
      (exists keep, selected = filter keep repos) /\
      calls w' = calls w /\ remote w' = remote w /\ confirms w' = confirms w).
Proof.
  split.
  - intros ->. reflexivity.
  - intros selected w'. unfold Utils.selectMultipleRepositories.
    destruct (List.length repos =? 0)%nat; [discriminate |].
    destruct (Utils.read_valid _ (checkboxes w)) as [shown [[ticked rest] |]] eqn:Hr;
      [| discriminate].
    apply read_valid_accepts in Hr. destruct Hr as [Hv [rejected [Hin Hrej]]].
    intros H.
    assert (Hsel : selected =
                     (if Js.includes ticked "select-all" then repos
                      else if Js.includes ticked "select-none" then []
                      else filter (fun repo => Js.includes ticked (Repo.name repo)) repos)
                   /\ w' = with_checkboxes rest
                             (with_console
                                ((console w ++ [PromptCheckbox message]) ++ shown)
                                (with_console (console w ++ [PromptCheckbox message]) w))).
    { destruct (Js.includes ticked "select-all");
        [| destruct (Js.includes ticked "select-none")];
        injection H as <- <-; split; reflexivity. }
    destruct Hsel as [Hsel ->]. cbn [checkboxes calls remote confirms with_checkboxes
                                       with_console].
    split; [| split; [| auto]].
    + exists rejected, ticked. split; [exact Hin |]. split; [| split; [| exact Hsel]].
      * intros ->. discriminate.
      * eapply Forall_impl; [| exact Hrej].
        intros a Ha. destruct a; [reflexivity | exfalso; apply Ha; reflexivity].
    + rewrite Hsel.
      destruct (Js.includes ticked "select-all").
      * exists (fun _ => true). clear. induction repos as [| x l IH]; simpl; congruence.
      * destruct (Js.includes ticked "select-none").
        -- exists (fun _ => false). clear. induction repos as [| x l IH]; simpl; auto.
        -- eexists. reflexivity.
Qed.

(** X3.  [selectRepository] on an empty list throws without prompting.
    Otherwise the repository it returns is the entry of the offered
    list at the position the user picked; nothing is sent. *)
Theorem selectRepository_picks_offered
    (repos : list Repo.t) (message : string) (w : World R) :
  (repos = [] ->
   Utils.selectRepository repos message w =
     (Throw "No repositories available for selection.", w)) /\
  (forall selected w',
      Utils.selectRepository repos message w = (Ok selected, w') ->
      (exists i, choices w = i :: choices w' /\ nth_error repos i = Some selected) /\
      In selected repos /\
      calls w' = calls w /\ remote w' = remote w /\ confirms w' = confirms w).
Proof.
  split.
  - intros ->. reflexivity.
  - intros selected w'. unfold Utils.selectRepository.
    destruct (List.length repos =? 0)%nat; [discriminate |].
    destruct (choices w) as [| i rest]; [discriminate |].
    destruct (nth_error repos i) as [picked |] eqn:Hn; [| discriminate].
    intros H. injection H as <- <-. cbn.
    split; [exists i; auto |]. split; [eapply nth_error_In; eassumption | auto].
Qed.

(** X4.  The confirmation screen of a bulk action accounts for every
    selected repository: it names all of them when they are at most
    five, and else exactly the first three and the number of the
    others.  Then it asks once for a yes or a no, which it returns;
    nothing is sent. *)
Theorem confirmBulkAction_accounts_for_all
    (repos : list Repo.t) (action targetState : string) (w : World R) :
  exists shown more question,
    console (snd (Utils.confirmBulkAction repos action targetState w)) =
      console w ++ [DisplayBulkConfirmation action targetState (List.length repos)
                      shown more;
                    PromptConfirm question] /\
    (List.length repos <= 5 -> shown = map Repo.name repos /\ more = None) /\
    (5 < List.length repos ->
     shown = map Repo.name (firstn 3 repos) /\ List.length shown = 3 /\
     more = Some (List.length repos - 3)) /\
    List.length shown + match more with Some k => k | None => 0 end = List.length repos /\
    fst (Utils.confirmBulkAction repos action targetState w) =
      match confirms w with [] => Blocked | answer :: _ => Ok answer end /\
    confirms (snd (Utils.confirmBulkAction repos action targetState w)) = tl (confirms w) /\
    calls (snd (Utils.confirmBulkAction repos action targetState w)) = calls w.
Proof.
  unfold Utils.confirmBulkAction, bind, print.
  cbn [confirms with_console console].
  destruct (Nat.leb_spec (List.length repos) 5) as [Hle | Hgt].
  - exists (map Repo.name repos), None. eexists.
    split; [destruct (confirms w); cbn; rewrite <- app_assoc; reflexivity |].
    rewrite length_map.
    repeat match goal with |- _ /\ _ => split end;
      try (destruct (confirms w) eqn:Hanswers; cbn; rewrite ?Hanswers; reflexivity);
      try lia; try (intros; exfalso; lia); auto.
  - exists (map Repo.name (firstn 3 repos)), (Some (List.length repos - 3)). eexists.
    split; [destruct (confirms w); cbn; rewrite <- app_assoc; reflexivity |].
    rewrite length_map, length_firstn, Nat.min_l by lia.
    repeat match goal with |- _ /\ _ => split end;
      try (destruct (confirms w) eqn:Hanswers; cbn; rewrite ?Hanswers; reflexivity);
      try lia; try (intros; exfalso; lia); auto.
Qed.

End Prompts.

(** A run: the user ticks both repositories of the listing. *)
Lemma selectMultipleRepositories_selects_offered_witness :
  exists keep,
    map listing_entry Model.second_page = filter keep (map listing_entry Model.second_page).
Proof.
  edestruct (proj2 (selectMultipleRepositories_selects_offered
                      (map listing_entry Model.second_page) "Select repositories:"
                      (Model.deleting_world [])))
    as (_ & H & _); [reflexivity | exact H].
Defined.

(** A run: seven repositories are selected for archiving and the user
    says yes; three names are shown, and four more are counted. *)
Lemma confirmBulkAction_accounts_for_all_witness :
  exists question,
    console (snd (Utils.confirmBulkAction (map listing_entry Model.seven_starred)
                    "archive" "Archived" (Model.deleting_world [true]))) =
      [DisplayBulkConfirmation "archive" "Archived" 7 ["a"; "b"; "c"] (Some 4);
       PromptConfirm question].
Proof.
  destruct (confirmBulkAction_accounts_for_all (map listing_entry Model.seven_starred)
              "archive" "Archived" (Model.deleting_world [true]))
    as (shown & more & question & Hconsole & _ & Hmany & _).
  destruct Hmany as (Hshown & _ & Hmore); [vm_compute; lia |].
  exists question. rewrite Hconsole, Hshown, Hmore. reflexivity.
Defined.

(** A run: the user picks the second entry of the listing. *)
Lemma selectRepository_picks_offered_witness :
  In (listing_entry (Model.repo 102 "notes" true None)) (map listing_entry Model.second_page).
Proof.
  edestruct (proj2 (selectRepository_picks_offered
                      (map listing_entry Model.second_page) "Select a repository:"
                      (with_choices [1] Model.second_page_world)))
    as (_ & H & _); [reflexivity | exact H].
Defined.

(* ================================================================== *)
(** * Further properties: the most popular repositories                 *)
(* ================================================================== *)

Lemma insert_by_stars_permutation (x : Repo.t) (l : list Repo.t) :
  Permutation (insert_by_stars x l) (x :: l).
Proof.
  induction l as [| y l IH]; simpl; [reflexivity |].
  destruct (Repo.stargazers_count x <? Repo.stargazers_count y)%nat; [| reflexivity].
  rewrite IH. apply perm_swap.
Qed.

Lemma sort_by_stars_permutation (l : list Repo.t) : Permutation (sort_by_stars l) l.
Proof.
  induction l as [| x l IH]; simpl; [reflexivity |].
  rewrite insert_by_stars_permutation. constructor. exact IH.
Qed.

Lemma insert_by_stars_descending (x : Repo.t) (l : list Repo.t) :
  descending l -> descending (insert_by_stars x l).
Proof.
  induction l as [| y l IH]; simpl; [auto |].
  intros [Hy Hl].
  destruct (Nat.ltb_spec (Repo.stargazers_count x) (Repo.stargazers_count y)); simpl.
  - split; [| auto].
    eapply Permutation_Forall; [symmetry; apply insert_by_stars_permutation |].
    constructor; [lia | exact Hy].
  - split; [| split; assumption].
    constructor; [lia |].
    eapply Forall_impl; [| exact Hy]. intros z Hz. cbv beta in *. lia.
Qed.

Lemma sort_by_stars_descending (l : list Repo.t) : descending (sort_by_stars l).
Proof.
  induction l as [| x l IH]; simpl; [exact I |].
  apply insert_by_stars_descending, IH.
Qed.

Lemma descending_split (l1 l2 : list Repo.t) :
  descending (l1 ++ l2) ->
  forall p o, In p l1 -> In o l2 ->
              Repo.stargazers_count o <= Repo.stargazers_count p.
Proof.
  induction l1 as [| x l1 IH]; simpl; [intros _ p o [] |].
  intros [Hx Hl] p o [<- | Hp] Ho.
  - rewrite Forall_forall in Hx. apply Hx. apply in_or_app. auto.
  - eapply IH; eassumption.
Qed.

(** The first five of the sorted listing are the most starred. *)
Lemma sort_by_stars_takes_the_most_starred (repos : list Repo.t) :
  let popular := firstn 5 (sort_by_stars repos) in
  let others := skipn 5 (sort_by_stars repos) in
  List.length popular = Nat.min 5 (List.length repos) /\
  descending popular /\
  Permutation (popular ++ others) repos /\
  (forall p o, In p popular -> In o others ->
               Repo.stargazers_count o <= Repo.stargazers_count p).
Proof.
  intros popular others. subst popular others.
  pose proof (sort_by_stars_permutation repos) as Hp.
  pose proof (sort_by_stars_descending repos) as Hd.
  rewrite <- (firstn_skipn 5 (sort_by_stars repos)) in Hd.
  split; [rewrite length_firstn, (Permutation_length Hp); reflexivity |].
  split.
  { clear Hp. revert Hd. generalize (skipn 5 (sort_by_stars repos)).
    induction (firstn 5 (sort_by_stars repos)) as [| x l IH]; simpl; [auto |].
    intros l2 [Hx Hl]. split; [| eapply IH; eassumption].
    apply Forall_app in Hx. tauto. }
  split; [rewrite firstn_skipn; exact Hp |].
  apply descending_split. exact Hd.
Qed.

(** X5.  When the username resolves and the listing is [repos],
    [showUserInfo] prints, after the summary, the most popular
    repositories, unless the listing is empty: at most five entries of
    the listing, by descending star count, such that no entry left out
    has more stars than one that is printed, and that together with the
    entries left out they make up the listing. *)
Theorem popular_are_the_most_starred
    {R : Type} {octokit : Octokit R} (w w1 w2 : World R)
    (user : string) (repos : list Repo.t) :
  GitHubClient.getUsername
    (with_console (console w ++ [SpinnerStart "Fetching user information..."]) w)
    = (Ok user, w1) ->
  GitHubClient.listRepositories no_options w1 = (Ok repos, w2) ->
  exists popular others,
    fst (GitHubCommands.showUserInfo w) = Ok tt /\
    console (snd (GitHubCommands.showUserInfo w)) =
      console w2
      ++ [SpinnerSucceed "User information fetched successfully";
          DisplayUserInfo (userStatistics user repos)]
      ++ match repos with [] => [] | _ => [DisplayPopular popular] end /\
    List.length popular = Nat.min 5 (List.length repos) /\
    descending popular /\
    Permutation (popular ++ others) repos /\
    (forall p o, In p popular -> In o others ->
                 Repo.stargazers_count o <= Repo.stargazers_count p).
Proof.
  intros Hu Hl.
  exists (firstn 5 (sort_by_stars repos)), (skipn 5 (sort_by_stars repos)).
  pose proof (sort_by_stars_takes_the_most_starred repos) as Hmost. cbv zeta in Hmost.
  split; [| split; [| exact Hmost]];
    unfold GitHubCommands.showUserInfo, bind, try_catch, print;
    rewrite Hu, Hl; cbv beta iota.
  - destruct (0 <? List.length (firstn 5 (sort_by_stars repos)))%nat; reflexivity.
  - destruct Hmost as [Hlen _].
    destruct repos as [| repo repos].
    + cbn. rewrite <- app_assoc. reflexivity.
    + destruct (firstn 5 (sort_by_stars (repo :: repos))) as [| p popular] eqn:Hp;
        [cbn in Hlen; discriminate |].
      cbn. rewrite <- !app_assoc. reflexivity.
Qed.

(** A run on seven repositories with 3, 10, 0, 7, 1, 5 and 2 stars:
    the five printed have 10, 7, 5, 3 and 2. *)
Lemma popular_are_the_most_starred_witness :
  exists popular,
    In (DisplayPopular popular)
      (console (snd (GitHubCommands.showUserInfo Model.starred_world))) /\
    map Repo.name popular = ["b"; "d"; "f"; "a"; "g"] /\
    map Repo.stargazers_count popular = [10; 7; 5; 3; 2] /\
    descending popular.
Proof.
  destruct (popular_are_the_most_starred Model.starred_world
              (w1 := with_console [SpinnerStart "Fetching user information..."]
                       Model.starred_world)
              (w2 := with_calls [listing_request]
                       (with_console [SpinnerStart "Fetching user information..."]
                          Model.starred_world))
              (user := "alice") (repos := map listing_entry Model.seven_starred))
    as (popular & others & _ & Hconsole & _ & Hd & _);
    [reflexivity | reflexivity |].
  exists popular. rewrite Hconsole.
  split; [apply in_or_app; right; right; right; left; reflexivity |].
  vm_compute in Hconsole.
  injection Hconsole as <-.
  split; [reflexivity |]. split; [reflexivity | exact Hd].
Defined.

(* ================================================================== *)
(** * Further properties: the client                                    *)
(* ================================================================== *)

Section ClientErrors.

Context {R : Type} {octokit : Octokit R}.

(** X6.  Each derived listing sends the listing request and nothing
    else.  When the provider rejects that request, the derived listing
    throws the provider's message behind two prefixes: the one of
    [listRepositories] and its own, which for the public and the
    private listing is the prefix of the active one. *)
Theorem derived_listings_wrap_errors (w : World R) :
  (calls (snd (GitHubClient.listArchivedRepositories w)) = calls w ++ [listing_request] /\
   calls (snd (GitHubClient.listActiveRepositories w)) = calls w ++ [listing_request] /\
   calls (snd (GitHubClient.listPublicRepositories w)) = calls w ++ [listing_request] /\
   calls (snd (GitHubClient.listPrivateRepositories w)) = calls w ++ [listing_request]) /\
  (forall message r',
      repos_listForAuthenticatedUser (list_params no_options) (remote w)
        = (inl message, r') ->
      fst (GitHubClient.listArchivedRepositories w) =
        Throw ("Failed to list archived repositories: Failed to list repositories: "
               ++ message) /\
      fst (GitHubClient.listActiveRepositories w) =
        Throw ("Failed to list active repositories: Failed to list repositories: "
               ++ message) /\
      fst (GitHubClient.listPublicRepositories w) =
        Throw ("Failed to list active repositories: Failed to list repositories: "
               ++ message) /\
      fst (GitHubClient.listPrivateRepositories w) =
        Throw ("Failed to list active repositories: Failed to list repositories: "
               ++ message)).
Proof.
  unfold GitHubClient.listArchivedRepositories, GitHubClient.listActiveRepositories,
    GitHubClient.listPublicRepositories, GitHubClient.listPrivateRepositories.
  rewrite !filtered_listing_eq, listRepositories_eq.
  split.
  - destruct (fst (repos_listForAuthenticatedUser (list_params no_options) (remote w)));
      repeat split; reflexivity.
  - intros message r' H. rewrite H. repeat split.
Qed.

(** X7.  [searchRepositories] resolves the username first.  When that
    fails, the search request is not sent and the error is the one of
    [getUsername] behind the prefix of the search.  When it succeeds,
    one search request follows, for the query with the user qualifier
    of the resolved name, 100 results a page, sorted by update. *)
Theorem searchRepositories_is_scoped_to_the_user (query : string) (w : World R) :
  (forall message w1,
      GitHubClient.getUsername w = (Throw message, w1) ->
      GitHubClient.searchRepositories query no_search_options w =
        (Throw ("Failed to search repositories: " ++ message), w1)) /\
  (forall user w1,
      GitHubClient.getUsername w = (Ok user, w1) ->
      calls (snd (GitHubClient.searchRepositories query no_search_options w)) =
        calls w1 ++ [SearchRepos {| q := query ++ " user:" ++ user;
                                    search_per_page := 100;
                                    search_sort := "updated" |}]).
Proof.
  unfold GitHubClient.searchRepositories, bind, try_catch, throw.
  split; intros x w1 H; rewrite H; [reflexivity |].
  rewrite send_eq.
  destruct (fst (search_repos _ (remote w1))); reflexivity.
Qed.

End ClientErrors.

(** A run: the provider rejects the listing request. *)
Lemma derived_listings_wrap_errors_witness :
  fst (GitHubClient.listPublicRepositories Model.rate_limited_world) =
    Throw "Failed to list active repositories: Failed to list repositories: API rate limit exceeded".
Proof.
  apply (proj2 (derived_listings_wrap_errors Model.rate_limited_world)
           "API rate limit exceeded" (remote Model.rate_limited_world)).
  reflexivity.
Defined.

(** A run: the token is rejected, so the search is not sent. *)
Lemma searchRepositories_is_scoped_to_the_user_witness :
  GitHubClient.searchRepositories "notes" no_search_options Model.bad_credentials_world =
    (Throw "Failed to search repositories: Failed to get username: Bad credentials",
     with_calls [UsersGetAuthenticated] Model.bad_credentials_world).
Proof.
  apply (proj1 (searchRepositories_is_scoped_to_the_user "notes"
                  Model.bad_credentials_world)).
  reflexivity.
Defined.

(* ================================================================== *)
(** * The loops of the client, as the commands see them                 *)
(* ================================================================== *)

Section Frames.

Context {R : Type} {octokit : Octokit R}.

Lemma print_lines_eq (lines : list string) (w : World R) :
  GitHubCommands.print_lines lines w =
    (Ok tt, with_console (console w ++ map ConsoleLog lines) w).
Proof.
  revert w. induction lines as [| line lines IH]; intros w; simpl.
  - unfold ret. rewrite app_nil_r. destruct w; reflexivity.
  - unfold bind, print. rewrite IH. cbn [console with_console].
    rewrite <- app_assoc. reflexivity.
Qed.

(** A loop whose body leaves the user's side of the world alone leaves
    it alone. *)
Lemma for_of_keeps {X S T} (view : World R -> T) (body : S -> X -> M R S) :
  (forall acc x w, view (snd (body acc x w)) = view w) ->
  forall xs acc w, view (snd (for_of xs body acc w)) = view w.
Proof.
  intros Hbody xs. induction xs as [| x xs IH]; intros acc w; simpl; [reflexivity |].
  unfold bind. specialize (Hbody acc x w).
  destruct (body acc x w) as [[acc' | message |] w1]; cbn [snd] in *;
    [rewrite IH |  |]; exact Hbody.
Qed.

Lemma for_of_settles {X S} (body : S -> X -> M R S) :
  (forall acc x w, exists acc', fst (body acc x w) = Ok acc') ->
  forall xs acc w, exists acc', fst (for_of xs body acc w) = Ok acc'.
Proof.
  intros Hbody xs. induction xs as [| x xs IH]; intros acc w; simpl;
    [exists acc; reflexivity |].
  unfold bind. destruct (Hbody acc x w) as [acc' H].
  destruct (body acc x w) as [o w1]; cbn [fst] in H; subst o. apply IH.
Qed.

End Frames.

Lemma bulk_effects_of_loop {R : Type} {octokit : Octokit R} {A B : Type}
    (op : Repo.t -> M R A) (mk : Repo.t -> A -> B) (req : Repo.t -> Request)
    (run : list Repo.t -> M R (Bulk B)) :
  (forall repo w, calls (snd (op repo w)) = calls w ++ [req repo]) ->
  (forall repo w, is_settled (fst (op repo w)) = true) ->
  (forall repo w, ui (snd (op repo w)) = ui w) ->
  (forall repo w, username (snd (op repo w)) = username w) ->
  (forall repos w,
      run repos w =
        for_of repos
          (fun acc repo =>
             try (r <- op repo ;; ret (push_result acc (mk repo r)))
             catch (fun error =>
                      ret (push_error acc
                             {| failed_name := Repo.name repo; error := error |})))
          no_outcomes w) ->
  bulk_effects run req.
Proof.
  intros Hsend Hsettle Hui Huser Hrun repos w. rewrite Hrun.
  assert (Hbody : forall T (view : World R -> T),
             (forall repo w, view (snd (op repo w)) = view w) ->
             forall acc repo w,
               view (snd ((try (r <- op repo ;; ret (push_result acc (mk repo r)))
                           catch (fun error =>
                                    ret (push_error acc
                                           {| failed_name := Repo.name repo;
                                              error := error |}))) w)) = view w).
  { intros T view Hv acc repo w0. unfold try_catch, bind, ret.
    specialize (Hv repo w0). destruct (op repo w0) as [[a | message |] w1]; exact Hv. }
  split; [| split; [| split]].
  - rewrite bulk_loop_eq by assumption. eexists. reflexivity.
  - rewrite bulk_loop_eq by assumption. cbn [snd]. apply attempts_calls. assumption.
  - apply for_of_keeps. apply Hbody. assumption.
  - apply for_of_keeps. apply Hbody. assumption.
Qed.

Ltac single_frame :=
  intros repo w;
  unfold GitHubClient.deleteRepository, GitHubClient.archiveRepository,
    GitHubClient.unarchiveRepository, GitHubClient.updateRepositoryVisibility,
    try_catch, bind, send, ret, throw;
  match goal with
  | |- context [let (_, _) := ?e in _] => destruct e as [[message | data] r']
  end; reflexivity.

Lemma client_bulk_effects {R : Type} {octokit : Octokit R} (owner : string)
    (isPrivate : bool) :
  bulk_effects (GitHubClient.bulkDeleteRepositories owner)
    (fun repo => ReposDelete owner (Repo.name repo)) /\
  bulk_effects (GitHubClient.bulkArchiveRepositories owner)
    (fun repo => ReposUpdate owner (Repo.name repo) (SetArchived true)) /\
  bulk_effects (GitHubClient.bulkUnarchiveRepositories owner)
    (fun repo => ReposUpdate owner (Repo.name repo) (SetArchived false)) /\
  bulk_effects (fun repos => GitHubClient.bulkUpdateVisibility owner repos isPrivate)
    (fun repo => ReposUpdate owner (Repo.name repo) (SetPrivate isPrivate)).
Proof.
  split; [| split; [| split]].
  - apply (bulk_effects_of_loop
             (fun repo => GitHubClient.deleteRepository owner (Repo.name repo))
             (fun repo _ => {| deleted_name := Repo.name repo; deleted_success := true |}));
      try single_frame; reflexivity.
  - apply (bulk_effects_of_loop
             (fun repo => GitHubClient.archiveRepository owner (Repo.name repo))
             (fun _ r => {| result := r; success := true |}));
      try single_frame; reflexivity.
  - apply (bulk_effects_of_loop
             (fun repo => GitHubClient.unarchiveRepository owner (Repo.name repo))
             (fun _ r => {| result := r; success := true |}));
      try single_frame; reflexivity.
  - apply (bulk_effects_of_loop
             (fun repo => GitHubClient.updateRepositoryVisibility owner (Repo.name repo)
                            isPrivate)
             (fun _ r => {| result := r; success := true |}));
      try single_frame; reflexivity.
Qed.

(* ================================================================== *)
(** * A program logic for the commands                                  *)
(* ================================================================== *)

Section Logic.

Context {R : Type} {octokit : Octokit R}.

Lemma wp_ret {A} (a : A) (Q : Outcome A -> World R -> Prop) (w : World R) :
  Q (Ok a) w -> wp (ret a) Q w.
Proof. exact (fun H => H). Qed.

Lemma wp_throw {A} (message : string) (Q : Outcome A -> World R -> Prop) (w : World R) :
  Q (Throw message) w -> wp (throw message) Q w.
Proof. exact (fun H => H). Qed.

Lemma wp_print (o : Out) (Q : Outcome unit -> World R -> Prop) (w : World R) :
  Q (Ok tt) (with_console (console w ++ [o]) w) -> wp (print o) Q w.
Proof. exact (fun H => H). Qed.

Lemma wp_bind {A B} (m : M R A) (k : A -> M R B) (Q : Outcome B -> World R -> Prop)
    (w : World R) :
  wp m (fun o w1 => match o with
                    | Ok a => wp (k a) Q w1
                    | Throw message => Q (Throw message) w1
                    | Blocked => Q Blocked w1
                    end) w ->
  wp (bind m k) Q w.
Proof.
  unfold wp, bind. destruct (m w) as [[a | message |] w1]; exact (fun H => H).
Qed.

Lemma wp_try {A} (body : M R A) (handler : string -> M R A)
    (Q : Outcome A -> World R -> Prop) (w : World R) :
  wp body (fun o w1 => match o with
                       | Ok a => Q (Ok a) w1
                       | Throw message => wp (handler message) Q w1
                       | Blocked => Q Blocked w1
                       end) w ->
  wp (try_catch body handler) Q w.
Proof.
  unfold wp, try_catch. destruct (body w) as [[a | message |] w1]; exact (fun H => H).
Qed.

Lemma wp_send {A} (req : Request) (endpoint : R -> Response A * R)
    (Q : Outcome A -> World R -> Prop) (w : World R) :
  (forall message r',
      endpoint (remote w) = (inl message, r') -> Q (Throw message) (sent req r' w)) ->
  (forall data r',
      endpoint (remote w) = (inr data, r') -> Q (Ok data) (sent req r' w)) ->
  wp (send req endpoint) Q w.
Proof.
  intros Hthrow Hok. unfold wp, send.
  destruct (endpoint (remote w)) as [[message | data] r'];
    [apply Hthrow | apply Hok]; reflexivity.
Qed.

(** A call whose effect is known from a lemma about the callee. *)
Lemma wp_call {A} (m : M R A) (Q : Outcome A -> World R -> Prop) (w : World R) :
  (forall o w1, m w = (o, w1) -> Q o w1) -> wp m Q w.
Proof. intros H. apply H. destruct (m w); reflexivity. Qed.

Lemma wp_print_lines (lines : list string) (Q : Outcome unit -> World R -> Prop)
    (w : World R) :
  Q (Ok tt) (with_console (console w ++ map ConsoleLog lines) w) ->
  wp (GitHubCommands.print_lines lines) Q w.
Proof. unfold wp. rewrite print_lines_eq. exact (fun H => H). Qed.

(** ** The prompts *)

Lemma wp_confirmAction (message : string) (Q : Outcome bool -> World R -> Prop)
    (w : World R) :
  (confirms w = [] ->
   Q Blocked (with_console (console w ++ [PromptConfirm message]) w)) ->
  (forall answer rest,
      confirms w = answer :: rest ->
      Q (Ok answer)
        (with_confirms rest (with_console (console w ++ [PromptConfirm message]) w))) ->
  wp (Utils.confirmAction message) Q w.
Proof.
  intros Hnone Hsome. unfold wp, Utils.confirmAction.
  destruct (confirms w) as [| answer rest]; [apply Hnone | apply Hsome]; reflexivity.
Qed.

Lemma wp_confirmBulkAction (repos : list Repo.t) (action targetState : string)
    (Q : Outcome bool -> World R -> Prop) (w : World R) :
  (forall shown,
      confirms w = [] -> Q Blocked (with_console (console w ++ shown) w)) ->
  (forall shown answer rest,
      confirms w = answer :: rest ->
      Q (Ok answer) (with_confirms rest (with_console (console w ++ shown) w))) ->
  wp (Utils.confirmBulkAction repos action targetState) Q w.
Proof.
  intros Hnone Hsome. unfold wp, Utils.confirmBulkAction, bind, print.
  cbn [confirms console with_console].
  destruct (confirms w) as [| answer rest] eqn:Hc; cbn [fst snd].
  - specialize (Hnone [DisplayBulkConfirmation action targetState (List.length repos)
                         (if (List.length repos <=? 5)%nat
                          then map Repo.name repos
                          else map Repo.name (firstn 3 repos))
                         (if (List.length repos <=? 5)%nat
                          then None
                          else Some (List.length repos - 3));
                       PromptConfirm ("Are you sure you want to " ++ action ++ " "
                                      ++ Js.toString (List.length repos) ++ " "
                                      ++ Utils.repository_ies (List.length repos) ++ "?")]
                      eq_refl).
    rewrite <- app_assoc. exact Hnone.
  - specialize (Hsome [DisplayBulkConfirmation action targetState (List.length repos)
                         (if (List.length repos <=? 5)%nat
                          then map Repo.name repos
                          else map Repo.name (firstn 3 repos))
                         (if (List.length repos <=? 5)%nat
                          then None
                          else Some (List.length repos - 3));
                       PromptConfirm ("Are you sure you want to " ++ action ++ " "
                                      ++ Js.toString (List.length repos) ++ " "
                                      ++ Utils.repository_ies (List.length repos) ++ "?")]
                      answer rest eq_refl).
    rewrite <- app_assoc. exact Hsome.
Qed.

Lemma wp_selectRepository (repos : list Repo.t) (message : string)
    (Q : Outcome Repo.t -> World R -> Prop) (w : World R) :
  (repos = [] -> Q (Throw "No repositories available for selection.") w) ->
  (choices w = [] ->
   Q Blocked (with_console (console w ++ [PromptList message]) w)) ->
  (forall i rest,
      choices w = i :: rest -> nth_error repos i = None ->
      Q Blocked (with_choices rest (with_console (console w ++ [PromptList message]) w))) ->
  (forall i rest selectedRepo,
      choices w = i :: rest -> nth_error repos i = Some selectedRepo ->
      Q (Ok selectedRepo)
        (with_choices rest (with_console (console w ++ [PromptList message]) w))) ->
  wp (Utils.selectRepository repos message) Q w.
Proof.
  intros Hempty Hnone Hout Hpick. unfold wp, Utils.selectRepository.
  destruct repos as [| repo repos]; [apply Hempty; reflexivity |].
  cbn [List.length Nat.eqb].
  destruct (choices w) as [| i rest]; [apply Hnone; reflexivity |].
  destruct (nth_error (repo :: repos) i) as [selectedRepo |] eqn:Hi;
    [eapply Hpick | eapply Hout]; eauto.
Qed.

Lemma wp_promptTargetVisibility (Q : Outcome bool -> World R -> Prop) (w : World R) :
  (forall shown, choices w = [] -> Q Blocked (with_console (console w ++ shown) w)) ->
  (forall shown i rest,
      choices w = i :: rest ->
      Q Blocked (with_choices rest (with_console (console w ++ shown) w))) ->
  (forall shown i rest targetVisibility,
      choices w = i :: rest -> nth_error [false; true] i = Some targetVisibility ->
      Q (Ok targetVisibility)
        (with_choices rest (with_console (console w ++ shown) w))) ->
  wp GitHubCommands.promptTargetVisibility Q w.
Proof.
  intros Hnone Hout Hpick. unfold wp, GitHubCommands.promptTargetVisibility.
  destruct (choices w) as [| i rest]; [apply Hnone; reflexivity |].
  destruct (nth_error [false; true] i) as [targetVisibility |] eqn:Hi;
    [eapply Hpick | eapply Hout]; eauto.
Qed.

Lemma selectMultipleRepositories_prompted (repos : list Repo.t) (message : string)
    (w w1 : World R) (o : Outcome (list Repo.t)) :
  Utils.selectMultipleRepositories repos message w = (o, w1) ->
  prompted w w1 /\
  match o with
  | Ok selected => incl selected repos
  | Throw _ => repos = []
  | Blocked => True
  end.
Proof.
  unfold Utils.selectMultipleRepositories, throw, prompted.
  destruct (List.length repos =? 0)%nat eqn:Hn.
  { intros H. injection H as <- <-. apply Nat.eqb_eq, length_zero_iff_nil in Hn. auto 12. }
  destruct (Utils.read_valid _ (checkboxes w)) as [shown [[selected rest] |]] eqn:Hr.
  - apply read_valid_accepts in Hr. destruct Hr as [_ [rejected [Hc _]]].
    assert (Hlen : List.length rest <= List.length (checkboxes w)).
    { rewrite Hc, length_app. simpl. lia. }
    destruct (Js.includes selected "select-all");
      [| destruct (Js.includes selected "select-none")];
      intros H; injection H as <- <-; (split; [cbn; auto 12 |]).
    + apply incl_refl.
    + intros x [].
    + apply incl_filter.
  - intros H. injection H as <- <-. cbn. split; [| exact I].
    repeat split; lia.
Qed.

Lemma getSearchQuery_prompted (w w1 : World R) (o : Outcome string) :
  Utils.getSearchQuery w = (o, w1) ->
  prompted w w1 /\ match o with Throw _ => False | _ => True end.
Proof.
  unfold Utils.getSearchQuery, prompted.
  destruct (Utils.read_valid _ (inputs w)) as [shown [[raw rest] |]] eqn:Hr;
    intros H; injection H as <- <-; cbn; (split; [| exact I]).
  - apply read_valid_accepts in Hr. destruct Hr as [_ [rejected [Hc _]]].
    rewrite Hc, length_app. simpl. repeat split; lia.
  - repeat split; lia.
Qed.

(** The input prompt of [handleDeleteByName]: what it returns is an
    input of the user that is not blank. *)
Lemma name_prompted (w w1 : World R) (o : Outcome string) :
  (let w1 := with_console
               (console w ++ [PromptInput "Enter the repository name to delete:"]) w in
   match Utils.read_valid
           (fun input : string =>
              if (String.length (Js.trim input) =? 0)%nat
              then Some "Repository name cannot be empty"
              else None)
           (inputs w) with
   | (shown, None) =>
       (Blocked, with_inputs [] (with_console (console w1 ++ shown) w1))
   | (shown, Some (repoName, rest)) =>
       (Ok repoName, with_inputs rest (with_console (console w1 ++ shown) w1))
   end) = (o, w1) ->
  prompted w w1 /\
  match o with
  | Ok repoName => In repoName (inputs w) /\ Js.trim repoName <> EmptyString
  | Throw _ => False
  | Blocked => True
  end.
Proof.
  unfold prompted. cbv zeta.
  destruct (Utils.read_valid _ (inputs w)) as [shown [[raw rest] |]] eqn:Hr;
    intros H; injection H as <- <-; cbn; (split; [| try exact I]).
  - apply read_valid_accepts in Hr. destruct Hr as [_ [rejected [Hc _]]].
    rewrite Hc, length_app. simpl. repeat split; lia.
  - apply read_valid_accepts in Hr. destruct Hr as [Hv [rejected [Hc _]]].
    split; [rewrite Hc; apply in_or_app; right; left; reflexivity |].
    intros He. rewrite He in Hv. discriminate.
  - repeat split; lia.
Qed.

(** ** The client *)

Lemma sends_one {A} (req : Request) (endpoint : R -> Response A * R)
    (w w1 : World R) (o : Outcome A) :
  send req endpoint w = (o, w1) -> sends [req] w w1.
Proof.
  unfold send, sends. destruct (endpoint (remote w)) as [[message | data] r'];
    intros H; injection H as _ <-; auto 10.
Qed.

Lemma sends_wrapped {A B} (req : Request) (endpoint : R -> Response A * R)
    (f : A -> B) (prefix : string) (w w1 : World R) (o : Outcome B) :
  (try (data <- send req endpoint ;; ret (f data))
   catch (fun error => throw (prefix ++ error))) w = (o, w1) ->
  sends [req] w w1.
Proof.
  unfold try_catch, bind, ret, throw, send, sends.
  destruct (endpoint (remote w)) as [[message | data] r'];
    intros H; injection H as _ <-; auto 10.
Qed.

Lemma sends_asks (new : list Request) (w w1 : World R) :
  sends new w w1 -> asks new w w1.
Proof. intros (Hc & _ & H). split; assumption. Qed.

Lemma asks_trans (new new' : list Request) (w w1 w2 : World R) :
  asks new w w1 -> asks new' w1 w2 -> asks (new ++ new') w w2.
Proof.
  intros (Hc & Ha & Hb & Hi & Hd) (Hc' & Ha' & Hb' & Hi' & Hd').
  repeat split; try congruence. rewrite Hc', Hc, app_assoc. reflexivity.
Qed.

Lemma identity_queries_app (l l' : list Request) :
  identity_queries (l ++ l') = identity_queries l + identity_queries l'.
Proof. unfold identity_queries. rewrite filter_app, length_app. reflexivity. Qed.

Lemma identity_queries_map {X} (req : X -> Request) (l : list X) :
  (forall x, is_identity_query (req x) = false) ->
  identity_queries (map req l) = 0.
Proof.
  intros Hreq. unfold identity_queries.
  induction l as [| x l IH]; simpl; [reflexivity |]. rewrite Hreq. exact IH.
Qed.

Lemma listing_remote (w w' : World R) : remote w' = remote w -> listing w' = listing w.
Proof. intros H. unfold listing. rewrite !listRepositories_eq. cbn [fst]. rewrite H. reflexivity. Qed.

(** The provider after the listing request depends on the provider
    before it only. *)
Lemma listed_remote (w w' : World R) :
  remote w' = remote w ->
  remote (snd (GitHubClient.listRepositories no_options w')) =
    remote (snd (GitHubClient.listRepositories no_options w)).
Proof. intros H. rewrite !listRepositories_eq. cbn [snd]. rewrite H. reflexivity. Qed.

Lemma listRepositories_sends (w w1 : World R) (o : Outcome (list Repo.t)) :
  GitHubClient.listRepositories no_options w = (o, w1) ->
  sends [listing_request] w w1 /\
  match o with Ok repos => repos = listing w | _ => True end /\
  remote w1 = remote (snd (GitHubClient.listRepositories no_options w)).
Proof.
  intros H. split; [eapply sends_wrapped; exact H |].
  unfold listing. rewrite H. destruct o; auto.
Qed.

(** A derived listing sends the listing request, and what it returns is
    a filter of the listing. *)
Lemma derived_listing_sends (keep : Repo.t -> bool) (prefix : string)
    (w w1 : World R) (o : Outcome (list Repo.t)) :
  (try (repos <- GitHubClient.listRepositories no_options ;; ret (filter keep repos))
   catch (fun error => throw (prefix ++ error))) w = (o, w1) ->
  sends [listing_request] w w1 /\
  match o with Ok repos => repos = filter keep (listing w) | _ => True end /\
  remote w1 = remote (snd (GitHubClient.listRepositories no_options w)).
Proof.
  rewrite filtered_listing_eq.
  destruct (GitHubClient.listRepositories no_options w) as [[listed | message |] w'] eqn:Hl;
    intros H; injection H as <- <-;
    apply listRepositories_sends in Hl; destruct Hl as (Hs & Hv & _); auto.
  rewrite Hv. auto.
Qed.

Lemma fetched_remote (w w' : World R) (owner repo : string) :
  remote w' = remote w -> fetched w' owner repo = fetched w owner repo.
Proof.
  intros H. unfold fetched, GitHubClient.getRepository, try_catch, bind, send, ret, throw.
  rewrite H. destruct (repos_get owner repo (remote w)) as [[message | data] r'];
    reflexivity.
Qed.

Lemma getRepository_sends (owner repo : string) (w w1 : World R)
    (o : Outcome Repo.t) :
  GitHubClient.getRepository owner repo w = (o, w1) ->
  sends [ReposGet owner repo] w w1 /\
  match o with Ok data => fetched w owner repo = Some data | _ => True end.
Proof.
  intros H. split; [eapply sends_wrapped; exact H |].
  unfold fetched. rewrite H. destruct o; auto.
Qed.

Lemma deleteRepository_sends (owner repo : string) (w w1 : World R)
    (o : Outcome bool) :
  GitHubClient.deleteRepository owner repo w = (o, w1) ->
  sends [ReposDelete owner repo] w w1.
Proof. apply (sends_wrapped _ _ (fun _ => true)). Qed.

Lemma updateRepositoryVisibility_sends (owner repo : string) (isPrivate : bool)
    (w w1 : World R) (o : Outcome VisibilityResult) :
  GitHubClient.updateRepositoryVisibility owner repo isPrivate w = (o, w1) ->
  sends [ReposUpdate owner repo (SetPrivate isPrivate)] w w1.
Proof. apply sends_wrapped. Qed.

Lemma archiveRepository_sends (owner repo : string) (w w1 : World R)
    (o : Outcome ArchiveResult) :
  GitHubClient.archiveRepository owner repo w = (o, w1) ->
  sends [ReposUpdate owner repo (SetArchived true)] w w1.
Proof. apply sends_wrapped. Qed.

Lemma unarchiveRepository_sends (owner repo : string) (w w1 : World R)
    (o : Outcome ArchiveResult) :
  GitHubClient.unarchiveRepository owner repo w = (o, w1) ->
  sends [ReposUpdate owner repo (SetArchived false)] w w1.
Proof. apply sends_wrapped. Qed.

(** [getUsername] sends the identity query, or nothing when a username
    is cached. *)
Lemma getUsername_sends (w w1 : World R) (o : Outcome string) :
  GitHubClient.getUsername w = (o, w1) ->
  exists new,
    asks new w w1 /\ Forall (fun r => r = UsersGetAuthenticated) new /\
    (new = [] \/ new = [UsersGetAuthenticated]) /\
    (has_username (username w) -> new = [] /\ username w1 = username w).
Proof.
  unfold GitHubClient.getUsername, try_catch, bind, send, throw, ret, asks, has_username.
  destruct (username w) as [[| c u] |] eqn:Hcache; cbn [Js.truthy].
  2: { intros H; injection H as _ <-. exists []. rewrite app_nil_r.
       repeat match goal with |- _ /\ _ => split end; auto. }
  all: destruct (users_getAuthenticated (remote w)) as [[message | data] r'];
    intros H; injection H as _ <-; exists [UsersGetAuthenticated];
    (repeat match goal with |- _ /\ _ => split end); auto;
    intros (u' & Hu & Hne); congruence.
Qed.

Lemma resolved_same (w w' : World R) :
  remote w' = remote w -> username w' = username w -> resolved w' = resolved w.
Proof.
  intros Hr Hu. unfold resolved, GitHubClient.getUsername, try_catch, bind, send, throw, ret.
  rewrite Hr, Hu.
  destruct (username w) as [u |]; [destruct (Js.truthy u); [reflexivity |] |];
    destruct (users_getAuthenticated (remote w)) as [[message | data] r']; reflexivity.
Qed.

Lemma getUsername_resolved (w w1 : World R) (o : Outcome string) :
  GitHubClient.getUsername w = (o, w1) ->
  resolved w = match o with Ok user => Some user | _ => None end.
Proof. intros H. unfold resolved. rewrite H. reflexivity. Qed.

Lemma listRepositories_username (w : World R) :
  username (snd (GitHubClient.listRepositories no_options w)) = username w.
Proof.
  destruct (GitHubClient.listRepositories no_options w) as [o w1] eqn:H.
  apply listRepositories_sends in H. destruct H as ((_ & Hu & _) & _). exact Hu.
Qed.

Lemma getRepositoryStats_sends (owner repo : string) (w w1 : World R)
    (o : Outcome Stats) :
  GitHubClient.getRepositoryStats owner repo w = (o, w1) ->
  sends [ReposListContributors owner repo; ReposListLanguages owner repo;
         ReposListCommits owner repo 1] w w1.
Proof.
  unfold GitHubClient.getRepositoryStats, bind, try_catch, send, ret, throw, sends.
  destruct (repos_listContributors owner repo (remote w)) as [[mc | [dc |]] r1];
    cbn [remote with_remote with_calls];
    destruct (repos_listLanguages owner repo r1) as [[ml | dl] r2];
    cbn [remote with_remote with_calls];
    destruct (repos_listCommits owner repo 1 r2) as [[mk | [dk |]] r3];
    intros H; injection H as _ <-; cbn; rewrite <- !app_assoc; auto 10.
Qed.

Lemma searchRepositories_sends (query : string) (options : SearchOptions)
    (w w1 : World R) (o : Outcome (list Repo.t)) :
  GitHubClient.searchRepositories query options w = (o, w1) ->
  exists new,
    asks new w w1 /\ Forall (fun r => is_mutation r = false) new /\
    queries_once new w w1.
Proof.
  unfold GitHubClient.searchRepositories, try_catch, bind, throw, ret.
  destruct (GitHubClient.getUsername w) as [[user | message |] w0] eqn:Hu;
    apply getUsername_sends in Hu; destruct Hu as (new & Hu & Hnew & Hone & Hcached);
    assert (Hreads : Forall (fun r => is_mutation r = false) new)
      by (eapply Forall_impl; [| exact Hnew]; intros r ->; reflexivity);
    assert (Hq : identity_queries new <= 1)
      by (destruct Hone as [-> | ->]; cbn; lia).
  - match goal with
    | |- context [send ?req ?endpoint w0] =>
        assert (Hsent : forall o' w2,
                   send req endpoint w0 = (o', w2) ->
                   asks (new ++ [req]) w w2 /\ queries_once (new ++ [req]) w w2)
    end.
    { intros o' w2 Hs. apply sends_one in Hs. split.
      - eapply asks_trans; [eassumption | apply sends_asks; eassumption].
      - unfold queries_once. rewrite identity_queries_app.
        change (identity_queries [SearchRepos _]) with 0. rewrite Nat.add_0_r.
        split; [exact Hq |]. intros Hc. destruct (Hcached Hc) as [-> Hsame].
        destruct Hs as (_ & Hsame' & _). split; [reflexivity | congruence]. }
    destruct (send _ _ w0) as [[items | message |] w2] eqn:Hs;
      destruct (Hsent _ _ eq_refl) as [Ha Hq'];
      intros H; injection H as _ <-;
      (eexists; split; [exact Ha |]; split; [| exact Hq']);
      apply Forall_app; split; auto.
  - intros H. injection H as _ <-. exists new. unfold queries_once.
    repeat match goal with |- _ /\ _ => split end; auto;
      intros Hc; destruct (Hcached Hc) as [-> Hsame]; auto.
  - intros H. injection H as _ <-. exists new. unfold queries_once.
    repeat match goal with |- _ /\ _ => split end; auto;
      intros Hc; destruct (Hcached Hc) as [-> Hsame]; auto.
Qed.

(** A bulk method of the client returns, and its requests are those of
    the targets. *)
Lemma wp_bulk {B} (run : list Repo.t -> M R (Bulk B)) (req : Repo.t -> Request)
    (repos : list Repo.t) (Q : Outcome (Bulk B) -> World R -> Prop) (w : World R) :
  bulk_effects run req ->
  (forall b w1, sends (map req repos) w w1 -> Q (Ok b) w1) ->
  wp (run repos) Q w.
Proof.
  intros Hrun HQ. destruct (Hrun repos w) as ((b & Hb) & Hc & Hui & Hu).
  unfold wp. rewrite Hb. apply HQ. unfold ui in Hui. injection Hui as H1 H2 H3 H4 _.
  unfold sends. auto 10.
Qed.

Lemma wp_bulkDeleteRepositories (owner : string) (repos : list Repo.t)
    (Q : Outcome (Bulk Deleted) -> World R -> Prop) (w : World R) :
  (forall b w1,
      sends (map (fun repo => ReposDelete owner (Repo.name repo)) repos) w w1 ->
      Q (Ok b) w1) ->
  wp (GitHubClient.bulkDeleteRepositories owner repos) Q w.
Proof.
  apply (wp_bulk (run := GitHubClient.bulkDeleteRepositories owner)).
  apply (client_bulk_effects owner false).
Qed.

Lemma wp_bulkArchiveRepositories (owner : string) (repos : list Repo.t)
    (Q : Outcome (Bulk (Succeeded ArchiveResult)) -> World R -> Prop) (w : World R) :
  (forall b w1,
      sends (map (fun repo => ReposUpdate owner (Repo.name repo) (SetArchived true))
               repos) w w1 ->
      Q (Ok b) w1) ->
  wp (GitHubClient.bulkArchiveRepositories owner repos) Q w.
Proof.
  apply (wp_bulk (run := GitHubClient.bulkArchiveRepositories owner)).
  apply (client_bulk_effects owner false).
Qed.

Lemma wp_bulkUnarchiveRepositories (owner : string) (repos : list Repo.t)
    (Q : Outcome (Bulk (Succeeded ArchiveResult)) -> World R -> Prop) (w : World R) :
  (forall b w1,
      sends (map (fun repo => ReposUpdate owner (Repo.name repo) (SetArchived false))
               repos) w w1 ->
      Q (Ok b) w1) ->
  wp (GitHubClient.bulkUnarchiveRepositories owner repos) Q w.
Proof.
  apply (wp_bulk (run := GitHubClient.bulkUnarchiveRepositories owner)).
  apply (client_bulk_effects owner false).
Qed.

Lemma wp_bulkUpdateVisibility (owner : string) (repos : list Repo.t) (isPrivate : bool)
    (Q : Outcome (Bulk (Succeeded VisibilityResult)) -> World R -> Prop) (w : World R) :
  (forall b w1,
      sends (map (fun repo => ReposUpdate owner (Repo.name repo) (SetPrivate isPrivate))
               repos) w w1 ->
      Q (Ok b) w1) ->
  wp (GitHubClient.bulkUpdateVisibility owner repos isPrivate) Q w.
Proof.
  apply (wp_bulk (run := fun repos => GitHubClient.bulkUpdateVisibility owner repos
                                        isPrivate)).
  apply (client_bulk_effects owner isPrivate).
Qed.

End Logic.

(** ** Running a command step by step *)

Ltac tidy H :=
  cbn [remote calls username confirms checkboxes inputs choices console] in H.

Ltac head_of m :=
  lazymatch m with
  | ?f _ => head_of f
  | _ => m
  end.

(** The world of the goal, as a record of its fields. *)
Ltac world_nf :=
  lazymatch goal with
  | |- @wp ?R' ?A ?m ?Q ?W =>
      let W1 := eval cbv beta delta [with_remote with_calls with_username with_confirms
                                     with_checkboxes with_inputs with_choices
                                     with_console sent] in W in
      let W' := eval cbn [remote calls username confirms checkboxes inputs choices
                          console] in W1 in
      change (@wp R' A m Q W')
  | |- _ => idtac
  end.

(** What [F : sends new w w1] says, field by field. *)
Ltac sent_by F :=
  lazymatch type of F with
  | sends _ _ _ =>
      unfold sends in F; tidy F;
      destruct F as (?Hcalls & ?Husername & ?Hconfirms & ?Hcheckboxes & ?Hinputs
                     & ?Hchoices)
  | asks _ _ _ =>
      unfold asks in F; tidy F;
      destruct F as (?Hcalls & ?Hconfirms & ?Hcheckboxes & ?Hinputs & ?Hchoices)
  end.

(** A call of the client: the callee's lemma gives what it sent. *)
Ltac called lemma :=
  let o := fresh "o" in
  let w1 := fresh "w" in
  let H := fresh "Hcall" in
  let F := fresh "F" in
  apply wp_call; intros o w1 H;
  apply lemma in H;
  lazymatch type of H with
  | sends _ _ _ => rename H into F
  | _ =>
      let Q := fresh "Hqueries" in
      destruct H as (?new & F & ?Hnew & Q);
      unfold queries_once in Q; tidy Q; destruct Q as [?Hcount ?Hcached]
  end;
  sent_by F;
  destruct o as [?value | ?message |].

(** A listing: what it returns is the listing, or a filter of it. *)
Ltac called_listing lemma :=
  let o := fresh "o" in
  let w1 := fresh "w" in
  let H := fresh "Hcall" in
  let F := fresh "F" in
  let V := fresh "Hlisted" in
  let P := fresh "Hprovider" in
  apply wp_call; intros o w1 H;
  apply lemma in H; destruct H as (F & V & P);
  sent_by F;
  try match type of P with
      | context [GitHubClient.listRepositories no_options ?W] =>
          match W with
          | @Build_World _ (remote ?w0) _ _ _ _ _ _ _ =>
              rewrite (listed_remote w0 W eq_refl) in P
          end
      end;
  destruct o as [?value | ?message |];
  [ try match type of V with
        | context [listing ?W] =>
            match W with
            | @Build_World _ (remote ?w0) _ _ _ _ _ _ _ =>
                rewrite (listing_remote w0 W eq_refl) in V
            end
        end
  | clear V | clear V ].

(** [getRepository]: what it returns is what the tool sees under the
    name. *)
Ltac called_details :=
  let o := fresh "o" in
  let w1 := fresh "w" in
  let H := fresh "Hcall" in
  let F := fresh "F" in
  let V := fresh "Hfetched" in
  apply wp_call; intros o w1 H;
  apply getRepository_sends in H; destruct H as [F V];
  sent_by F;
  destruct o as [?value | ?message |];
  [ try match type of V with
        | context [fetched ?W ?owner ?repo] =>
            match W with
            | @Build_World _ (remote ?w0) _ _ _ _ _ _ _ =>
                rewrite (fetched_remote w0 W owner repo eq_refl) in V
            end
        end
  | clear V | clear V ].

(** [getUsername]: the call is kept when it is the first step. *)
Ltac called_user :=
  let o := fresh "o" in
  let w1 := fresh "w" in
  let H := fresh "Hcall" in
  let K := fresh "Huser" in
  let P := fresh "Hresolved" in
  let F := fresh "F" in
  let C := fresh "Hcached" in
  apply wp_call; intros o w1 H;
  pose proof H as K;
  pose proof (getUsername_resolved _ H) as P;
  apply getUsername_sends in H; destruct H as (?new & F & ?Hnew & ?Hidentity & C);
  sent_by F; tidy C;
  lazymatch type of K with
  | _ ?W = _ => tryif is_var W then idtac else clear K
  end;
  destruct o as [?value | ?message |]; [| clear P | clear P].

(** A prompt with a [validate] function. *)
Ltac asked lemma :=
  let o := fresh "o" in
  let w1 := fresh "w" in
  let H := fresh "Hcall" in
  let F := fresh "F" in
  let V := fresh "Hanswer" in
  apply wp_call; intros o w1 H;
  apply lemma in H; destruct H as [F V];
  unfold prompted in F; tidy F;
  destruct F as (?Hcalls & ?Hprovider & ?Husername & ?Hconfirms & ?Hchoices
                 & ?Hcheckboxes & ?Hinputs);
  destruct o as [?value | ?message |].

Ltac bulk_called lemma :=
  apply lemma;
  let F := fresh "F" in
  intros ?bulk ?w F; sent_by F.

Ltac wp_step :=
  lazymatch goal with
  | |- wp (bind _ _) _ _ => apply wp_bind
  | |- wp (try_catch _ _) _ _ => apply wp_try
  | |- wp (ret _) _ _ => apply wp_ret
  | |- wp (throw _) _ _ => apply wp_throw
  | |- wp (print _) _ _ => apply wp_print
  | |- wp (GitHubCommands.print_lines _) _ _ => apply wp_print_lines
  | |- wp (Utils.confirmAction _) _ _ =>
      let H := fresh "Hconfirm" in
      apply wp_confirmAction; [intros H | intros ?answer ?rest H]; tidy H
  | |- wp (Utils.confirmBulkAction _ _ _) _ _ =>
      let H := fresh "Hconfirm" in
      apply wp_confirmBulkAction;
      [intros ?shown H | intros ?shown ?answer ?rest H]; tidy H
  | |- wp (Utils.selectRepository _ _) _ _ =>
      let H := fresh "Hpick" in
      apply wp_selectRepository;
      [intros ?Hempty | intros H | intros ?i ?rest H ?Hnth
       | intros ?i ?rest ?selectedRepo H ?Hnth]; try tidy H
  | |- wp GitHubCommands.promptTargetVisibility _ _ =>
      let H := fresh "Hpick" in
      apply wp_promptTargetVisibility;
      [intros ?shown H | intros ?shown ?i ?rest H
       | intros ?shown ?i ?rest ?targetVisibility H ?Hnth]; tidy H
  | |- wp (Utils.selectMultipleRepositories _ _) _ _ =>
      asked selectMultipleRepositories_prompted
  | |- wp Utils.getSearchQuery _ _ => asked getSearchQuery_prompted
  | |- wp (GitHubClient.listRepositories no_options) _ _ =>
      called_listing listRepositories_sends
  | |- wp GitHubClient.listActiveRepositories _ _ =>
      unfold GitHubClient.listActiveRepositories;
      called_listing derived_listing_sends
  | |- wp GitHubClient.listArchivedRepositories _ _ =>
      unfold GitHubClient.listArchivedRepositories;
      called_listing derived_listing_sends
  | |- wp GitHubClient.listPublicRepositories _ _ =>
      unfold GitHubClient.listPublicRepositories;
      called_listing derived_listing_sends
  | |- wp GitHubClient.listPrivateRepositories _ _ =>
      unfold GitHubClient.listPrivateRepositories;
      called_listing derived_listing_sends
  | |- wp GitHubClient.getUsername _ _ => called_user
  | |- wp (GitHubClient.getRepository _ _) _ _ => called_details
  | |- wp (GitHubClient.getRepositoryStats _ _) _ _ => called getRepositoryStats_sends
  | |- wp (GitHubClient.searchRepositories _ _) _ _ => called searchRepositories_sends
  | |- wp (GitHubClient.deleteRepository _ _) _ _ => called deleteRepository_sends
  | |- wp (GitHubClient.updateRepositoryVisibility _ _ _) _ _ =>
      called updateRepositoryVisibility_sends
  | |- wp (GitHubClient.archiveRepository _ _) _ _ => called archiveRepository_sends
  | |- wp (GitHubClient.unarchiveRepository _ _) _ _ => called unarchiveRepository_sends
  | |- wp (GitHubClient.bulkDeleteRepositories _ _) _ _ =>
      bulk_called wp_bulkDeleteRepositories
  | |- wp (GitHubClient.bulkArchiveRepositories _ _) _ _ =>
      bulk_called wp_bulkArchiveRepositories
  | |- wp (GitHubClient.bulkUnarchiveRepositories _ _) _ _ =>
      bulk_called wp_bulkUnarchiveRepositories
  | |- wp (GitHubClient.bulkUpdateVisibility _ _ _) _ _ =>
      bulk_called wp_bulkUpdateVisibility
  | |- wp (if negb ?b then _ else _) _ _ => destruct b eqn:?; cbn [negb]
  | |- wp (if ?b then _ else _) _ _ => destruct b eqn:?
  | |- wp (match ?x with _ => _ end) _ _ => destruct x eqn:?
  | |- wp (let _ := _ in _) _ _ => cbv zeta
  | |- wp ?m _ _ => let h := head_of m in unfold h
  end.

Ltac wp_run := repeat (lazy beta iota; world_nf; wp_step).

(** The requests a run added, from what each step sent. *)
Ltac new_calls_in H :=
  unfold new_calls in H;
  cbv beta delta [with_remote with_calls with_username with_confirms
                  with_checkboxes with_inputs with_choices with_console sent] in H;
  cbn [remote calls username confirms checkboxes inputs choices console] in H;
  repeat match goal with
  | E : calls _ = _ |- _ => rewrite E in H
  end;
  repeat rewrite <- app_assoc in H;
  first [ rewrite skipn_length_app in H | rewrite skipn_all in H ].

Ltac new_calls_goal :=
  unfold new_calls;
  cbv beta delta [with_remote with_calls with_username with_confirms
                  with_checkboxes with_inputs with_choices with_console sent];
  cbn [remote calls username confirms checkboxes inputs choices console];
  repeat match goal with
  | E : calls _ = _ |- _ => rewrite E
  end;
  repeat rewrite <- app_assoc;
  first [ rewrite skipn_length_app | rewrite skipn_all ].

(** The cases of [Hin : In req new], for the requests [new] of a run. *)
Ltac which_request Hin :=
  new_calls_in Hin;
  repeat match type of Hin with
  | In _ (_ ++ _) => apply in_app_or in Hin; destruct Hin as [Hin | Hin]
  end;
  try match type of Hin with
  | In _ [] => destruct Hin
  | In ?r ?new =>
      match goal with
      | H : Forall _ new |- _ =>
          let H' := fresh "Hreq" in
          pose proof (proj1 (Forall_forall _ _) H r Hin) as H'; cbv beta in H'
      end
  | In _ (map _ _) =>
      apply in_map_iff in Hin; destruct Hin as (?target & ?Hreq & ?Htarget)
  | In _ (_ :: _) =>
      cbn [In] in Hin;
      repeat match type of Hin with
      | _ \/ _ => destruct Hin as [Hin | Hin]
      | False => destruct Hin
      end
  end.

(* ================================================================== *)
(** * Further properties: what the commands change                      *)
(* ================================================================== *)

(** The statement about the world a command ends in, as a [wp]. *)
Ltac as_wp :=
  lazymatch goal with
  | |- context [snd (?m ?w)] =>
      pattern (snd (m w));
      lazymatch goal with
      | |- ?P (snd (m w)) => change (wp m (fun _ => P) w)
      end
  end.

(** The cases of a mutating request among the requests of a run. *)
Ltac mutation :=
  let Hin := fresh "Hin" in
  let Hmut := fresh "Hmut" in
  lazy beta iota; intros Hin Hmut; which_request Hin;
  try match goal with
      | H : Forall _ ?new, Hin : In _ ?new |- _ => clear Hin
      end;
  subst; try discriminate.

(** A fact that follows from the answers the steps took. *)
Ltac chain :=
  first [ eassumption | reflexivity
        | etransitivity; [symmetry; eassumption |]; chain ].

(** A target of a bulk request is an entry of the listing. *)
Ltac targets :=
  repeat match goal with
  | Hi : incl ?l _, Ht : In _ ?l |- _ => apply Hi in Ht
  | Ht : In _ (filter _ _) |- _ =>
      let Hk := fresh "Hkept" in
      apply filter_In in Ht; destruct Ht as [Ht Hk];
      try apply negb_true_iff in Hk
  end.

(** The owner of a request is the username resolved after the listing. *)
Ltac pinned :=
  lazymatch goal with
  | P : resolved ?W = Some _ |- resolved _ = Some _ =>
      transitivity (resolved W);
      [ apply resolved_same; cbn [remote username];
        rewrite ?listRepositories_username; congruence
      | exact P ]
  end.

Ltac found := repeat eexists; first [chain | pinned].

Section Targets.

Context {R : Type} {octokit : Octokit R}.

(** X8.  [deleteRepository] sends a delete request only after the user
    picked an entry of the listing and said yes to the confirmation.
    The request is addressed by name: its owner is the username
    resolved after the listing, and its name that of the picked entry. *)
Theorem deleteRepository_deletes_the_pick (w : World R) (req : Request) :
  In req (new_calls w (snd (GitHubCommands.deleteRepository w))) ->
  is_mutation req = true ->
  exists i picks repo rest owner,
    choices w = i :: picks /\ nth_error (listing w) i = Some repo /\
    confirms w = true :: rest /\
    resolved (snd (GitHubClient.listRepositories no_options w)) = Some owner /\
    req = ReposDelete owner (Repo.name repo).
Proof.
  as_wp. wp_run. all: mutation. all: found.
Qed.

(** X9.  [changeRepositoryVisibility] sends an update only after the
    user picked an entry of the listing and said yes to the
    confirmation.  The update is addressed to the username resolved
    after the listing and the name of the picked entry, and sets the
    visibility to the opposite of what the listing shows for that
    entry. *)
Theorem changeRepositoryVisibility_toggles_the_pick (w : World R) (req : Request) :
  In req (new_calls w (snd (GitHubCommands.changeRepositoryVisibility w))) ->
  is_mutation req = true ->
  exists i picks repo rest owner,
    choices w = i :: picks /\ nth_error (listing w) i = Some repo /\
    confirms w = true :: rest /\
    resolved (snd (GitHubClient.listRepositories no_options w)) = Some owner /\
    req = ReposUpdate owner (Repo.name repo) (SetPrivate (negb (Repo.private repo))).
Proof.
  as_wp. wp_run. all: mutation. all: found.
Qed.

(** X10.  [archiveRepository] offers the active entries of the listing
    and [unarchiveRepository] the archived ones.  The only update
    either sends comes after the user picked one of them and said yes
    to the confirmation; it is addressed to the username resolved after
    the listing and the name of the picked entry, and it archives when
    the entry is not archived, or unarchives when it is. *)
Theorem archive_commands_pick_by_state (w : World R) (req : Request) :
  (In req (new_calls w (snd (GitHubCommands.archiveRepository w))) ->
   is_mutation req = true ->
   exists i picks repo rest owner,
     choices w = i :: picks /\
     nth_error (filter (fun repo => negb (Repo.archived repo)) (listing w)) i = Some repo /\
     In repo (listing w) /\ Repo.archived repo = false /\
     confirms w = true :: rest /\
     resolved (snd (GitHubClient.listRepositories no_options w)) = Some owner /\
     req = ReposUpdate owner (Repo.name repo) (SetArchived true)) /\
  (In req (new_calls w (snd (GitHubCommands.unarchiveRepository w))) ->
   is_mutation req = true ->
   exists i picks repo rest owner,
     choices w = i :: picks /\
     nth_error (filter (fun repo => Repo.archived repo) (listing w)) i = Some repo /\
     In repo (listing w) /\ Repo.archived repo = true /\
     confirms w = true :: rest /\
     resolved (snd (GitHubClient.listRepositories no_options w)) = Some owner /\
     req = ReposUpdate owner (Repo.name repo) (SetArchived false)).
Proof.
  split.
  - as_wp. wp_run. all: mutation.
    all: pose proof (nth_error_In _ _ Hnth) as Hkept; apply filter_In in Hkept;
      destruct Hkept as [Hl Hk]; apply negb_true_iff in Hk.
    all: found.
  - as_wp. wp_run. all: mutation.
    all: pose proof (nth_error_In _ _ Hnth) as Hkept; apply filter_In in Hkept;
      destruct Hkept as [Hl Hk].
    all: found.
Qed.


(** X11.  The bulk commands send their requests only after a yes to the
    confirmation (two for the bulk deletion).  Each request is
    addressed to the username resolved after the listing and the name
    of an entry of the listing: the bulk archiving archives under the
    names of entries that are not archived, the bulk unarchiving
    unarchives under the names of entries that are, and the bulk
    deletion deletes. *)
Theorem bulk_commands_target_the_listing (w : World R) (req : Request) :
  (In req (new_calls w (snd (GitHubCommands.bulkDeleteRepositories w))) ->
   is_mutation req = true ->
   exists repo rest owner,
     In repo (listing w) /\ confirms w = true :: true :: rest /\
     resolved (snd (GitHubClient.listRepositories no_options w)) = Some owner /\
     req = ReposDelete owner (Repo.name repo)) /\
  (In req (new_calls w (snd (GitHubCommands.bulkArchiveRepositories w))) ->
   is_mutation req = true ->
   exists repo rest owner,
     In repo (listing w) /\ Repo.archived repo = false /\
     confirms w = true :: rest /\
     resolved (snd (GitHubClient.listRepositories no_options w)) = Some owner /\
     req = ReposUpdate owner (Repo.name repo) (SetArchived true)) /\
  (In req (new_calls w (snd (GitHubCommands.bulkUnarchiveRepositories w))) ->
   is_mutation req = true ->
   exists repo rest owner,
     In repo (listing w) /\ Repo.archived repo = true /\
     confirms w = true :: rest /\
     resolved (snd (GitHubClient.listRepositories no_options w)) = Some owner /\
     req = ReposUpdate owner (Repo.name repo) (SetArchived false)).
Proof.
  split; [| split].
  - as_wp. wp_run. all: mutation. all: targets; found.
  - as_wp. wp_run. all: mutation. all: targets; found.
  - as_wp. wp_run. all: mutation. all: targets; found.
Qed.

(** X12.  [bulkChangeRepositoryVisibility] asks for the target
    visibility first.  The updates it sends come only after a yes to
    the confirmation and set that visibility; each is addressed to the
    username resolved after the listing and the name of an entry of
    the listing that does not have the target visibility yet. *)
Theorem bulkChangeRepositoryVisibility_changes_the_others
    (w : World R) (req : Request) :
  In req (new_calls w (snd (GitHubCommands.bulkChangeRepositoryVisibility w))) ->
  is_mutation req = true ->
  exists i picks targetVisibility repo rest owner,
    choices w = i :: picks /\ nth_error [false; true] i = Some targetVisibility /\
    In repo (listing w) /\ Repo.private repo = negb targetVisibility /\
    confirms w = true :: rest /\
    resolved (snd (GitHubClient.listRepositories no_options w)) = Some owner /\
    req = ReposUpdate owner (Repo.name repo) (SetPrivate targetVisibility).
Proof.
  as_wp. wp_run. all: mutation. all: targets; found.
Qed.

(** X13.  [deleteRepositoryByName] looks the repository up before
    anything else: a delete request is sent only when the lookup under
    the resolved owner gave a repository and the user said yes, and it
    is for the name given.  The requests of such a run are exactly the
    identity query, which is not sent when the username is cached, then
    the lookup, then the delete. *)
Theorem deleteRepositoryByName_looks_up_first
    (repoName : string) (w : World R) (req : Request) :
  In req (new_calls w (snd (GitHubCommands.deleteRepositoryByName repoName w))) ->
  is_mutation req = true ->
  exists owner w1 repo rest identity,
    GitHubClient.getUsername w = (Ok owner, w1) /\
    fetched w1 owner repoName = Some repo /\
    confirms w = true :: rest /\
    req = ReposDelete owner repoName /\
    (identity = [] \/ identity = [UsersGetAuthenticated]) /\
    (has_username (username w) -> identity = []) /\
    new_calls w (snd (GitHubCommands.deleteRepositoryByName repoName w)) =
      identity ++ [ReposGet owner repoName; req].
Proof.
  as_wp. wp_run. all: mutation.
  all: match goal with
       | Hu : GitHubClient.getUsername _ = (Ok ?owner, ?w1),
         Hf : fetched ?w1 ?owner _ = Some ?repo,
         Hi : ?new = [] \/ _,
         Hc : has_username _ -> _ |- _ =>
           exists owner, w1, repo; eexists; exists new;
           repeat match goal with |- _ /\ _ => split end;
           [ exact Hu | exact Hf | chain | reflexivity | exact Hi
           | intros Hy; apply Hc; exact Hy
           | new_calls_goal; reflexivity ]
       end.
Qed.

End Targets.

Section ByName.

Context {R : Type} {octokit : Octokit R}.

(** X14.  The by-name handlers of the command line look the repository
    up under the resolved owner and act on what they find: the
    visibility handler sets the opposite of the visibility found, the
    archive handler sends its update only for a repository found not
    archived, and the unarchive handler only for one found archived;
    each after a yes to the confirmation, and for the name given. *)
Theorem by_name_handlers_act_on_what_they_find
    (repoName : string) (w : World R) (req : Request) :
  (In req (new_calls w (snd (GitHubManager.handleVisibilityChangeByName repoName w))) ->
   is_mutation req = true ->
   exists owner w1 repo rest,
     GitHubClient.getUsername w = (Ok owner, w1) /\
     fetched w1 owner repoName = Some repo /\
     confirms w = true :: rest /\
     req = ReposUpdate owner repoName (SetPrivate (negb (Repo.private repo)))) /\
  (In req (new_calls w (snd (GitHubManager.handleArchiveByName repoName w))) ->
   is_mutation req = true ->
   exists owner w1 repo rest,
     GitHubClient.getUsername w = (Ok owner, w1) /\
     fetched w1 owner repoName = Some repo /\ Repo.archived repo = false /\
     confirms w = true :: rest /\
     req = ReposUpdate owner repoName (SetArchived true)) /\
  (In req (new_calls w (snd (GitHubManager.handleUnarchiveByName repoName w))) ->
   is_mutation req = true ->
   exists owner w1 repo rest,
     GitHubClient.getUsername w = (Ok owner, w1) /\
     fetched w1 owner repoName = Some repo /\ Repo.archived repo = true /\
     confirms w = true :: rest /\
     req = ReposUpdate owner repoName (SetArchived false)).
Proof.
  split; [| split].
  - as_wp. wp_run. all: mutation. all: found.
  - as_wp. wp_run. all: mutation. all: found.
  - as_wp. wp_run. all: mutation. all: found.
Qed.

(** X15.  [handleDeleteByName] keeps the user in the prompt until the
    name typed is not blank, and hands the trimmed name on: a delete
    request is sent only for the trimmed form of an input of the user
    that is not empty, after a yes to the confirmation. *)
Theorem handleDeleteByName_deletes_the_typed_name (w : World R) (req : Request) :
  In req (new_calls w (snd (GitHubManager.handleDeleteByName w))) ->
  is_mutation req = true ->
  exists raw rest owner,
    In raw (inputs w) /\ Js.trim raw <> EmptyString /\
    confirms w = true :: rest /\
    req = ReposDelete owner (Js.trim raw).
Proof.
  as_wp. unfold GitHubManager.handleDeleteByName. apply wp_bind.
  asked (@name_prompted R); [| destruct Hanswer |].
  - destruct Hanswer as [Hraw Hblank]. wp_run. all: mutation. all: found.
  - mutation.
Qed.

End ByName.

(** A run: the user picks the second entry of the listing and confirms. *)
Lemma deleteRepository_deletes_the_pick_witness :
  exists i picks repo rest owner,
    choices (Model.picking_world 1 [true]) = i :: picks /\
    nth_error (listing (Model.picking_world 1 [true])) i = Some repo /\
    confirms (Model.picking_world 1 [true]) = true :: rest /\
    resolved (snd (GitHubClient.listRepositories no_options
                     (Model.picking_world 1 [true]))) = Some owner /\
    ReposDelete "alice" "notes" = ReposDelete owner (Repo.name repo).
Proof.
  apply (@deleteRepository_deletes_the_pick _ _ (Model.picking_world 1 [true])
           (ReposDelete "alice" "notes")).
  - vm_compute. auto.
  - reflexivity.
Defined.

(** The request is addressed by name under the username: when the user
    picks a repository of an organisation, the delete request goes to
    the repository of that name of the user. *)
Lemma deleteRepository_addresses_by_name :
  option_map Repo.full_name (nth_error (listing Model.shared_world) 0) = Some "org/tool" /\
  new_calls Model.shared_world (snd (GitHubCommands.deleteRepository Model.shared_world)) =
    [listing_request; ReposDelete "alice" "tool"].
Proof. split; reflexivity. Qed.

(** A run: the private repository picked is made public. *)
Lemma changeRepositoryVisibility_toggles_the_pick_witness :
  exists i picks repo rest owner,
    choices (Model.picking_world 1 [true]) = i :: picks /\
    nth_error (listing (Model.picking_world 1 [true])) i = Some repo /\
    confirms (Model.picking_world 1 [true]) = true :: rest /\
    resolved (snd (GitHubClient.listRepositories no_options
                     (Model.picking_world 1 [true]))) = Some owner /\
    ReposUpdate "alice" "notes" (SetPrivate false) =
      ReposUpdate owner (Repo.name repo) (SetPrivate (negb (Repo.private repo))).
Proof.
  apply (@changeRepositoryVisibility_toggles_the_pick _ _ (Model.picking_world 1 [true])
           (ReposUpdate "alice" "notes" (SetPrivate false))).
  - vm_compute. auto.
  - reflexivity.
Defined.

(** A run: the only active repository of the listing is archived. *)
Lemma archive_commands_pick_by_state_witness :
  exists i picks repo rest owner,
    choices (Model.picking_world 0 [true]) = i :: picks /\
    nth_error (filter (fun repo => negb (Repo.archived repo))
                 (listing (Model.picking_world 0 [true]))) i = Some repo /\
    In repo (listing (Model.picking_world 0 [true])) /\
    Repo.archived repo = false /\
    confirms (Model.picking_world 0 [true]) = true :: rest /\
    resolved (snd (GitHubClient.listRepositories no_options
                     (Model.picking_world 0 [true]))) = Some owner /\
    ReposUpdate "alice" "notes" (SetArchived true) =
      ReposUpdate owner (Repo.name repo) (SetArchived true).
Proof.
  apply (proj1 (@archive_commands_pick_by_state _ _ (Model.picking_world 0 [true])
                  (ReposUpdate "alice" "notes" (SetArchived true)))).
  - vm_compute. auto.
  - reflexivity.
Defined.

(** A run: both repositories of the listing are ticked and the two
    confirmations are answered with yes. *)
Lemma bulk_commands_target_the_listing_witness :
  exists repo rest owner,
    In repo (listing (Model.deleting_world [true; true])) /\
    confirms (Model.deleting_world [true; true]) = true :: true :: rest /\
    resolved (snd (GitHubClient.listRepositories no_options
                     (Model.deleting_world [true; true]))) = Some owner /\
    ReposDelete "alice" "old-site" = ReposDelete owner (Repo.name repo).
Proof.
  apply (proj1 (@bulk_commands_target_the_listing _ _ (Model.deleting_world [true; true])
                  (ReposDelete "alice" "old-site"))).
  - vm_compute. auto.
  - reflexivity.
Defined.

(** A run: the public repository of the listing is made private. *)
Lemma bulkChangeRepositoryVisibility_changes_the_others_witness :
  exists i picks targetVisibility repo rest owner,
    choices Model.hiding_world = i :: picks /\
    nth_error [false; true] i = Some targetVisibility /\
    In repo (listing Model.hiding_world) /\
    Repo.private repo = negb targetVisibility /\
    confirms Model.hiding_world = true :: rest /\
    resolved (snd (GitHubClient.listRepositories no_options Model.hiding_world))
      = Some owner /\
    ReposUpdate "alice" "old-site" (SetPrivate true) =
      ReposUpdate owner (Repo.name repo) (SetPrivate targetVisibility).
Proof.
  apply (@bulkChangeRepositoryVisibility_changes_the_others _ _ Model.hiding_world
           (ReposUpdate "alice" "old-site" (SetPrivate true))).
  - vm_compute. auto.
  - reflexivity.
Defined.

(** A run: the repository is found and the user confirms. *)
Lemma deleteRepositoryByName_looks_up_first_witness :
  exists owner w1 repo rest identity,
    GitHubClient.getUsername Model.naming_world = (Ok owner, w1) /\
    fetched w1 owner "notes" = Some repo /\
    confirms Model.naming_world = true :: rest /\
    ReposDelete "alice" "notes" = ReposDelete owner "notes" /\
    (identity = [] \/ identity = [UsersGetAuthenticated]) /\
    (has_username (username Model.naming_world) -> identity = []) /\
    new_calls Model.naming_world
      (snd (GitHubCommands.deleteRepositoryByName "notes" Model.naming_world)) =
      identity ++ [ReposGet owner "notes"; ReposDelete "alice" "notes"].
Proof.
  apply (@deleteRepositoryByName_looks_up_first _ _ "notes" Model.naming_world
           (ReposDelete "alice" "notes")).
  - vm_compute. auto.
  - reflexivity.
Defined.

(** A run: the repository found is not archived, and it is archived. *)
Lemma by_name_handlers_act_on_what_they_find_witness :
  exists owner w1 repo rest,
    GitHubClient.getUsername Model.naming_world = (Ok owner, w1) /\
    fetched w1 owner "notes" = Some repo /\ Repo.archived repo = false /\
    confirms Model.naming_world = true :: rest /\
    ReposUpdate "alice" "notes" (SetArchived true) =
      ReposUpdate owner "notes" (SetArchived true).
Proof.
  apply (proj1 (proj2 (@by_name_handlers_act_on_what_they_find _ _ "notes" Model.naming_world
                         (ReposUpdate "alice" "notes" (SetArchived true))))).
  - vm_compute. auto.
  - reflexivity.
Defined.

(** A run: the name is typed with blanks around it. *)
Lemma handleDeleteByName_deletes_the_typed_name_witness :
  exists raw rest owner,
    In raw (inputs Model.naming_world) /\ Js.trim raw <> EmptyString /\
    confirms Model.naming_world = true :: rest /\
    ReposDelete "alice" "notes" = ReposDelete owner (Js.trim raw).
Proof.
  apply (@handleDeleteByName_deletes_the_typed_name _ _ Model.naming_world
           (ReposDelete "alice" "notes")).
  - vm_compute. auto.
  - reflexivity.
Defined.

(* ================================================================== *)
(** * Further properties: what the commands leave alone                 *)
(* ================================================================== *)

(** The requests of a run are all of a kind. *)
Ltac all_requests :=
  lazy beta iota; new_calls_goal; unfold reads_only;
  repeat (apply Forall_app; split);
  try (eapply Forall_impl; [| eassumption]; cbv beta;
       first [ intros ? ->; reflexivity | intros ? ?; assumption ]);
  repeat constructor.

Section Reading.

Context {R : Type} {octokit : Octokit R}.

(** X16.  The commands that list, search, show details, show the
    account summary and debug the archive status only read: none of
    the requests they send changes the remote, whatever the provider
    answers and whatever the user types. *)
Theorem reading_commands_send_no_mutation (showDetails : bool) (w : World R) :
  reads_only (new_calls w (snd (GitHubCommands.listRepositories showDetails w))) /\
  reads_only (new_calls w (snd (GitHubCommands.searchRepositories w))) /\
  reads_only (new_calls w (snd (GitHubCommands.viewRepositoryDetails w))) /\
  reads_only (new_calls w (snd (GitHubCommands.showUserInfo w))) /\
  reads_only (new_calls w (snd (GitHubCommands.debugArchivedRepositories w))).
Proof.
  split; [| split; [| split; [| split]]].
  - as_wp. wp_run. all: all_requests.
  - as_wp. wp_run. all: all_requests.
  - as_wp. wp_run. all: all_requests.
  - as_wp. wp_run. all: all_requests.
  - as_wp. wp_run. all: all_requests.
Qed.

End Reading.

(* ================================================================== *)
(** * Further properties: errors and endings                            *)
(* ================================================================== *)

Section Throwing.

Context {R : Type} {octokit : Octokit R}.

Lemma print_never_throws (o : Out) : never_throws (R := R) (print o).
Proof. intros w. exact I. Qed.

Lemma ret_never_throws {A} (a : A) : never_throws (R := R) (ret a).
Proof. intros w. exact I. Qed.

Lemma bind_never_throws {A B} (m : M R A) (k : A -> M R B) :
  never_throws m -> (forall a, never_throws (k a)) -> never_throws (bind m k).
Proof.
  intros Hm Hk w. specialize (Hm w). unfold bind.
  destruct (m w) as [[a | message |] w1]; cbn in *; [apply Hk | contradiction | exact I].
Qed.

Lemma caught_never_throws {A} (body : M R A) (handler : string -> M R A) :
  (forall error, never_throws (handler error)) -> never_throws (try_catch body handler).
Proof.
  intros Hh w. unfold try_catch.
  destruct (body w) as [[a | message |] w1]; cbn; [exact I | apply Hh | exact I].
Qed.

End Throwing.

(** A command whose outermost statement is a [try] with a handler that
    only prints. *)
Ltac catches :=
  repeat first
    [ apply caught_never_throws; intros ?error
    | apply print_never_throws
    | apply ret_never_throws
    | apply bind_never_throws; [| intros ?a] ].

Section Catching.

Context {R : Type} {octokit : Octokit R}.

(** X17.  The commands that change something, the detail view and the
    archive debugging catch every error at their boundary: whatever the
    provider answers, they do not throw.  So do the by-name handlers of
    the command line. *)
Theorem commands_catch_their_errors (repoName : string) :
  never_throws (R := R) GitHubCommands.viewRepositoryDetails /\
  never_throws (R := R) GitHubCommands.deleteRepository /\
  never_throws (R := R) GitHubCommands.bulkDeleteRepositories /\
  never_throws (R := R) (GitHubCommands.deleteRepositoryByName repoName) /\
  never_throws (R := R) GitHubCommands.debugArchivedRepositories /\
  never_throws (R := R) GitHubCommands.changeRepositoryVisibility /\
  never_throws (R := R) GitHubCommands.bulkChangeRepositoryVisibility /\
  never_throws (R := R) GitHubCommands.archiveRepository /\
  never_throws (R := R) GitHubCommands.bulkArchiveRepositories /\
  never_throws (R := R) GitHubCommands.unarchiveRepository /\
  never_throws (R := R) GitHubCommands.bulkUnarchiveRepositories /\
  never_throws (R := R) (GitHubManager.handleVisibilityChangeByName repoName) /\
  never_throws (R := R) (GitHubManager.handleArchiveByName repoName) /\
  never_throws (R := R) (GitHubManager.handleUnarchiveByName repoName).
Proof.
  repeat split.
  all: lazymatch goal with |- never_throws ?m => let h := head_of m in unfold h end.
  all: catches.
Qed.

End Catching.

(** The choices left after a run, against those before it. *)
Ltac fewer_choices :=
  lazy beta iota;
  cbv beta delta [with_remote with_calls with_username with_confirms
                  with_checkboxes with_inputs with_choices with_console sent];
  cbn [remote calls username confirms checkboxes inputs choices console];
  repeat match goal with
  | H : choices _ = _ |- _ =>
      apply (f_equal (@List.length nat)) in H; cbn [List.length] in H
  end;
  lia.

Ltac takes :=
  let w := fresh "w" in
  intros w;
  lazymatch goal with
  | |- List.length (choices (snd (?m w))) <= _ =>
      change (wp m (fun _ w' => List.length (choices w') <= List.length (choices w)) w)
  end;
  wp_run; fewer_choices.

Section Session.

Context {R : Type} {octokit : Octokit R}.

Lemma reading_commands_take_choices (showDetails : bool) :
  takes_choices (R := R) (GitHubCommands.listRepositories showDetails) /\
  takes_choices (R := R) GitHubCommands.searchRepositories /\
  takes_choices (R := R) GitHubCommands.viewRepositoryDetails /\
  takes_choices (R := R) GitHubCommands.showUserInfo /\
  takes_choices (R := R) GitHubCommands.debugArchivedRepositories.
Proof.
 repeat split; takes.
Qed.

Lemma single_commands_take_choices (repoName : string) :
  takes_choices (R := R) GitHubCommands.deleteRepository /\
  takes_choices (R := R) (GitHubCommands.deleteRepositoryByName repoName) /\
  takes_choices (R := R) GitHubCommands.changeRepositoryVisibility /\
  takes_choices (R := R) GitHubCommands.archiveRepository /\
  takes_choices (R := R) GitHubCommands.unarchiveRepository.
Proof.
 repeat split; takes.
Qed.

Lemma bulk_commands_take_choices :
  takes_choices (R := R) GitHubCommands.bulkDeleteRepositories /\
  takes_choices (R := R) GitHubCommands.bulkChangeRepositoryVisibility /\
  takes_choices (R := R) GitHubCommands.bulkArchiveRepositories /\
  takes_choices (R := R) GitHubCommands.bulkUnarchiveRepositories.
Proof.
 repeat split; takes.
Qed.

End Session.

Section Menu.

Context {R : Type} {octokit : Octokit R}.

Lemma handleDeleteByName_takes_choices :
  takes_choices (R := R) GitHubManager.handleDeleteByName.
Proof.
  intros w.
  change (wp GitHubManager.handleDeleteByName
            (fun _ w' => List.length (choices w') <= List.length (choices w)) w).
  unfold GitHubManager.handleDeleteByName. apply wp_bind.
  asked (@name_prompted R); [| destruct Hanswer | fewer_choices].
  lazy beta iota.
  apply wp_call. intros o w1 Hcall.
  pose proof (proj1 (proj2 (single_commands_take_choices (Js.trim value))) w0) as Ht.
  rewrite Hcall in Ht. cbn [snd] in Ht. fewer_choices.
Qed.

Lemma handleDeleteByName_never_throws :
  never_throws (R := R) GitHubManager.handleDeleteByName.
Proof.
  unfold GitHubManager.handleDeleteByName. apply bind_never_throws.
  - intros w. cbv beta zeta.
    destruct (Utils.read_valid _ (inputs w)) as [shown [[raw rest] |]]; exact I.
  - intros a. unfold GitHubCommands.deleteRepositoryByName. catches.
Qed.

(** An action of the menu, run as a step of [handleAction]. *)
Lemma wp_action {A} (m : M R A) (Q : Outcome A -> World R -> Prop) (w : World R) :
  takes_choices m ->
  (forall o w1,
      List.length (choices w1) <= List.length (choices w) -> Q o w1) ->
  wp m Q w.
Proof.
  intros Ht HQ. apply HQ. apply Ht.
Qed.

Lemma handleAction_steps (action : string) (w : World R) :
  wp (GitHubManager.handleAction action)
    (fun o w' =>
       not_thrown o /\
       List.length (choices w') <= List.length (choices w) /\
       (forall code, o = Ok (Some code) -> action = "exit" /\ code = 0)) w.
Proof.
  destruct (reading_commands_take_choices false) as (? & ? & ? & ? & ?).
  destruct (single_commands_take_choices EmptyString) as (? & _ & ? & ? & ?).
  destruct bulk_commands_take_choices as (? & ? & ? & ?).
  pose proof handleDeleteByName_takes_choices.
  unfold GitHubManager.handleAction. apply wp_try.
  repeat match goal with
  | |- wp (if ?b then _ else _) _ _ => destruct b eqn:?
  end.
  all: apply wp_bind.
  all: try (apply wp_action; [assumption |]; intros [[] | message |] w1 Hle;
            lazy beta iota; repeat (first [apply wp_ret | apply wp_bind; apply wp_print]);
            lazy beta iota;
            cbn [choices with_console];
            (split; [exact I | split; [exact Hle | intros code Hc; discriminate]])).
  all: apply wp_print; lazy beta iota; apply wp_ret; cbn [choices with_console].
  - split; [exact I | split; [lia |]]. intros code Hc. injection Hc as <-.
    split; [apply String.eqb_eq; assumption | reflexivity].
  - split; [exact I | split; [lia |]]. intros code Hc. discriminate.
Qed.

Lemma showMainMenu_steps (w : World R) :
  wp GitHubManager.showMainMenu
    (fun o w' =>
       match o with
       | Ok action => In action GitHubManager.menu /\
                      S (List.length (choices w')) = List.length (choices w)
       | Throw _ => False
       | Blocked => True
       end) w.
Proof.
  unfold GitHubManager.showMainMenu, wp, bind, print.
  cbn [choices with_console].
  destruct (choices w) as [| i rest]; [exact I |].
  destruct (nth_error GitHubManager.menu i) as [action |] eqn:Hi; [| exact I].
  cbn [fst snd choices with_choices with_console].
  split; [eapply nth_error_In; eassumption | reflexivity].
Qed.

Lemma pressEnter_steps (w : World R) :
  wp GitHubManager.pressEnter
    (fun o w' => not_thrown o /\ choices w' = choices w) w.
Proof.
  unfold GitHubManager.pressEnter, wp.
  destruct (inputs w) as [| answer rest]; split; reflexivity || exact I.
Qed.

(** With one round of fuel for each answer left, the loop does not run
    out: it ends by the entry [exit], or a prompt waits. *)
Lemma menuLoop_ends (fuel : nat) :
  forall w : World R,
    List.length (choices w) < fuel ->
    match fst (GitHubManager.menuLoop fuel w) with
    | Ok (Some 0) | Blocked => True
    | _ => False
    end.
Proof.
  induction fuel as [| fuel IH]; intros w Hfuel; [lia |].
  change (wp (GitHubManager.menuLoop (S fuel))
            (fun o _ => match o with Ok (Some 0) | Blocked => True | _ => False end) w).
  cbn [GitHubManager.menuLoop]. apply wp_bind.
  pose proof (showMainMenu_steps w) as Hmenu. unfold wp in Hmenu |- * at 1.
  destruct (GitHubManager.showMainMenu w) as [[action | message |] w1];
    cbn [fst snd] in *; [| contradiction | exact I].
  destruct Hmenu as [_ Hone]. apply wp_bind.
  pose proof (handleAction_steps action w1) as Haction. unfold wp in Haction |- * at 1.
  destruct (GitHubManager.handleAction action w1) as [[[code |] | message |] w2];
    cbn [fst snd] in *; destruct Haction as (Hnot & Hle & Hexit);
    [| | contradiction | exact I].
  - destruct (Hexit code eq_refl) as [_ ->]. exact I.
  - apply wp_bind.
    pose proof (pressEnter_steps w2) as Henter. unfold wp in Henter |- * at 1.
    destruct (GitHubManager.pressEnter w2) as [[answer | message |] w3];
      cbn [fst snd] in *; destruct Henter as [Hnot' Hsame];
      [| contradiction | exact I].
    apply IH. rewrite Hsame. lia.
Qed.

End Menu.

Section Endings.

Context {R : Type} {octokit : Octokit R}.

(** X18.  [handleAction] contains every failure of an action: it does
    not throw whatever the action and whatever the provider answers, it
    ends the process only for the entry [exit], with code 0, and it
    puts no answer back. *)
Theorem handleAction_contains_failures (action : string) (w : World R) :
  not_thrown (fst (GitHubManager.handleAction action w)) /\
  (forall code,
      fst (GitHubManager.handleAction action w) = Ok (Some code) ->
      action = "exit" /\ code = 0) /\
  List.length (choices (snd (GitHubManager.handleAction action w)))
    <= List.length (choices w).
Proof.
  pose proof (handleAction_steps action w) as H. unfold wp in H. tauto.
Qed.

(** X19.  The interactive mode tests the connection with
    [showUserInfo] and then loops over the menu.  Every round of the
    loop takes an answer of the user, so with a round of fuel for each
    answer the loop is not cut: the process exits with code 0 through
    the entry [exit], exits with code 1, or waits at a prompt; no error
    escapes.  It exits with code 1 exactly when the connection test
    throws. *)
Theorem run_ends_by_exit (fuel : nat) (w : World R) :
  List.length (choices w) < fuel ->
  ended (fst (GitHubManager.run fuel w)) /\
  (fst (GitHubManager.run fuel w) = Exit 1 <->
   exists message,
     fst (GitHubCommands.showUserInfo
            (snd (Utils.displayInfo "Testing GitHub connection..." w)))
       = Throw message).
Proof.
  intros Hfuel. unfold GitHubManager.run, try_catch, bind.
  unfold Utils.displayInfo at 1 2 3. unfold print at 1 2 3. cbn [fst snd].
  set (w0 := with_console (console w ++ [DisplayInfo "Testing GitHub connection..."]) w).
  pose proof (proj1 (proj2 (proj2 (proj2 (reading_commands_take_choices false)))) w0)
    as Hle.
  destruct (GitHubCommands.showUserInfo w0) as [[[] | message |] w1]; cbn [fst snd] in *.
  - assert (Hlt : List.length (choices w1) < fuel) by (subst w0; cbn in Hle; lia).
    pose proof Hlt as Hloop. apply menuLoop_ends in Hloop.
    destruct (GitHubManager.menuLoop fuel w1) as [[[[| [| code]] |] | message |] w2];
      cbn [fst snd] in *; try contradiction;
      (split; [exact I |]); (split; [discriminate | intros [m Hm]; discriminate]).
  - split; [exact I |]. split; [eauto | reflexivity].
  - split; [exact I |]. split; [discriminate | intros [m Hm]; discriminate].
Qed.

End Endings.

(** A run: the entry [exit] of the menu. *)
Lemma handleAction_contains_failures_witness : "exit" = "exit" /\ 0 = 0.
Proof.
  apply (proj1 (proj2 (@handleAction_contains_failures _ _ "exit" Model.leaving_world)) 0).
  reflexivity.
Defined.

(** A run: the connection test succeeds and the user leaves through
    the entry [exit]. *)
Lemma run_ends_by_exit_witness :
  ended (fst (GitHubManager.run 2 Model.leaving_world)) /\
  (fst (GitHubManager.run 2 Model.leaving_world) = Exit 1 <->
   exists message,
     fst (GitHubCommands.showUserInfo
            (snd (Utils.displayInfo "Testing GitHub connection..." Model.leaving_world)))
       = Throw message).
Proof.
  apply (@run_ends_by_exit _ _ 2 Model.leaving_world). simpl. lia.
Defined.

Section CommandLine.

Context {R : Type} {octokit : Octokit R}.

Lemma newGitHubManager_ok (env : Env) (token : string) (w : World R) :
  GITHUB_TOKEN env = Some token -> token <> EmptyString ->
  GitHubManager.newGitHubManager env w = (Ok tt, with_username (GITHUB_USERNAME env) w).
Proof.
  intros Ht Hne. unfold GitHubManager.newGitHubManager. rewrite Ht.
  destruct token; [contradiction | reflexivity].
Qed.

(** The ending of a branch of [dispatch]. *)
Ltac branch_end :=
  lazy beta iota;
  repeat first [ apply wp_ret | apply wp_bind; apply wp_print; lazy beta iota ];
  split; [auto |];
  let Hin := fresh "Hin" in
  cbn [In]; intros Hin;
  repeat (destruct Hin as [Hin | Hin]; try discriminate Hin);
  try contradiction; try congruence; auto.

(** A command of [dispatch] that may throw: the handler of [dispatch]
    turns the error into the exit code 1. *)
Ltac exits_with_1 :=
  apply wp_bind; apply wp_call; intros [? | ? |] ? _; branch_end.

(** A command of [dispatch] that does not throw. *)
Ltac returns :=
  apply wp_bind; apply wp_call;
  let H := fresh "Hcall" in
  intros [? | ? |] ? H;
  [ branch_end
  | exfalso;
    lazymatch type of H with
    | ?m ?w = _ =>
        let Hn := fresh "Hn" in
        assert (Hn : never_throws m)
          by (let h := head_of m in unfold h; catches);
        specialize (Hn w); rewrite H in Hn; exact Hn
    end
  | branch_end ].

Lemma dispatch_steps (args : list string) (w : World R) :
  wp (GitHubManager.dispatch args)
    (fun o _ =>
       (o = Ok None \/ o = Ok (Some 1) \/ o = Blocked) /\
       (In (hd EmptyString args)
           ["visibility"; "archive"; "unarchive"; "delete"; "bulk-delete"] ->
        o = Ok None \/ o = Blocked)) w.
Proof.
  unfold GitHubManager.dispatch. cbv zeta.
  change (match args with c :: _ => c | [] => EmptyString end) with (hd EmptyString args).
  generalize (hd EmptyString args) as command. intros command.
  apply wp_try.
  destruct (String.eqb_spec command "list") as [-> | Hlist]; [exits_with_1 |].
  destruct (String.eqb_spec command "search") as [-> | Hsearch].
  { destruct (GitHubManager.argument args) as [query |]; [| exits_with_1].
    apply wp_bind, wp_print. lazy beta iota. exits_with_1. }
  destruct (String.eqb_spec command "visibility") as [-> | Hvis].
  { destruct (GitHubManager.argument args) as [name |]; returns. }
  destruct (String.eqb_spec command "archive") as [-> | Harc].
  { destruct (GitHubManager.argument args) as [name |]; returns. }
  destruct (String.eqb_spec command "unarchive") as [-> | Hunarc].
  { destruct (GitHubManager.argument args) as [name |]; returns. }
  destruct (String.eqb_spec command "delete") as [-> | Hdel].
  { destruct (GitHubManager.argument args) as [name |]; returns. }
  destruct (String.eqb_spec command "bulk-delete") as [-> | Hbulk]; [returns |].
  destruct (String.eqb_spec command "info") as [-> | Hinfo]; [exits_with_1 |].
  branch_end.
Qed.

(** X20.  Only [help] works without credentials.  With [help] as the
    first argument the process prints the usage text and exits with
    code 0, whatever the environment: the client is not constructed and
    nothing is sent.  In every other mode, a missing or empty
    GITHUB_TOKEN is an uncaught error of the constructor: nothing is
    printed and nothing is sent. *)
Theorem only_help_works_without_a_token
    (fuel : nat) (env : Env) (args : list string) (w : World R) :
  (forall rest,
      args = "help" :: rest ->
      GitHubManager.main fuel env args w =
        (Exit 0, with_console (console w ++ map ConsoleLog GitHubManager.usage) w)) /\
  (hd EmptyString args <> "help" ->
   GITHUB_TOKEN env = None \/ GITHUB_TOKEN env = Some EmptyString ->
   GitHubManager.main fuel env args w =
     (Uncaught "GitHub token not found. Please set GITHUB_TOKEN in your .env file", w)).
Proof.
  split.
  - intros rest ->. unfold GitHubManager.main. cbn [String.eqb Ascii.eqb Bool.eqb].
    rewrite print_lines_eq. reflexivity.
  - intros Hhelp Htoken. unfold GitHubManager.main, GitHubManager.newGitHubManager.
    destruct args as [| command rest].
    + destruct Htoken as [-> | ->]; reflexivity.
    + cbn [hd] in Hhelp. apply String.eqb_neq in Hhelp. rewrite Hhelp.
      destruct Htoken as [-> | ->]; reflexivity.
Qed.

(** X21.  The command line mode with a token.  The process ends with
    the script, exits with code 1, or waits at a prompt: no error
    escapes.  For [visibility], [archive], [unarchive], [delete] and
    [bulk-delete] it never exits with code 1, whatever fails: these
    commands catch their errors.  For a command that is not known it
    prints two lines and exits with code 1 without sending anything. *)
Theorem command_line_endings
    (fuel : nat) (env : Env) (token command : string) (rest : list string)
    (w : World R) :
  GITHUB_TOKEN env = Some token -> token <> EmptyString ->
  command <> "help" ->
  (fst (GitHubManager.main fuel env (command :: rest) w) = Done \/
   fst (GitHubManager.main fuel env (command :: rest) w) = Exit 1 \/
   fst (GitHubManager.main fuel env (command :: rest) w) = Pending) /\
  (In command ["visibility"; "archive"; "unarchive"; "delete"; "bulk-delete"] ->
   fst (GitHubManager.main fuel env (command :: rest) w) = Done \/
   fst (GitHubManager.main fuel env (command :: rest) w) = Pending) /\
  (~ In command ["list"; "search"; "visibility"; "archive"; "unarchive"; "delete";
                 "bulk-delete"; "info"] ->
   GitHubManager.main fuel env (command :: rest) w =
     (Exit 1,
      with_console
        (console w ++
         [ConsoleLog ("Unknown command: " ++ command);
          ConsoleLog ("Run " ++ Js.quoted "node index.js help"
                      ++ " for usage information")])
        (with_username (GITHUB_USERNAME env) w))).
Proof.
  intros Htoken Hne Hhelp. unfold GitHubManager.main.
  apply String.eqb_neq in Hhelp. rewrite Hhelp.
  rewrite (newGitHubManager_ok env w Htoken Hne).
  pose proof (dispatch_steps (command :: rest) (with_username (GITHUB_USERNAME env) w))
    as Hd.
  unfold wp in Hd. cbn [hd] in Hd. destruct Hd as [Hany Hcaught].
  split; [| split].
  - destruct (GitHubManager.dispatch _ _) as [o w2]. cbn [fst] in *.
    destruct Hany as [-> | [-> | ->]]; auto.
  - intros Hin. specialize (Hcaught Hin).
    destruct (GitHubManager.dispatch _ _) as [o w2]. cbn [fst] in *.
    destruct Hcaught as [-> | ->]; auto.
  - intros Hunknown. clear Hany Hcaught.
    unfold GitHubManager.dispatch. cbv zeta.
    repeat match goal with
    | |- context [String.eqb command ?s] =>
        let H := fresh in
        assert (H : String.eqb command s = false)
          by (apply String.eqb_neq; intros ->; apply Hunknown; cbn [In]; tauto);
        rewrite H; clear H
    end.
    unfold try_catch, bind, print, ret. cbn [console with_console with_username].
    rewrite <- app_assoc. reflexivity.
Qed.

(** X22.  A listing that fails ends the command line mode with code
    1: [listRepositories] reports the error and throws it again, and
    the handler of the command line reports it a second time. *)
Theorem a_failed_listing_exits_with_1
    (fuel : nat) (env : Env) (token : string) (rest : list string)
    (w : World R) (message : string) (r' : R) :
  GITHUB_TOKEN env = Some token -> token <> EmptyString ->
  repos_listForAuthenticatedUser (list_params no_options) (remote w)
    = (inl message, r') ->
  fst (GitHubManager.main fuel env ("list" :: rest) w) = Exit 1 /\
  console (snd (GitHubManager.main fuel env ("list" :: rest) w)) =
    console w ++
    [SpinnerStart "Fetching repositories...";
     SpinnerFail "Failed to fetch repositories";
     DisplayError ("Failed to list repositories: " ++ message);
     DisplayError ("Failed to list repositories: " ++ message)].
Proof.
  intros Htoken Hne Hfail. unfold GitHubManager.main.
  cbn [String.eqb Ascii.eqb Bool.eqb].
  rewrite (newGitHubManager_ok env w Htoken Hne).
  unfold GitHubManager.dispatch. cbv zeta. cbn [String.eqb Ascii.eqb Bool.eqb].
  unfold GitHubCommands.listRepositories, Utils.displayError, Utils.displayRepositoryList.
  unfold try_catch, bind, print, throw, ret.
  cbn [console with_console with_username].
  match goal with
  | |- context [GitHubClient.listRepositories no_options ?W] =>
      rewrite (listRepositories_eq no_options W)
  end.
  cbn [remote with_console with_username]. rewrite Hfail. cbn [fst snd outcome_of].
  cbn [fst snd console with_console sent with_remote with_calls with_username].
  split; [reflexivity |]. rewrite <- !app_assoc. reflexivity.
Qed.

End CommandLine.

(** A run: [list] without a token. *)
Lemma only_help_works_without_a_token_witness :
  GitHubManager.main 0 {| GITHUB_TOKEN := None; GITHUB_USERNAME := None |} ["list"]
    Model.anonymous_world =
    (Uncaught "GitHub token not found. Please set GITHUB_TOKEN in your .env file",
     Model.anonymous_world).
Proof.
  apply (proj2 (@only_help_works_without_a_token _ _ 0
                  {| GITHUB_TOKEN := None; GITHUB_USERNAME := None |} ["list"]
                  Model.anonymous_world)).
  - discriminate.
  - left. reflexivity.
Defined.

(** A run: [delete] of a repository that does not exist ends with the
    script, not with code 1. *)
Lemma command_line_endings_witness :
  fst (GitHubManager.main 0 Model.env ["delete"; "nothing"] Model.second_page_world) = Done \/
  fst (GitHubManager.main 0 Model.env ["delete"; "nothing"] Model.second_page_world) = Pending.
Proof.
  apply (proj1 (proj2 (@command_line_endings _ _ 0 Model.env "ghp_token" "delete"
                         ["nothing"] Model.second_page_world eq_refl
                         ltac:(discriminate) ltac:(discriminate)))).
  simpl. tauto.
Defined.

(** A run: the provider rejects the listing request. *)
Lemma a_failed_listing_exits_with_1_witness :
  fst (GitHubManager.main 0 Model.env ["list"] Model.rate_limited_world) = Exit 1.
Proof.
  apply (proj1 (@a_failed_listing_exits_with_1 _ _ 0 Model.env "ghp_token" []
                  Model.rate_limited_world "API rate limit exceeded"
                  (remote Model.rate_limited_world)
                  eq_refl ltac:(discriminate) eq_refl)).
Defined.
(* ================================================================== *)
(** * The identity query, process by process                            *)
(* ================================================================== *)

(** The log a run ends with, as the log it started from and what the
    steps added. *)
Ltac grown :=
  cbv beta delta [with_remote with_calls with_username with_confirms
                  with_checkboxes with_inputs with_choices with_console sent];
  cbn [remote calls username confirms checkboxes inputs choices console];
  repeat match goal with
  | E : calls _ = _ |- _ => rewrite E
  end;
  repeat rewrite <- app_assoc;
  first [ reflexivity | symmetry; apply app_nil_r ].

Section Counting.

Lemma identity_queries_cons (req : Request) (l : list Request) :
  identity_queries (req :: l) =
    (if is_identity_query req then 1 else 0) + identity_queries l.
Proof. unfold identity_queries. simpl. destruct (is_identity_query req); reflexivity. Qed.

Lemma identity_queries_nil : identity_queries [] = 0.
Proof. reflexivity. Qed.

End Counting.

(** The identity queries among the requests of a run, from what each
    step sent. *)
Ltac counted :=
  unfold queries_once;
  cbv beta delta [with_remote with_calls with_username with_confirms
                  with_checkboxes with_inputs with_choices with_console sent];
  cbn [remote calls username confirms checkboxes inputs choices console];
  repeat match goal with
  | H : _ = [] \/ _ = [UsersGetAuthenticated] |- _ => destruct H as [-> | ->]
  end;
  unfold listing_request;
  repeat first
    [ rewrite identity_queries_app
    | rewrite identity_queries_cons
    | rewrite identity_queries_nil
    | rewrite identity_queries_map by (intros; reflexivity) ];
  cbn [is_identity_query];
  (split; [lia |]);
  let Hc := fresh "Hc" in
  intros Hc;
  repeat match goal with
  | H : has_username ?c -> _ |- _ =>
      let K := fresh in
      assert (K : has_username c) by congruence;
      specialize (H K); clear K; destruct H as [? ?]
  end;
  try discriminate;
  (split; [lia | congruence]).

Ltac once_run :=
  let w := fresh "w" in
  intros w;
  lazymatch goal with
  | |- once w (snd (?m w)) => change (wp m (fun _ w' => once w w') w)
  end;
  wp_run;
  lazy beta iota; unfold once; eexists; (split; [grown | counted]).

Section Identity.

Context {R : Type} {octokit : Octokit R}.

Lemma reading_commands_resolve_once (showDetails : bool) :
  resolves_once (R := R) (GitHubCommands.listRepositories showDetails) /\
  resolves_once (R := R) GitHubCommands.searchRepositories /\
  resolves_once (R := R) GitHubCommands.viewRepositoryDetails /\
  resolves_once (R := R) GitHubCommands.showUserInfo /\
  resolves_once (R := R) GitHubCommands.debugArchivedRepositories.
Proof.
  repeat match goal with |- _ /\ _ => split end; once_run.
Qed.

Lemma single_commands_resolve_once (repoName : string) :
  resolves_once (R := R) GitHubCommands.deleteRepository /\
  resolves_once (R := R) (GitHubCommands.deleteRepositoryByName repoName) /\
  resolves_once (R := R) GitHubCommands.changeRepositoryVisibility /\
  resolves_once (R := R) GitHubCommands.archiveRepository /\
  resolves_once (R := R) GitHubCommands.unarchiveRepository.
Proof.
  repeat match goal with |- _ /\ _ => split end; once_run.
Qed.

Lemma bulk_commands_resolve_once :
  resolves_once (R := R) GitHubCommands.bulkDeleteRepositories /\
  resolves_once (R := R) GitHubCommands.bulkChangeRepositoryVisibility /\
  resolves_once (R := R) GitHubCommands.bulkArchiveRepositories /\
  resolves_once (R := R) GitHubCommands.bulkUnarchiveRepositories.
Proof.
  repeat match goal with |- _ /\ _ => split end; once_run.
Qed.

Lemma by_name_handlers_resolve_once (repoName : string) :
  resolves_once (R := R) (GitHubManager.handleVisibilityChangeByName repoName) /\
  resolves_once (R := R) (GitHubManager.handleArchiveByName repoName) /\
  resolves_once (R := R) (GitHubManager.handleUnarchiveByName repoName).
Proof.
  repeat match goal with |- _ /\ _ => split end; once_run.
Qed.

Lemma once_from (w w0 w1 : World R) :
  calls w0 = calls w -> username w0 = username w -> once w0 w1 -> once w w1.
Proof.
  intros Hc Hu (new & Hnew & Hle & Hcached). exists new. unfold queries_once.
  rewrite <- Hc, <- Hu. repeat split; auto; apply Hcached; assumption.
Qed.

Lemma once_to (w w1 w2 : World R) :
  once w w1 -> calls w2 = calls w1 -> username w2 = username w1 -> once w w2.
Proof.
  intros (new & Hnew & Hle & Hcached) Hc Hu. exists new. unfold queries_once.
  rewrite Hc, Hu. repeat split; auto; apply Hcached; assumption.
Qed.

Lemma once_quiet (w w1 : World R) :
  once w w1 -> has_username (username w) -> quiet w w1.
Proof.
  intros (new & Hnew & _ & Hcached) Hc. exists new. destruct (Hcached Hc). auto.
Qed.

Lemma quiet_trans (w w1 w2 : World R) : quiet w w1 -> quiet w1 w2 -> quiet w w2.
Proof.
  intros (new & Hnew & Hq & Hu) (new' & Hnew' & Hq' & Hu'). exists (new ++ new').
  rewrite Hnew', Hnew, app_assoc, identity_queries_app, Hq, Hq'.
  repeat split; congruence.
Qed.

Lemma quiet_same (w w1 : World R) :
  calls w1 = calls w -> username w1 = username w -> quiet w w1.
Proof. intros Hc Hu. exists []. rewrite app_nil_r. auto. Qed.

Lemma once_then_quiet (w w1 w2 : World R) : once w w1 -> quiet w1 w2 -> once w w2.
Proof.
  intros (new & Hnew & Hle & Hcached) (new' & Hnew' & Hq' & Hu'). exists (new ++ new').
  rewrite Hnew', Hnew, app_assoc. split; [reflexivity |].
  unfold queries_once. rewrite identity_queries_app, Hq', Nat.add_0_r.
  split; [exact Hle |]. intros Hc. destruct (Hcached Hc). split; congruence.
Qed.

(** A command run as a step of the menu or of the command line. *)
Lemma wp_resolves {A} (m : M R A) (Q : Outcome A -> World R -> Prop) (w : World R) :
  resolves_once m -> (forall o w1, once w w1 -> Q o w1) -> wp m Q w.
Proof. intros Hm HQ. apply HQ. apply Hm. Qed.

Lemma handleDeleteByName_resolves_once :
  resolves_once (R := R) GitHubManager.handleDeleteByName.
Proof.
  intros w.
  change (wp GitHubManager.handleDeleteByName (fun _ w' => once w w') w).
  unfold GitHubManager.handleDeleteByName. apply wp_bind.
  asked (@name_prompted R); [| destruct Hanswer |].
  - lazy beta iota. apply wp_resolves.
    + apply single_commands_resolve_once.
    + intros o w1. apply once_from; assumption.
  - apply once_to with (w1 := w); [| assumption | assumption].
    exists []. rewrite app_nil_r. split; [reflexivity |]. split; cbn; auto.
Qed.

(** The search of the command line when the query is an argument. *)
Lemma direct_search_resolves_once (query : string) :
  resolves_once (R := R)
    (print (SpinnerStart ("Searching for repositories matching "
                          ++ Js.quoted query ++ "...")) ;;
     (try (repos <- GitHubClient.searchRepositories query no_search_options ;;
           print (SpinnerSucceed ("Found " ++ Js.toString (List.length repos)
                                  ++ " repositories matching "
                                  ++ Js.quoted query)) ;;
           Utils.displayRepositoryList repos false)
      catch (fun error =>
               print (SpinnerFail "Failed to search repositories") ;;
               Utils.displayError error)) ;;
     ret (@None nat)).
Proof.
  intros w.
  match goal with
  | |- once w (snd (?m w)) => change (wp m (fun _ w' => once w w') w)
  end.
  wp_run; lazy beta iota; unfold once; eexists; (split; [grown | counted]).
Qed.

(** The rest of a branch of [handleAction] or [dispatch]: it prints. *)
Ltac printed :=
  lazy beta iota;
  try unfold Utils.displayError; try unfold Utils.displaySuccess;
  repeat first [ apply wp_ret | apply wp_bind; apply wp_print; lazy beta iota
               | apply wp_print; lazy beta iota ];
  lazymatch goal with
  | H : once _ _ |- once _ _ => eapply once_to; [exact H | reflexivity | reflexivity]
  | |- once ?w _ =>
      apply once_to with (w1 := w); [| reflexivity | reflexivity];
      exists []; rewrite app_nil_r; split; [reflexivity |]; split; cbn; auto
  end.

(** A command as a branch of [handleAction] or [dispatch]. *)
Ltac command lemma :=
  apply wp_bind; apply wp_resolves; [apply lemma |];
  let H := fresh "Hrun" in
  intros [? | ? |] ? H; printed.

Lemma handleAction_resolves_once (action : string) :
  resolves_once (R := R) (GitHubManager.handleAction action).
Proof.
  intros w.
  change (wp (GitHubManager.handleAction action) (fun _ w' => once w w') w).
  destruct (reading_commands_resolve_once false) as (? & ? & ? & ? & ?).
  destruct (single_commands_resolve_once EmptyString) as (? & _ & ? & ? & ?).
  destruct bulk_commands_resolve_once as (? & ? & ? & ?).
  pose proof handleDeleteByName_resolves_once.
  unfold GitHubManager.handleAction. apply wp_try.
  repeat match goal with
  | |- wp (if ?b then _ else _) _ _ => destruct b eqn:?
  end.
  all: try (apply wp_bind; apply wp_resolves; [assumption |];
            intros [? | ? |] ? Hrun; printed).
  all: printed.
Qed.

Lemma dispatch_resolves_once (args : list string) :
  resolves_once (R := R) (GitHubManager.dispatch args).
Proof.
  intros w.
  change (wp (GitHubManager.dispatch args) (fun _ w' => once w w') w).
  destruct (reading_commands_resolve_once (Js.includes args "--details"))
    as (Hlist & Hsearch & _ & Hinfo & _).
  destruct (single_commands_resolve_once EmptyString)
    as (Hdelete & _ & Hvisibility & Harchive & Hunarchive).
  destruct bulk_commands_resolve_once as (Hbulk & _).
  unfold GitHubManager.dispatch. cbv zeta. apply wp_try.
  repeat match goal with
  | |- wp (if ?b then _ else _) _ _ => destruct b eqn:?
  | |- wp (match GitHubManager.argument args with _ => _ end) _ _ =>
      destruct (GitHubManager.argument args) as [name |]
  end.
  all: try (apply wp_bind; apply wp_resolves; [assumption |];
            intros [? | ? |] ? Hrun; printed).
  all: try (apply wp_resolves; [apply direct_search_resolves_once |];
            intros [? | ? |] ? Hrun; printed).
  all: try (command (fun n => proj1 (by_name_handlers_resolve_once n))).
  all: try (command (fun n => proj1 (proj2 (by_name_handlers_resolve_once n)))).
  all: try (command (fun n => proj2 (proj2 (by_name_handlers_resolve_once n)))).
  all: try (command (fun n => proj1 (proj2 (single_commands_resolve_once n)))).
  all: printed.
Qed.

Lemma showMainMenu_quiet (w : World R) : quiet w (snd (GitHubManager.showMainMenu w)).
Proof.
  apply quiet_same; unfold GitHubManager.showMainMenu, bind, print;
    cbn [choices with_console];
    destruct (choices w) as [| i rest]; [reflexivity | | reflexivity |];
    destruct (nth_error GitHubManager.menu i); reflexivity.
Qed.

Lemma pressEnter_quiet (w : World R) : quiet w (snd (GitHubManager.pressEnter w)).
Proof.
  apply quiet_same; unfold GitHubManager.pressEnter;
    destruct (inputs w); reflexivity.
Qed.

Lemma quiet_cached (w w1 : World R) :
  quiet w w1 -> has_username (username w) -> has_username (username w1).
Proof. intros (new & _ & _ & ->). exact (fun H => H). Qed.

(** With a cached username the menu loop sends no identity query,
    however long it runs. *)
Lemma menuLoop_quiet (fuel : nat) :
  forall w : World R,
    has_username (username w) -> quiet w (snd (GitHubManager.menuLoop fuel w)).
Proof.
  induction fuel as [| fuel IH]; intros w Hc; cbn [GitHubManager.menuLoop].
  - apply quiet_same; reflexivity.
  - unfold bind.
    pose proof (showMainMenu_quiet w) as Hm.
    destruct (GitHubManager.showMainMenu w) as [[action | message |] w1];
      cbn [snd] in *; try exact Hm.
    pose proof (quiet_cached Hm Hc) as Hc1.
    pose proof (once_quiet (handleAction_resolves_once action w1) Hc1) as Ha.
    destruct (GitHubManager.handleAction action w1) as [[[code |] | message |] w2];
      cbn [snd] in *; try (eapply quiet_trans; eassumption).
    pose proof (quiet_cached Ha Hc1) as Hc2.
    pose proof (pressEnter_quiet w2) as He.
    destruct (GitHubManager.pressEnter w2) as [[answer | message |] w3];
      cbn [snd] in *;
      try (eapply quiet_trans; [exact Hm | eapply quiet_trans; eassumption]).
    eapply quiet_trans; [exact Hm |]. eapply quiet_trans; [exact Ha |].
    eapply quiet_trans; [exact He |]. apply IH. exact (quiet_cached He Hc2).
Qed.

(** A username that [getUsername] returns is cached, provided that the
    login the provider answers with is not empty. *)
Lemma getUsername_caches (w w1 : World R) (user : string) :
  (forall data r',
      users_getAuthenticated (remote w) = (inr data, r') -> login data <> EmptyString) ->
  GitHubClient.getUsername w = (Ok user, w1) -> has_username (username w1).
Proof.
  intros Hp. unfold GitHubClient.getUsername, try_catch, bind, send, throw, ret.
  destruct (username w) as [[| c u] |] eqn:Hu; cbn [Js.truthy].
  2: { intros H. injection H as <- <-. exists (String c u). split; [assumption | discriminate]. }
  all: destruct (users_getAuthenticated (remote w)) as [[message | data] r'] eqn:Hq;
    intros H; try discriminate H; injection H as <- <-;
    exists (login data); (split; [reflexivity | eapply Hp; reflexivity]).
Qed.

(** After the connection test the username is cached. *)
Lemma showUserInfo_caches (w : World R) :
  (forall data r',
      users_getAuthenticated (remote w) = (inr data, r') -> login data <> EmptyString) ->
  wp GitHubCommands.showUserInfo
    (fun o w' => match o with Ok _ => has_username (username w') | _ => True end) w.
Proof.
  intros Hp. unfold GitHubCommands.showUserInfo.
  apply wp_bind, wp_print. lazy beta iota. apply wp_try, wp_bind, wp_call.
  intros [user | message |] w1 Hu.
  - apply getUsername_caches in Hu; [| exact Hp].
    wp_run; lazy beta iota;
      first [exact I | unfold with_console; cbn [username]; congruence].
  - wp_run; exact I.
  - exact I.
Qed.

(** The interactive mode sends at most one identity query. *)
Lemma run_resolves_once (fuel : nat) (w : World R) :
  (forall data r',
      users_getAuthenticated (remote w) = (inr data, r') -> login data <> EmptyString) ->
  once w (snd (GitHubManager.run fuel w)).
Proof.
  intros Hp. unfold GitHubManager.run.
  match goal with
  | |- once w (snd (match ?body w with _ => _ end)) =>
      assert (Hbody : once w (snd (body w)));
      [| destruct (body w) as [[[code |] | message |] w']; exact Hbody]
  end.
  unfold try_catch, bind. unfold Utils.displayInfo at 1. unfold print at 1.
  set (w0 := with_console (console w ++ [DisplayInfo "Testing GitHub connection..."]) w).
  pose proof (proj1 (proj2 (proj2 (proj2 (reading_commands_resolve_once false)))) w0)
    as Hinfo.
  pose proof (showUserInfo_caches w0 Hp) as Hcached. unfold wp in Hcached.
  apply once_from with (w := w) in Hinfo; [| reflexivity | reflexivity].
  destruct (GitHubCommands.showUserInfo w0) as [[[] | message |] w1];
    cbn [fst snd] in *.
  - pose proof (menuLoop_quiet fuel w1 Hcached) as Hloop.
    pose proof (once_then_quiet Hinfo Hloop) as Hall.
    destruct (GitHubManager.menuLoop fuel w1) as [[exited | message |] w2];
      cbn [fst snd] in *; exact Hall.
  - exact Hinfo.
  - exact Hinfo.
Qed.

Lemma new_calls_grown (w w1 : World R) (new : list Request) :
  calls w1 = calls w ++ new -> new_calls w w1 = new.
Proof. intros H. unfold new_calls. rewrite H. apply skipn_length_app. Qed.

(** Every mode of the script sends at most one identity query, and none
    with a GITHUB_USERNAME. *)
Lemma main_resolves_once (fuel : nat) (env : Env) (args : list string) (w : World R) :
  (args = [] ->
   forall data r',
     users_getAuthenticated (remote w) = (inr data, r') -> login data <> EmptyString) ->
  identity_queries (new_calls w (snd (GitHubManager.main fuel env args w))) <= 1 /\
  (has_username (GITHUB_USERNAME env) ->
   identity_queries (new_calls w (snd (GitHubManager.main fuel env args w))) = 0).
Proof.
  intros Hp.
  assert (Hstart : forall w' : World R,
             once (with_username (GITHUB_USERNAME env) w) w' ->
             identity_queries (new_calls w w') <= 1 /\
             (has_username (GITHUB_USERNAME env) -> identity_queries (new_calls w w') = 0)).
  { intros w' (new & Hnew & Hle & Hcached). cbn [calls username with_username] in *.
    rewrite (@new_calls_grown w w' new Hnew). split; [exact Hle |].
    intros Hc. apply Hcached. exact Hc. }
  assert (Hnone : forall w' : World R,
             calls w' = calls w ->
             identity_queries (new_calls w w') <= 1 /\
             (has_username (GITHUB_USERNAME env) -> identity_queries (new_calls w w') = 0)).
  { intros w' Hsame. rewrite <- (app_nil_r (calls w)) in Hsame.
    rewrite (@new_calls_grown w w' [] Hsame). cbn. auto. }
  unfold GitHubManager.main, GitHubManager.newGitHubManager.
  destruct args as [| command rest].
  - destruct (GITHUB_TOKEN env) as [token |]; [destruct (Js.truthy token) |];
      try (apply Hnone; reflexivity).
    apply Hstart. apply run_resolves_once. exact (Hp eq_refl).
  - destruct (String.eqb command "help").
    { rewrite print_lines_eq. apply Hnone. reflexivity. }
    destruct (GITHUB_TOKEN env) as [token |]; [destruct (Js.truthy token) |];
      try (apply Hnone; reflexivity).
    pose proof (dispatch_resolves_once (command :: rest)
                  (with_username (GITHUB_USERNAME env) w)) as Hd.
    destruct (GitHubManager.dispatch (command :: rest) _) as [[[code |] | message |] w2];
      cbn [snd] in *; apply Hstart; exact Hd.
Qed.

End Identity.

(** C7.  [getUsername] returns a cached, non-empty username without a
    request and without any change of the world, however often it is
    called.  Without one, a call sends one identity query; when the
    query succeeds the login is returned and cached, so that every
    later call returns that login and sends nothing.  And a process
    sends at most one identity query, whatever its mode, its arguments,
    the answers of the provider and those of the user, and none when
    GITHUB_USERNAME is set: a command resolves the username at most
    once, and the interactive mode resolves it in its connection test,
    before the menu, so that the bound holds after any number of rounds
    of the menu.  The interactive mode relies on the login of the
    provider's answer not being empty: an empty login is falsy and
    would not count as cached. *)
Theorem username_resolved_once_per_process
    {R : Type} {octokit : Octokit R}
    (fuel : nat) (env : Env) (args : list string) (w : World R) :
  (args = [] ->
   forall data r',
     users_getAuthenticated (remote w) = (inr data, r') -> login data <> EmptyString) ->
  identity_queries (new_calls w (snd (GitHubManager.main fuel env args w))) <= 1 /\
  (has_username (GITHUB_USERNAME env) ->
   identity_queries (new_calls w (snd (GitHubManager.main fuel env args w))) = 0) /\
  (forall (w' : World R) u n,
      username w' = Some u -> u <> EmptyString ->
      in_a_row n GitHubClient.getUsername w' = (repeat (Ok u) n, w')) /\
  (forall w' : World R,
      username w' = None \/ username w' = Some EmptyString ->
      GitHubClient.getUsername w' =
        match users_getAuthenticated (remote w') with
        | (inr data, r') =>
            (Ok (login data),
             with_username (Some (login data)) (sent UsersGetAuthenticated r' w'))
        | (inl message, r') =>
            (Throw ("Failed to get username: " ++ message),
             sent UsersGetAuthenticated r' w')
        end) /\
  (forall (w' : World R) data r' n,
      username w' = None \/ username w' = Some EmptyString ->
      users_getAuthenticated (remote w') = (inr data, r') ->
      login data <> EmptyString ->
      in_a_row (S n) GitHubClient.getUsername w' =
        (repeat (Ok (login data)) (S n),
         with_username (Some (login data)) (sent UsersGetAuthenticated r' w'))).
Proof.
  intros Hp. destruct (@main_resolves_once _ _ fuel env args w Hp) as [Hle Hnone].
  split; [exact Hle |]. split; [exact Hnone |]. split; [| split].
  - intros w' u n Hu Hne. apply in_a_row_cached; assumption.
  - apply getUsername_query.
  - intros w' data r' n Hu Hq Hne.
    cbn [in_a_row]. rewrite (getUsername_query w' Hu), Hq.
    rewrite in_a_row_cached with (u := login data);
      [reflexivity | reflexivity | assumption].
Qed.

(** An interactive session started without GITHUB_USERNAME: the
    connection test sends the identity query, and the account summary
    the user then asks for in the menu sends none. *)
Lemma username_resolved_once_per_process_witness :
  identity_queries
    (new_calls Model.returning_world
       (snd (GitHubManager.main 3 Model.anonymous_env [] Model.returning_world))) <= 1 /\
  new_calls Model.returning_world
    (snd (GitHubManager.main 3 Model.anonymous_env [] Model.returning_world)) =
    [UsersGetAuthenticated; listing_request; listing_request] /\
  fst (GitHubManager.main 3 Model.anonymous_env [] Model.returning_world) = Exit 0.
Proof.
  split; [| split; reflexivity].
  apply (@username_resolved_once_per_process _ _ 3 Model.anonymous_env []
           Model.returning_world).
  intros _ data r' H. vm_compute in H. injection H as <- _. discriminate.
Defined.
